(** * openFraming: dataset validation, splitting and background training jobs

    A shallow embedding of
      - [src/backend/flask_app/app.py]  (the [Classifiers] and
        [ClassifiersTrainingFile] resources), and
      - [src/services/web/backend/flask_app/modeling/tasks.py]
        (the RQ tasks [do_classifier_related_task] and
        [do_topic_model_related_task]),
    followed by the properties of the specification that concern them.

    Python code is rendered in a state-and-exception monad: a computation
    takes the current state and yields either a value or a raised exception,
    together with the state it left behind.  Peewee tables are finite maps
    from primary keys to rows; model instances are the in-memory copies of
    rows that the code mutates and later saves. *)

From Stdlib Require Import ZArith QArith Permutation Ascii String DecimalString.
From stdpp Require Import gmap strings list fin_maps.

Local Open Scope Z_scope.
Local Open Scope string_scope.

(** ** Exceptions and the Python monad *)

(** The exception classes that occur in the two files.  The four HTTP
    exceptions carry their [description]; [ExternalError] stands for whatever
    an opaque collaborator (trainer, mailer, storage driver) may raise. *)
Inductive Exception : Type :=
| BadRequest (description : string)
| NotFound (description : string)
| UnprocessableEntity (description : string)
| AlreadyExists (description : string)
| ValueError (msg : string)
| IndexError (msg : string)
| AssertionError
| DoesNotExist
| ExternalError (msg : string).

(** [str(e)], as used by the f-strings of the log messages. *)
Definition exc_str (e : Exception) : string :=
  match e with
  | BadRequest d | NotFound d | UnprocessableEntity d | AlreadyExists d => d
  | ValueError m | IndexError m | ExternalError m => m
  | AssertionError | DoesNotExist => ""
  end.

Inductive Outcome (A : Type) : Type :=
| Ok (a : A)
| Raise (e : Exception).
Arguments Ok {A} a.
Arguments Raise {A} e.

Definition Py (S A : Type) : Type := S -> Outcome A * S.

Definition ret {S A} (a : A) : Py S A := fun s => (Ok a, s).
Definition raise {S A} (e : Exception) : Py S A := fun s => (Raise e, s).
Definition bind {S A B} (c : Py S A) (k : A -> Py S B) : Py S B :=
  fun s => match c s with
           | (Ok a, s') => k a s'
           | (Raise e, s') => (Raise e, s')
           end.
Definition get {S} : Py S S := fun s => (Ok s, s).
Definition modify {S} (f : S -> S) : Py S unit := fun s => (Ok tt, f s).
(** A call whose result is already known as an [Outcome]. *)
Definition call {S A} (o : Outcome A) : Py S A := fun s => (o, s).
(** A call that returns nothing and may raise. *)
Definition call_ {S} (o : option Exception) : Py S unit :=
  fun s => (match o with None => Ok tt | Some e => Raise e end, s).
Definition assert_ {S} (b : bool) : Py S unit :=
  if b then ret tt else raise AssertionError.

(** The monad is used through stdpp's notations: [x ← c; k] runs [c], binds
    its value to [x] and continues with [k] unless [c] raised; [c;; k]
    discards the value. *)
#[global] Instance Py_ret {S} : MRet (Py S) := @ret S.
#[global] Instance Py_bind {S} : MBind (Py S) := fun A B k c => bind c k.

(** [try: body / except BaseException as e: handler e / else: orelse r /
    finally: final].  The handler catches every exception of the body; an
    exception of the handler or of the [else] suite is not caught, but the
    [finally] suite still runs before it propagates; an exception of the
    [finally] suite replaces any pending one. *)
Definition try_except_else_finally {S A}
    (body : Py S A) (handler : Exception -> Py S unit)
    (orelse : A -> Py S unit) (final : Py S unit) : Py S unit :=
  fun s =>
    let '(r, s1) :=
      match body s with
      | (Raise e, s0) => handler e s0
      | (Ok a, s0) => orelse a s0
      end in
    match final s1 with
    | (Ok _, s2) => (r, s2)
    | (Raise e, s2) => (Raise e, s2)
    end.

(** ** The storage layer *)

(** The module [flask_app.db] is not part of the sources.  Its models are
    taken from section 3 of the specification and carry the attributes that
    the two files read or write.  A table maps primary keys to rows; a
    foreign key is an optional primary key; a model instance is a primary
    key with the attribute values it currently holds in memory. *)

(** Modelled from the spec: [db.Metrics], a flat numeric mapping, e.g.
    [{accuracy: 0.9}]. *)
Definition Metrics : Type := list (string * Q).

(** Modelled from the spec: [db.LabeledSet], with [completed],
    [error_encountered] and optional Metrics. *)
Module LabeledSet.
Record t : Type := mk {
  training_or_inference_completed : bool;
  error_encountered : bool;
  metrics : option Metrics
}.
Definition set_training_or_inference_completed (b : bool) (r : t) : t :=
  mk b (error_encountered r) (metrics r).
Definition set_error_encountered (b : bool) (r : t) : t :=
  mk (training_or_inference_completed r) b (metrics r).
Definition set_metrics (m : option Metrics) (r : t) : t :=
  mk (training_or_inference_completed r) (error_encountered r) m.
End LabeledSet.

(** Modelled from the spec: [db.Classifier], the trainable resource with its
    name, category names, working directory, [trained_flag], notification
    address and zero-or-one train and dev set. *)
Module Classifier.
Record t : Type := mk {
  name : string;
  trained_by_openFraming : bool;
  category_names : list string;
  dir_path : string;
  notify_at_email : string;
  train_set : option Z;
  dev_set : option Z
}.
Definition set_dir_path (p : string) (c : t) : t :=
  mk (name c) (trained_by_openFraming c)
     (category_names c) p (notify_at_email c) (train_set c) (dev_set c).
Definition set_sets (tr dv : option Z) (c : t) : t :=
  mk (name c) (trained_by_openFraming c)
     (category_names c) (dir_path c) (notify_at_email c) tr dv.
End Classifier.

(** Modelled from the spec: [db.TestSet], the evaluation set with
    [inference_began], [inference_completed], [error_encountered] and a
    notification address. *)
Module TestSet.
Record t : Type := mk {
  classifier : Z;
  inference_began : bool;
  inference_completed : bool;
  error_encountered : bool;
  notify_at_email : string
}.
Definition set_inference_completed (b : bool) (r : t) : t :=
  mk (classifier r) (inference_began r) b (error_encountered r)
     (notify_at_email r).
Definition set_error_encountered (b : bool) (r : t) : t :=
  mk (classifier r) (inference_began r) (inference_completed r) b
     (notify_at_email r).
End TestSet.

(** Modelled from the spec: [db.LDASet], the record of a topic model's
    training with [lda_completed] and [error_encountered]. *)
Module LDASet.
Record t : Type := mk {
  lda_completed : bool;
  error_encountered : bool
}.
Definition set_lda_completed (b : bool) (r : t) : t :=
  mk b (error_encountered r).
Definition set_error_encountered (b : bool) (r : t) : t :=
  mk (lda_completed r) b.
End LDASet.

(** Modelled from the spec: [db.TopicModel], the trainable resource of
    topic modelling. *)
Module TopicModel.
Record t : Type := mk {
  name : string;
  notify_at_email : string;
  lda_set : option Z
}.
End TopicModel.

(** A message handed to [Emailer.send_email]: the template name, the
    recipient and the keyword arguments that fill the template. *)
Record Email : Type := mkEmail {
  email_template_name : string;
  to_email : string;
  template_fields : list (string * string)
}.

(** One call of [ModelScheduler.add_training_process]. *)
Record TrainingProcess : Type := mkTrainingProcess {
  tp_labels : list string;
  tp_model_path : string;
  tp_data_dir : string;
  tp_cache_dir : string;
  tp_output_dir : string
}.

(** A CSV file on disk is the list of rows written to it. *)
Abbreviation Table := (list (list string)).

(** Everything that outlives a request or a job: the tables, the files and
    directories under the project data directory, the scheduler's queue, the
    mailer's record of calls and the log. *)
Record World : Type := mkWorld {
  Classifier_table : gmap Z Classifier.t;
  LabeledSet_table : gmap Z LabeledSet.t;
  Metrics_table : list Metrics;
  TestSet_table : gmap Z TestSet.t;
  TopicModel_table : gmap Z TopicModel.t;
  LDASet_table : gmap Z LDASet.t;
  files : gmap string Table;
  directories : gset string;
  scheduled : list TrainingProcess;
  sent_emails : list Email;
  critical_log : list string
}.

Definition with_Classifier_table (f : gmap Z Classifier.t -> gmap Z Classifier.t)
    (w : World) : World :=
  mkWorld (f (Classifier_table w)) (LabeledSet_table w) (Metrics_table w)
    (TestSet_table w) (TopicModel_table w) (LDASet_table w) (files w)
    (directories w) (scheduled w) (sent_emails w) (critical_log w).
Definition with_LabeledSet_table (f : gmap Z LabeledSet.t -> gmap Z LabeledSet.t)
    (w : World) : World :=
  mkWorld (Classifier_table w) (f (LabeledSet_table w)) (Metrics_table w)
    (TestSet_table w) (TopicModel_table w) (LDASet_table w) (files w)
    (directories w) (scheduled w) (sent_emails w) (critical_log w).
Definition with_Metrics_table (f : list Metrics -> list Metrics)
    (w : World) : World :=
  mkWorld (Classifier_table w) (LabeledSet_table w) (f (Metrics_table w))
    (TestSet_table w) (TopicModel_table w) (LDASet_table w) (files w)
    (directories w) (scheduled w) (sent_emails w) (critical_log w).
Definition with_TestSet_table (f : gmap Z TestSet.t -> gmap Z TestSet.t)
    (w : World) : World :=
  mkWorld (Classifier_table w) (LabeledSet_table w) (Metrics_table w)
    (f (TestSet_table w)) (TopicModel_table w) (LDASet_table w) (files w)
    (directories w) (scheduled w) (sent_emails w) (critical_log w).
Definition with_LDASet_table (f : gmap Z LDASet.t -> gmap Z LDASet.t)
    (w : World) : World :=
  mkWorld (Classifier_table w) (LabeledSet_table w) (Metrics_table w)
    (TestSet_table w) (TopicModel_table w) (f (LDASet_table w)) (files w)
    (directories w) (scheduled w) (sent_emails w) (critical_log w).
Definition with_files (f : gmap string Table -> gmap string Table)
    (w : World) : World :=
  mkWorld (Classifier_table w) (LabeledSet_table w) (Metrics_table w)
    (TestSet_table w) (TopicModel_table w) (LDASet_table w) (f (files w))
    (directories w) (scheduled w) (sent_emails w) (critical_log w).
Definition with_directories (f : gset string -> gset string)
    (w : World) : World :=
  mkWorld (Classifier_table w) (LabeledSet_table w) (Metrics_table w)
    (TestSet_table w) (TopicModel_table w) (LDASet_table w) (files w)
    (f (directories w)) (scheduled w) (sent_emails w) (critical_log w).
Definition with_scheduled (f : list TrainingProcess -> list TrainingProcess)
    (w : World) : World :=
  mkWorld (Classifier_table w) (LabeledSet_table w) (Metrics_table w)
    (TestSet_table w) (TopicModel_table w) (LDASet_table w) (files w)
    (directories w) (f (scheduled w)) (sent_emails w) (critical_log w).
Definition with_sent_emails (f : list Email -> list Email) (w : World) : World :=
  mkWorld (Classifier_table w) (LabeledSet_table w) (Metrics_table w)
    (TestSet_table w) (TopicModel_table w) (LDASet_table w) (files w)
    (directories w) (scheduled w) (f (sent_emails w)) (critical_log w).
Definition with_critical_log (f : list string -> list string) (w : World) : World :=
  mkWorld (Classifier_table w) (LabeledSet_table w) (Metrics_table w)
    (TestSet_table w) (TopicModel_table w) (LDASet_table w) (files w)
    (directories w) (scheduled w) (sent_emails w) (f (critical_log w)).

Definition empty_world : World :=
  mkWorld ∅ ∅ [] ∅ ∅ ∅ ∅ ∅ [] [] [].

(** [Model.get(Model.pk == k)]: the row, or [DoesNotExist]. *)
Definition table_get {S R} (tbl : gmap Z R) (k : Z) : Py S R :=
  match tbl !! k with
  | Some r => ret r
  | None => raise DoesNotExist
  end.

(** Reading a foreign-key attribute: [None] when the column is null,
    otherwise the referenced row is fetched. *)
Definition fk_get {S R} (tbl : gmap Z R) (fk : option Z) : Py S (option (Z * R)) :=
  match fk with
  | None => ret None
  | Some k => (r ← table_get tbl k; ret (Some (k, r)))
  end.

(** The key that an auto-incrementing primary key receives on insertion. *)
Definition fresh_id {R} (tbl : gmap Z R) : Z :=
  1 + map_fold (fun k _ acc => Z.max k acc) 0 tbl.

(** A suite that works on local model instances of type [L] next to the
    world: its state is the pair of both. *)
Definition Frame (L : Type) : Type := (World * L)%type.

Definition in_world {L A} (c : Py World A) : Py (Frame L) A :=
  fun s => let '(r, w') := c (fst s) in (r, (w', snd s)).
Definition locals {L} : Py (Frame L) L := fun s => (Ok (snd s), s).
Definition set_locals {L} (f : L -> L) : Py (Frame L) unit :=
  fun s => (Ok tt, (fst s, f (snd s))).
Definition with_locals {L A} (l : L) (c : Py (Frame L) A) : Py World A :=
  fun w => let '(r, s') := c (w, l) in (r, fst s').

(** [assert x is not None]. *)
Definition assert_not_none {S R} (o : option R) : Py S R :=
  match o with
  | Some r => ret r
  | None => raise AssertionError
  end.

(** [logger.critical(msg)]. *)
Definition logger_critical (msg : string) : Py World unit :=
  modify (with_critical_log (fun l => (l ++ [msg])%list)).

(** [str.strip(".")]. *)
Fixpoint lstrip (c : Ascii.ascii) (s : string) : string :=
  match s with
  | EmptyString => EmptyString
  | String a s' => if Ascii.eqb a c then lstrip c s' else s
  end.
Fixpoint rstrip (c : Ascii.ascii) (s : string) : string :=
  match s with
  | EmptyString => EmptyString
  | String a s' =>
      match rstrip c s' with
      | EmptyString => if Ascii.eqb a c then EmptyString else String a EmptyString
      | r => String a r
      end
  end.
Definition strip (c : Ascii.ascii) (s : string) : string := rstrip c (lstrip c s).

(** ** [modeling/tasks.py] *)

Module ClassifierTrainingTaskArgs.
Record t : Type := mk {
  classifier_id : Z;
  labels : list string;
  num_train_epochs : Z;
  model_path : string;
  train_file : string;
  dev_file : string;
  cache_dir : string;
  output_dir : string
}.
End ClassifierTrainingTaskArgs.

Module ClassifierPredictionTaskArgs.
Record t : Type := mk {
  test_set_id : Z;
  labels : list string;
  model_path : string;
  cache_dir : string;
  test_file : string;
  test_output_file : string
}.
End ClassifierPredictionTaskArgs.

(** The [task_type] key of the dictionary selects the variant. *)
Inductive ClassifierTaskArgs : Type :=
| training (a : ClassifierTrainingTaskArgs.t)
| prediction (a : ClassifierPredictionTaskArgs.t).

Module TopicModelTrainingTaskArgs.
Record t : Type := mk {
  topic_model_id : Z;
  training_file : string;
  iterations : Z;
  mallet_bin_directory : string;
  num_topics : Z;
  fname_keywords : string;
  fname_topics_by_doc : string
}.
End TopicModelTrainingTaskArgs.

(** The keyword arguments of the [ClassifierModel] constructor; the ones a
    call leaves out keep their default [None]. *)
Module ClassifierModel.
Record t : Type := mk {
  labels : list string;
  model_path : string;
  cache_dir : string;
  num_train_epochs : option Z;
  train_file : option string;
  dev_file : option string;
  output_dir : option string
}.
End ClassifierModel.

Module Corpus.
Record t : Type := mk {
  file_name : string;
  content_column_name : string;
  id_column_name : string
}.
End Corpus.

Module LDAModeler.
Record t : Type := mk {
  corpus : Corpus.t;
  iterations : Z;
  mallet_bin_directory : string
}.
End LDAModeler.

(** The opaque collaborators of the task executor: the classifier and
    topic-model trainers, the mailer, Flask's [url_for] and the [Settings]
    constants.  Each call either returns or raises; nothing more is known
    about them, so the executor is studied for every choice of them.

    What a trainer, a predictor or a modeler writes below the paths it is
    given (model files, predictions, spreadsheets, caches) is not rendered:
    [files] and [directories] of the world record what the two resources
    write themselves.  The properties of the executor therefore speak of the
    rows it saves, of its log and of the messages it hands to the mailer; of
    the world as a whole they speak only where no collaborator is called. *)
Record Collaborators : Type := mkCollaborators {
  ClassifierModel_init : ClassifierModel.t -> option Exception;
  train_and_evaluate : ClassifierModel.t -> Outcome Metrics;
  predict_and_save_predictions :
    ClassifierModel.t -> string -> string -> string -> string -> option Exception;
  Corpus_init : Corpus.t -> option Exception;
  LDAModeler_init : LDAModeler.t -> option Exception;
  model_topics_to_spreadsheet :
    LDAModeler.t -> Z -> string -> string -> option Exception;
  Emailer_send_email : Email -> option Exception;
  url_for : string -> Z -> Z -> string -> string -> Outcome string;
  CONTENT_COL : string;
  ID_COL : string;
  PREDICTED_LABEL_COL : string;
  DEFAULT_FILE_FORMAT : string
}.

Section Tasks.
Context (env : Collaborators).

(** [emails.Emailer().send_email(...)]: the call is recorded, then it
    returns or raises as the mailer decides. *)
Definition send_email (m : Email) : Py World unit :=
  modify (with_sent_emails (fun l => (l ++ [m])%list));;
  call_ (Emailer_send_email env m).

(** [instance.save()]: the row under the instance's key is replaced by
    the attribute values of the instance. *)
Definition LabeledSet_save (i : Z * LabeledSet.t) : Py World unit :=
  modify (with_LabeledSet_table (fun tbl => <[i.1 := i.2]> tbl)).
Definition Classifier_save (i : Z * Classifier.t) : Py World unit :=
  modify (with_Classifier_table (fun tbl => <[i.1 := i.2]> tbl)).
Definition TestSet_save (i : Z * TestSet.t) : Py World unit :=
  modify (with_TestSet_table (fun tbl => <[i.1 := i.2]> tbl)).
Definition LDASet_save (i : Z * LDASet.t) : Py World unit :=
  modify (with_LDASet_table (fun tbl => <[i.1 := i.2]> tbl)).
(** Building [db.Metrics] from the returned mapping and saving it inserts
    a new row. *)
Definition Metrics_save (m : Metrics) : Py World unit :=
  modify (with_Metrics_table (fun tbl => (tbl ++ [m])%list)).

(** The classifier instance of the training branch with its two related
    instances, as loaded by the attribute accesses of the assertions. *)
Record ClsfInstance : Type := mkClsf {
  clsf : Z * Classifier.t;
  clsf_train_set : Z * LabeledSet.t;
  clsf_dev_set : Z * LabeledSet.t
}.
Definition on_train_set (f : LabeledSet.t -> LabeledSet.t) (c : ClsfInstance) :=
  mkClsf (clsf c) (prod_map id f (clsf_train_set c)) (clsf_dev_set c).
Definition on_dev_set (f : LabeledSet.t -> LabeledSet.t) (c : ClsfInstance) :=
  mkClsf (clsf c) (clsf_train_set c) (prod_map id f (clsf_dev_set c)).

(** The keyword arguments with which the two branches and the topic-model
    task construct their trainers. *)
Definition prediction_model (task_args : ClassifierPredictionTaskArgs.t)
  : ClassifierModel.t :=
  ClassifierModel.mk
    (ClassifierPredictionTaskArgs.labels task_args)
    (ClassifierPredictionTaskArgs.model_path task_args)
    (ClassifierPredictionTaskArgs.cache_dir task_args)
    None None None None.
Definition training_model (task_args : ClassifierTrainingTaskArgs.t)
  : ClassifierModel.t :=
  ClassifierModel.mk
    (ClassifierTrainingTaskArgs.labels task_args)
    (ClassifierTrainingTaskArgs.model_path task_args)
    (ClassifierTrainingTaskArgs.cache_dir task_args)
    (Some (ClassifierTrainingTaskArgs.num_train_epochs task_args))
    (Some (ClassifierTrainingTaskArgs.train_file task_args))
    (Some (ClassifierTrainingTaskArgs.dev_file task_args))
    (Some (ClassifierTrainingTaskArgs.output_dir task_args)).
Definition training_corpus (task_args : TopicModelTrainingTaskArgs.t) : Corpus.t :=
  Corpus.mk (TopicModelTrainingTaskArgs.training_file task_args)
    (CONTENT_COL env) (ID_COL env).
Definition training_lda_modeler (task_args : TopicModelTrainingTaskArgs.t)
  : LDAModeler.t :=
  LDAModeler.mk (training_corpus task_args)
    (TopicModelTrainingTaskArgs.iterations task_args)
    (TopicModelTrainingTaskArgs.mallet_bin_directory task_args).

Definition prediction_task (task_args : ClassifierPredictionTaskArgs.t)
  : Py World unit :=
  w ← get;
  let test_set_id := ClassifierPredictionTaskArgs.test_set_id task_args in
  test_set ← table_get (TestSet_table w) test_set_id;
  assert_ (TestSet.inference_began test_set);;
  assert_ (negb (TestSet.inference_completed test_set));;
  with_locals (test_set_id, test_set)
    (try_except_else_finally
       (let classifier_model := prediction_model task_args in
        call_ (ClassifierModel_init env classifier_model);;
        call_ (predict_and_save_predictions env classifier_model
                 (ClassifierPredictionTaskArgs.test_file task_args)
                 (CONTENT_COL env) (PREDICTED_LABEL_COL env)
                 (ClassifierPredictionTaskArgs.test_output_file task_args)))
       (fun e =>
          in_world (logger_critical
                      ("Error while doing prediction task: " ++ exc_str e));;
          set_locals (prod_map id (TestSet.set_error_encountered true)))
       (fun _ =>
          set_locals (prod_map id (TestSet.set_inference_completed true));;
          test_set ← locals;
          w ← in_world get;
          classifier ← table_get (Classifier_table w)
                          (TestSet.classifier test_set.2);
          predictions_url ←
            call (url_for env "ClassifiersTestSetsPredictions"
                    (TestSet.classifier test_set.2)
                    test_set.1
                    (strip "."%char (DEFAULT_FILE_FORMAT env))
                    "GET");
          in_world (send_email
            (mkEmail "classifier_inference_finished"
               (TestSet.notify_at_email test_set.2)
               [("classifier_name", Classifier.name classifier);
                ("predictions_url", predictions_url)])))
       (test_set ← locals; in_world (TestSet_save test_set))).

Definition training_task (task_args : ClassifierTrainingTaskArgs.t)
  : Py World unit :=
  w ← get;
  let classifier_id := ClassifierTrainingTaskArgs.classifier_id task_args in
  c ← table_get (Classifier_table w) classifier_id;
  train_set ← fk_get (LabeledSet_table w) (Classifier.train_set c);
  train_set ← assert_not_none train_set;
  dev_set ← fk_get (LabeledSet_table w) (Classifier.dev_set c);
  dev_set ← assert_not_none dev_set;
  with_locals (mkClsf (classifier_id, c) train_set dev_set)
    (try_except_else_finally
       (let classifier_model := training_model task_args in
        call_ (ClassifierModel_init env classifier_model);;
        call (train_and_evaluate env classifier_model))
       (fun e =>
          in_world (logger_critical
                      ("Error while doing classifier training task: "
                         ++ exc_str e));;
          set_locals (on_train_set (LabeledSet.set_error_encountered true));;
          set_locals (on_dev_set (LabeledSet.set_error_encountered true)))
       (fun metrics =>
          set_locals
            (on_train_set (LabeledSet.set_training_or_inference_completed true));;
          set_locals
            (on_dev_set (LabeledSet.set_training_or_inference_completed true));;
          set_locals (on_dev_set (LabeledSet.set_metrics (Some metrics)));;
          in_world (Metrics_save metrics);;
          c ← locals;
          in_world (send_email
            (mkEmail "classifier_training_finished"
               (Classifier.notify_at_email (clsf c).2)
               [("classifier_name", Classifier.name (clsf c).2)])))
       (c ← locals;
        in_world (LabeledSet_save (clsf_dev_set c));;
        in_world (LabeledSet_save (clsf_train_set c));;
        in_world (Classifier_save (clsf c)))).

Definition do_classifier_related_task (task_args : ClassifierTaskArgs)
  : Py World unit :=
  match task_args with
  | prediction a => prediction_task a
  | training a => training_task a
  end.

Definition do_topic_model_related_task
    (task_args : TopicModelTrainingTaskArgs.t) : Py World unit :=
  w ← get;
  topic_mdl ← table_get (TopicModel_table w)
                 (TopicModelTrainingTaskArgs.topic_model_id task_args);
  lda_set ← fk_get (LDASet_table w) (TopicModel.lda_set topic_mdl);
  lda_set ← assert_not_none lda_set;
  with_locals lda_set
    (try_except_else_finally
       (let corpus := training_corpus task_args in
        call_ (Corpus_init env corpus);;
        let lda_modeler := training_lda_modeler task_args in
        call_ (LDAModeler_init env lda_modeler);;
        ret lda_modeler)
       (fun e =>
          in_world (logger_critical
                      ("Error while doing lda training task: " ++ exc_str e));;
          set_locals (prod_map id (LDASet.set_error_encountered true)))
       (fun lda_modeler =>
          call_ (model_topics_to_spreadsheet env lda_modeler
                   (TopicModelTrainingTaskArgs.num_topics task_args)
                   (TopicModelTrainingTaskArgs.fname_keywords task_args)
                   (TopicModelTrainingTaskArgs.fname_topics_by_doc task_args));;
          set_locals (prod_map id (LDASet.set_lda_completed true));;
          in_world (send_email
            (mkEmail "topic_model_training_finished"
               (TopicModel.notify_at_email topic_mdl)
               [("topic_model_name", TopicModel.name topic_mdl);
                ("topic_model_preview_url", "http://NOTDONEYET")])))
       (lda_set ← locals; in_world (LDASet_save lda_set))).

End Tasks.

(** ** [app.py]: helpers *)

(** JSON values of a request body. *)
#[warnings="-register-all"]
Inductive Json : Type :=
| JNull
| JBool (b : bool)
| JNum (q : Q)
| JStr (s : string)
| JList (l : list Json)
| JDict (d : list (string * Json)).

(** The uploaded file: its raw content. *)
Definition FileStorage : Type := string.

(** What the request layer and [flask_app.utils] supply to the two
    resources, as far as the sources do not define it: the CSV reader, the
    constants, the paths of [utils.Files], the application configuration, the
    builtin [str] on JSON values that are not strings, the builtin [repr] on
    lists of strings, and the pseudo-random draw inside scikit-learn's
    splitter.

    [db.py] is not among the sources either.  A classifier created from a
    name and category names that are strings holds exactly these; what
    [db.Classifier.create] makes of a null among them (it may raise, or
    yield an instance showing some name and category names) is the
    parameter [create_with_null]. *)
Record AppEnv : Type := mkAppEnv {
  csv_and_get_table : FileStorage -> Outcome Table;
  TEST_SET_SPLIT : Q;
  TRANSFORMERS_MODEL : string;
  TRANSFORMERS_CACHE_DIR : string;
  classifier_dir : Z -> string;
  classifier_train_set_file : Z -> string;
  classifier_dev_set_file : Z -> string;
  classifier_output_dir : Z -> string;
  str_of_value : Json -> string;
  create_with_null :
    option string -> list (option string) -> Outcome (string * list string);
  py_repr : list string -> string;
  rng_split : list string -> nat -> nat -> list nat * list nat
}.

(** [str(value)] for a JSON value: a string is its own [str]. *)
Definition py_str (env : AppEnv) (value : Json) : string :=
  match value with
  | JStr s => s
  | _ => str_of_value env value
  end.

(** [str(n)] for an integer. *)
Definition str_of_Z (n : Z) : string :=
  NilZero.string_of_int (Z.to_int n).

(** [sep.join(l)]. *)
Fixpoint join (sep : string) (l : list string) : string :=
  match l with
  | [] => ""
  | [s] => s
  | s :: r => s ++ sep ++ join sep r
  end.

(** [sub in s] for a one-character [sub]. *)
Fixpoint contains_char (c : Ascii.ascii) (s : string) : bool :=
  match s with
  | EmptyString => false
  | String a s' => Ascii.eqb a c || contains_char c s'
  end.

(** [collections.Counter(l)]: a dictionary, hence in the order in which the
    keys were first seen. *)
Fixpoint Counter_add (c : string) (cnt : list (string * nat)) : list (string * nat) :=
  match cnt with
  | [] => [(c, 1%nat)]
  | (k, v) :: r => if String.eqb k c then (k, S v) :: r else (k, v) :: Counter_add c r
  end.
Definition Counter (l : list string) : list (string * nat) :=
  fold_left (fun cnt c => Counter_add c cnt) l [].
Definition keys (cnt : list (string * nat)) : list string := map fst cnt.

(** [set(l1) == set(l2)]. *)
Definition mem (c : string) (l : list string) : bool := existsb (String.eqb c) l.
Definition set_eqb (l1 l2 : list string) : bool :=
  forallb (fun c => mem c l2) l1 && forallb (fun c => mem c l1) l2.

(** [int(n * f)] for a length [n] and a float constant [f], computed on the
    rational that [f] denotes; [int] truncates towards zero.  The code
    multiplies floats; for a fraction between 0 and 1 neither product
    exceeds [n], which is all that the guard using it asks. *)
Definition int_mul (n : nat) (f : Q) : Z :=
  Z.quot (Z.of_nat n * Qnum f) (Zpos (Qden f)).

(** The exceptions of the validator under the names the specification gives
    to the error kinds, with the descriptions the code builds. *)
Definition InsufficientDataError (min_num_examples : Z) : Exception :=
  BadRequest ("We need at least " ++ str_of_Z min_num_examples
              ++ " labelled examples for this issue.").
Definition CategoryMismatchError (category_names_repr : string) : Exception :=
  UnprocessableEntity
    ("The categories for this classifier are"
     ++ " " ++ category_names_repr ++ ". But the uploaded file either"
     ++ " has some categories missing, or has categories in addition to the"
     ++ " ones indicated.").
Definition InsufficientPerCategoryError (categories : list string) : Exception :=
  UnprocessableEntity
    ("There are less than two examples with the categories: "
     ++ join "," categories ++ "."
     ++ " We need at least two examples per category.").

(** Modelled from the spec: the error of the schema checks of
    [utils.Validate], which is not part of the sources.  The specification
    calls it SchemaError and counts it among the request-time validation
    errors. *)
Definition SchemaError : Exception := BadRequest "SchemaError".

(** Modelled from the spec: [utils.Validate.table_has_num_columns].  The
    specification says that validation "fails with SchemaError if the table
    does not have exactly two columns". *)
Definition table_has_num_columns {S} (table : Table) (num_columns : nat) : Py S unit :=
  if forallb (fun row => Nat.eqb (length row) num_columns) table
  then ret tt else raise SchemaError.

(** Modelled from the spec: [utils.Validate.table_has_headers].  The
    specification says that validation fails with SchemaError if the table
    "lacks the expected header pair", which is "case-sensitive,
    header-checked". *)
Definition table_has_headers {S} (table : Table) (headers : list string) : Py S unit :=
  match table with
  | row :: _ => if bool_decide (row = headers) then ret tt else raise SchemaError
  | [] => raise SchemaError
  end.

(** [table[0], table[1:]]. *)
Definition head_and_tail {S} (table : Table) : Py S (list string * Table) :=
  match table with
  | row :: rest => ret (row, rest)
  | [] => raise (IndexError "list index out of range")
  end.

(** The target [_, category] of the generator over the rows: a row of any
    other length cannot be unpacked. *)
Definition unpack_category (row : list string) : Outcome string :=
  match row with
  | [_; category] => Ok category
  | _ => Raise (ValueError "not enough values to unpack")
  end.
Fixpoint categories_of {S} (table_data : Table) : Py S (list string) :=
  match table_data with
  | [] => ret []
  | row :: rest =>
      (category ← call (unpack_category row);
       cs ← categories_of rest;
       ret (category :: cs))
  end.

(** *** scikit-learn's [StratifiedShuffleSplit(n_splits=1, test_size=0.2)]

    The splitter belongs to a library.  Its argument checks are
    deterministic and are written out here as its documentation and error
    messages describe them: the test size is the ceiling of [0.2 * n], the
    train size the rest; an empty train set, a class with a single member,
    and a train or test size below the number of classes are [ValueError]s,
    whose messages carry the sizes and the number of classes.
    The assignment of indices to the two sides is drawn pseudo-randomly and
    is left to [rng_split].  The sizes are computed on the rational 1/5 that
    the literal [0.2] denotes. *)
Definition n_test_of (n_samples : nat) : nat := Nat.div (n_samples + 4) 5.
Definition n_train_of (n_samples : nat) : nat := n_samples - n_test_of n_samples.

(** [str(n)] for a size. *)
Definition str_of_nat (n : nat) : string := str_of_Z (Z.of_nat n).

Definition StratifiedShuffleSplit_split {S}
    (rng : list string -> nat -> nat -> list nat * list nat)
    (y : list string) : Py S (list nat * list nat) :=
  let n_samples := length y in
  let n_test := n_test_of n_samples in
  let n_train := n_train_of n_samples in
  if Nat.eqb n_train 0 then
    raise (ValueError
             ("With n_samples=" ++ str_of_nat n_samples
              ++ ", test_size=0.2 and train_size=None, the resulting train set"
              ++ " will be empty. Adjust any of the aforementioned parameters."))
  else
    let class_counts := Counter y in
    let n_classes := length class_counts in
    if existsb (fun kv => Nat.ltb (snd kv) 2) class_counts then
      raise (ValueError
               ("The least populated class in y has only 1 member, which is too"
                ++ " few. The minimum number of groups for any class cannot be"
                ++ " less than 2."))
    else if Nat.ltb n_train n_classes then
      raise (ValueError
               ("The train_size = " ++ str_of_nat n_train
                ++ " should be greater or equal to the number of classes = "
                ++ str_of_nat n_classes))
    else if Nat.ltb n_test n_classes then
      raise (ValueError
               ("The test_size = " ++ str_of_nat n_test
                ++ " should be greater or equal to the number of classes = "
                ++ str_of_nat n_classes))
    else ret (rng y n_train n_test).

(** [[table_data[i] for i in indices]]. *)
Fixpoint take_rows {S} (table_data : Table) (indices : list nat) : Py S Table :=
  match indices with
  | [] => ret []
  | i :: rest =>
      match table_data !! i with
      | None => raise (IndexError "list index out of range")
      | Some row => (rows ← take_rows table_data rest; ret (row :: rows))
      end
  end.

(** *** flask_restful's [RequestParser]

    A request offers, for every argument name, the list of values found
    under it (none when the key is absent; the elements of a JSON list when
    the value is one), and possibly an uploaded file.  An argument is
    nullable unless it is declared otherwise, and neither resource declares
    it otherwise: a null is returned as [None], and the argument's [type] is
    not applied to it.  A value that the argument's [type] rejects with an
    exception, and a required argument without values, abort the request
    with status 400 and werkzeug's description of it. *)
Record Request : Type := mkRequest {
  values : string -> list Json;
  uploaded_file : option FileStorage
}.

Definition bad_request_description : string :=
  "The browser (or proxy) sent a request that this server could not understand.".

Definition convert {A} (type_ : Json -> Outcome A) (value : Json)
  : Outcome (option A) :=
  match value with
  | JNull => Ok None
  | _ =>
      match type_ value with
      | Ok a => Ok (Some a)
      | Raise error => Raise error
      end
  end.

Fixpoint parse_values {S A} (type_ : Json -> Outcome A) (vs : list Json)
  : Py S (list (option A)) :=
  match vs with
  | [] => ret []
  | v :: rest =>
      match convert type_ v with
      | Raise _ => raise (BadRequest bad_request_description)
      | Ok a => (results ← parse_values type_ rest; ret (a :: results))
      end
  end.

(** A required argument: the converted values, of which there is at least
    one. *)
Definition parse_required {S A} (type_ : Json -> Outcome A) (vs : list Json)
  : Py S (option A * list (option A)) :=
  (results ← parse_values type_ vs;
   match results with
   | [] => raise (BadRequest bad_request_description)
   | a :: rest => ret (a, rest)
   end).

Definition parse_file {S} (f : option FileStorage) : Py S FileStorage :=
  match f with
  | None => raise (BadRequest bad_request_description)
  | Some file_ => ret file_
  end.

(** ** [app.py]: the resources *)

(** The JSON object returned by [_classifier_status]. *)
Record ClassifierStatus : Type := mkStatus {
  st_classifier_id : Z;
  st_name : string;
  st_trained_by_openFraming : bool;
  st_category_names : list string;
  st_training_status : string
}.

Section App.
Context (env : AppEnv).

(** [BaseResource._write_headers_and_data_to_csv]. *)
Definition _write_headers_and_data_to_csv
    (headers : list string) (data : Table) (csvfile : string) : Py World unit :=
  modify (with_files (fun fs => <[csvfile := headers :: data]> fs)).

(** [ClassifierRelatedResource._classifier_status]. *)
Definition _classifier_status (clsf : Z * Classifier.t)
  : Py World ClassifierStatus :=
  w ← get;
  train_set ← fk_get (LabeledSet_table w) (Classifier.train_set clsf.2);
  let training_status :=
    match train_set with
    | None => "not_begun"
    | Some ts =>
        if LabeledSet.training_or_inference_completed ts.2
        then "completed" else "training"
    end in
  ret (mkStatus clsf.1 (Classifier.name clsf.2)
         (Classifier.trained_by_openFraming clsf.2)
         (Classifier.category_names clsf.2) training_status).

(** The [type] of the [category_names] argument of [Classifiers]. *)
Definition category_names_type (val : Json) : Outcome string :=
  match val with
  | JStr s =>
      if contains_char ","%char s
      then Raise (ValueError "can't contain commas.")
      else Ok s
  | _ => Raise (ValueError "must be str")
  end.

(** The values of a list of arguments when none of them is null. *)
Fixpoint all_text (values : list (option string)) : option (list string) :=
  match values with
  | [] => Some []
  | None :: _ => None
  | Some s :: rest =>
      match all_text rest with
      | Some texts => Some (s :: texts)
      | None => None
      end
  end.

(** The name and the category names of the instance that
    [db.Classifier.create] yields. *)
Definition created_attributes (name : option string)
    (category_names : list (option string)) : Outcome (string * list string) :=
  match name, all_text category_names with
  | Some n, Some cs => Ok (n, cs)
  | _, _ => create_with_null env name category_names
  end.

(** [db.Classifier.create(name=..., category_names=..., dir_path=...)]:
    a new row under a fresh key, without train or dev set. *)
Definition Classifier_create (name : option string)
    (category_names : list (option string)) (dir_path : string)
  : Py World (Z * Classifier.t) :=
  '(name, category_names) ← call (created_attributes name category_names);
  w ← get;
  let k := fresh_id (Classifier_table w) in
  let c := Classifier.mk name false category_names dir_path "" None None in
  modify (with_Classifier_table (fun tbl => <[k := c]> tbl));;
  ret (k, c).

(** [utils.Files.classifier_dir(..., ensure_exists=True)] and
    [utils.Files.classifier_output_dir(..., ensure_exists=True)]. *)
Definition ensure_exists (dir_ : string) : Py World string :=
  (modify (with_directories (fun ds => {[dir_]} ∪ ds));; ret dir_).

(** [Classifiers.post]. *)
Definition Classifiers_post (req : Request) : Py World ClassifierStatus :=
  ('(name, _) ← parse_required (fun v => Ok (py_str env v)) (values req "name");
   '(c0, cs) ← parse_required category_names_type (values req "category_names");
   let category_names := c0 :: cs in
   if Nat.ltb (length category_names) 2 then
     raise (BadRequest "must be at least two categories.")
   else
     clsf ← Classifier_create name category_names "WILL_BE_REPLACED";
     modify (with_Classifier_table (fun tbl => <[clsf.1 := clsf.2]> tbl));;
     dir_ ← ensure_exists (classifier_dir env clsf.1);
     let clsf := prod_map id (Classifier.set_dir_path dir_) clsf in
     _classifier_status clsf).

(** [Classifiers.get]: the status of every row, in the order in which the
    query yields them. *)
Fixpoint statuses (cs : list (Z * Classifier.t)) : Py World (list ClassifierStatus) :=
  match cs with
  | [] => ret []
  | c :: rest =>
      (st ← _classifier_status c;
       sts ← statuses rest;
       ret (st :: sts))
  end.
Definition Classifiers_get : Py World (list ClassifierStatus) :=
  w ← get; statuses (map_to_list (Classifier_table w)).

(** [ClassifiersTrainingFile._validate_training_file_and_get_data]. *)
Definition _validate_training_file_and_get_data {S}
    (category_names : list string) (file_ : FileStorage)
  : Py S (list string * Table) :=
  (table ← call (csv_and_get_table env file_);
   table_has_num_columns table 2;;
   table_has_headers table ["example"; "category"];;
   '(table_headers, table_data) ← head_and_tail table;
   let min_num_examples := int_mul (length table_data) (TEST_SET_SPLIT env) in
   if Z.ltb (Z.of_nat (length table_data)) min_num_examples then
     raise (InsufficientDataError min_num_examples)
   else
     categories ← categories_of table_data;
     let category_names_counter := Counter categories in
     let unique_category_names := keys category_names_counter in
     if negb (set_eqb category_names unique_category_names) then
       raise (CategoryMismatchError (py_repr env category_names))
     else
       let categories_with_less_than_two_exs :=
         map fst (List.filter (fun kv => Nat.ltb (snd kv) 2) category_names_counter) in
       match categories_with_less_than_two_exs with
       | _ :: _ => raise (InsufficientPerCategoryError categories_with_less_than_two_exs)
       | [] => ret (table_headers, table_data)
       end).

(** [db.LabeledSet()] followed by [save()]: a new row with the default
    attribute values; the foreign key of the classifier is its key. *)
Definition LabeledSet_create : Py World Z :=
  (w ← get;
   let k := fresh_id (LabeledSet_table w) in
   modify (with_LabeledSet_table
             (fun tbl => <[k := LabeledSet.mk false false None]> tbl));;
   ret k).

(** [X, y = zip( *table_data)]: unpacking fails when there is no row. *)
Definition unzip_rows {S} (table_data : Table) : Py S (list string) :=
  match table_data with
  | [] => raise (ValueError "not enough values to unpack")
  | _ => categories_of table_data
  end.

(** [ClassifiersTrainingFile.post].

    The writes of the two files, the saves of the records, the creation of
    the output directory and the call of the scheduler are rendered by the
    changes they make when they succeed; what an upload leaves behind when
    one of them fails midway is not rendered.  The properties of an upload
    therefore speak of the checks that precede its first write and of the
    uploads that succeed. *)
Definition ClassifiersTrainingFile_post (req : Request) (classifier_id : Z)
  : Py World ClassifierStatus :=
  (file_ ← parse_file (uploaded_file req);
   w ← get;
   classifier ←
     match Classifier_table w !! classifier_id with
     | None => raise (NotFound "classifier not found.")
     | Some c => ret c
     end;
   train_set ← fk_get (LabeledSet_table w) (Classifier.train_set classifier);
   match train_set with
   | Some _ => raise (AlreadyExists "This classifier already has a training set.")
   | None =>
       '(table_headers, table_data) ←
         _validate_training_file_and_get_data
           (Classifier.category_names classifier) file_;
       y ← unzip_rows table_data;
       '(train_indices, dev_indices) ←
         StratifiedShuffleSplit_split (rng_split env) y;
       train_data ← take_rows table_data train_indices;
       dev_data ← take_rows table_data dev_indices;
       let train_file := classifier_train_set_file env classifier_id in
       _write_headers_and_data_to_csv table_headers train_data train_file;;
       let dev_file := classifier_dev_set_file env classifier_id in
       _write_headers_and_data_to_csv table_headers dev_data dev_file;;
       train_key ← LabeledSet_create;
       dev_key ← LabeledSet_create;
       let classifier :=
         Classifier.set_sets (Some train_key) (Some dev_key) classifier in
       modify (with_Classifier_table (fun tbl => <[classifier_id := classifier]> tbl));;
       w ← get;
       classifier ← table_get (Classifier_table w) classifier_id;
       output_dir ← ensure_exists (classifier_output_dir env classifier_id);
       modify (with_scheduled (fun q =>
         (q ++ [mkTrainingProcess (Classifier.category_names classifier)
                  (TRANSFORMERS_MODEL env) (classifier_dir env classifier_id)
                  (TRANSFORMERS_CACHE_DIR env) output_dir])%list));;
       _classifier_status (classifier_id, classifier)
   end).

(** The statements of [ClassifiersTrainingFile.post] before its first write:
    parsing the request, finding the classifier, refusing a second training
    set, validating the file, splitting it and selecting the rows of either
    side. *)
Definition upload_preparation (req : Request) (classifier_id : Z)
  : Py World (Classifier.t * list string * Table * Table) :=
  (file_ ← parse_file (uploaded_file req);
   w ← get;
   classifier ←
     match Classifier_table w !! classifier_id with
     | None => raise (NotFound "classifier not found.")
     | Some c => ret c
     end;
   train_set ← fk_get (LabeledSet_table w) (Classifier.train_set classifier);
   match train_set with
   | Some _ => raise (AlreadyExists "This classifier already has a training set.")
   | None =>
       '(table_headers, table_data) ←
         _validate_training_file_and_get_data
           (Classifier.category_names classifier) file_;
       y ← unzip_rows table_data;
       '(train_indices, dev_indices) ←
         StratifiedShuffleSplit_split (rng_split env) y;
       train_data ← take_rows table_data train_indices;
       dev_data ← take_rows table_data dev_indices;
       ret (classifier, table_headers, train_data, dev_data)
   end).

(** The statements of [ClassifiersTrainingFile.post] from its first write
    on. *)
Definition upload_completion (classifier_id : Z)
    (prepared : Classifier.t * list string * Table * Table)
  : Py World ClassifierStatus :=
  let '(classifier, table_headers, train_data, dev_data) := prepared in
  (let train_file := classifier_train_set_file env classifier_id in
   _write_headers_and_data_to_csv table_headers train_data train_file;;
   let dev_file := classifier_dev_set_file env classifier_id in
   _write_headers_and_data_to_csv table_headers dev_data dev_file;;
   train_key ← LabeledSet_create;
   dev_key ← LabeledSet_create;
   let classifier :=
     Classifier.set_sets (Some train_key) (Some dev_key) classifier in
   modify (with_Classifier_table (fun tbl => <[classifier_id := classifier]> tbl));;
   w ← get;
   classifier ← table_get (Classifier_table w) classifier_id;
   output_dir ← ensure_exists (classifier_output_dir env classifier_id);
   modify (with_scheduled (fun q =>
     (q ++ [mkTrainingProcess (Classifier.category_names classifier)
              (TRANSFORMERS_MODEL env) (classifier_dir env classifier_id)
              (TRANSFORMERS_CACHE_DIR env) output_dir])%list));;
   _classifier_status (classifier_id, classifier)).

End App.

(** ** Notions used by the statements *)

(** The opaque trainer invocation of a training job: constructing the
    [ClassifierModel] and calling [train_and_evaluate] on it. *)
Definition trainer_result (env : Collaborators)
    (task_args : ClassifierTrainingTaskArgs.t) : Outcome Metrics :=
  match ClassifierModel_init env (training_model task_args) with
  | Some e => Raise e
  | None => train_and_evaluate env (training_model task_args)
  end.

(** The message of a finished training job. *)
Definition training_finished_email (c : Classifier.t) : Email :=
  mkEmail "classifier_training_finished" (Classifier.notify_at_email c)
    [("classifier_name", Classifier.name c)].

(** *** Concrete jobs *)

Definition accuracy_metrics : Metrics := [("accuracy", 9 # 10)].

Definition quiet_collaborators (trainer : Outcome Metrics)
    (spreadsheet : option Exception) : Collaborators :=
  mkCollaborators (fun _ => None) (fun _ => trainer) (fun _ _ _ _ _ => None)
    (fun _ => None) (fun _ => None) (fun _ _ _ _ => spreadsheet)
    (fun _ => None) (fun _ _ _ _ _ => Ok "/predictions")
    "Example" "Id" "Predicted" ".csv".

Definition failing_trainer : Collaborators :=
  quiet_collaborators (Raise (ExternalError "out of memory")) None.
Definition succeeding_trainer : Collaborators :=
  quiet_collaborators (Ok accuracy_metrics) None.
Definition failing_spreadsheet : Collaborators :=
  quiet_collaborators (Ok accuracy_metrics) (Some (ExternalError "mallet not found")).

Definition sentiment : Classifier.t :=
  Classifier.mk "sentiment" false ["pos"; "neg"] "/data/7" "owner@example.org"
    (Some 1) (Some 2).

(** A classifier whose train and dev records were just created, and the same
    classifier after an earlier job has completed. *)
Definition fresh_job_world : World :=
  with_LabeledSet_table
    (fun _ => <[1 := LabeledSet.mk false false None]>
                (<[2 := LabeledSet.mk false false None]> ∅))
    (with_Classifier_table (fun _ => <[7 := sentiment]> ∅) empty_world).
Definition completed_job_world : World :=
  with_LabeledSet_table
    (fun _ => <[1 := LabeledSet.mk true false None]>
                (<[2 := LabeledSet.mk true false (Some accuracy_metrics)]> ∅))
    (with_Classifier_table (fun _ => <[7 := sentiment]> ∅) empty_world).

Definition sentiment_job : ClassifierTrainingTaskArgs.t :=
  ClassifierTrainingTaskArgs.mk 7 ["pos"; "neg"] 3 "distilbert"
    "/data/7/train.csv" "/data/7/dev.csv" "/cache" "/data/7/out".

Definition topics : TopicModel.t :=
  TopicModel.mk "news" "owner@example.org" (Some 5).
Definition topic_world : World :=
  mkWorld ∅ ∅ [] ∅ (<[3 := topics]> ∅) (<[5 := LDASet.mk false false]> ∅)
    ∅ ∅ [] [] [].
Definition topic_job : TopicModelTrainingTaskArgs.t :=
  TopicModelTrainingTaskArgs.mk 3 "/data/t3/train.csv" 1000 "/opt/mallet/bin" 10
    "keywords.xlsx" "topics_by_doc.xlsx".

(** *** Notions for the validator and the splitter *)

(** The value a counter holds for a key, zero when the key is absent. *)
Definition get_count (k : string) (cnt : list (string * nat)) : nat :=
  match find (fun kv => String.eqb (fst kv) k) cnt with
  | Some kv => snd kv
  | None => 0
  end.

(** [TEST_SET_SPLIT] is a fraction, as the part of a data set that goes to
    the dev split is. *)
Definition is_fraction (f : Q) : Prop := (0 <= f)%Q ∧ (f <= 1)%Q.

(** The second column of a table of two-column rows. *)
Definition category_column (data : Table) : list string :=
  map (fun row => nth 1 row "") data.

(** The CSV reader yields the expected header followed by [data], every row
    of which has two cells: the upload passes the schema checks. *)
Definition parsed_as (env : AppEnv) (file_ : FileStorage) (data : Table) : Prop :=
  csv_and_get_table env file_ = Ok (["example"; "category"] :: data) ∧
  Forall (fun row => length row = 2%nat) data.

(** The schema of an uploaded table: every row, the header included, has two
    cells, and the first row is the expected header pair. *)
Definition has_expected_schema (table : Table) : bool :=
  forallb (fun row => Nat.eqb (length row) 2) table &&
  match table with
  | row :: _ => bool_decide (row = ["example"; "category"])
  | [] => false
  end.

(** The categories of which the uploaded rows hold fewer than two examples,
    in the order in which the rows first mention them. *)
Definition categories_with_less_than_two (y : list string) : list string :=
  map fst (List.filter (fun kv => Nat.ltb (snd kv) 2) (Counter y)).

(** One text occurs in another. *)
Definition occurs_in (needle haystack : string) : Prop :=
  ∃ before after, haystack = (before ++ needle ++ after)%string.

(** The rows of a table at the given indices. *)
Definition rows_at (data : Table) (indices : list nat) : Table :=
  map (fun i => nth i data []) indices.

(** How many of the rows with the given indices carry the label [c]. *)
Definition count_in (y : list string) (c : string) (indices : list nat) : nat :=
  length (List.filter (fun i => bool_decide (y !! i = Some c)) indices).

(** What scikit-learn promises of one draw of the splitter for the labels
    [y]: the two sides have the requested sizes, every index is on exactly
    one side, and the train side holds of every class its proportional share
    [class_count * n_train / n_samples] rounded down, or one more. *)
Definition stratified_draw_ok (y : list string) (n_train n_test : nat)
    (draw : list nat * list nat) : bool :=
  let '(train, test) := draw in
  Nat.eqb (length train) n_train && Nat.eqb (length test) n_test &&
  forallb (fun i => Nat.eqb (count_occ Nat.eq_dec (train ++ test) i) 1)
    (seq 0 (length y)) &&
  forallb (fun kv =>
             let floored := Nat.div (snd kv * n_train) (length y) in
             Nat.leb floored (count_in y (fst kv) train) &&
             Nat.leb (count_in y (fst kv) train) (S floored))
    (Counter y).

(** *** Concrete uploads *)

(** An environment whose CSV reader yields [table] and whose splitter
    draws [draw]; its storage layer holds a null as the text "None". *)
Definition example_env (table : Table) (draw : list nat * list nat) : AppEnv :=
  mkAppEnv (fun _ => Ok table) (1 # 5) "distilbert" "/cache"
    (fun k => "/data/" ++ str_of_Z k)
    (fun k => "/data/" ++ str_of_Z k ++ "/train.csv")
    (fun k => "/data/" ++ str_of_Z k ++ "/dev.csv")
    (fun k => "/data/" ++ str_of_Z k ++ "/out")
    (fun _ => "<value>")
    (fun name category_names =>
       Ok (default "None" name, map (default "None") category_names))
    (join ", ") (fun _ _ _ => draw).

Definition header : list string := ["example"; "category"].
Definition rows (category : string) (n : nat) : Table :=
  map (fun i => ["text " ++ category ++ " " ++ str_of_Z (Z.of_nat i); category])
    (seq 0 n).

(** Ten positive rows followed by ten negative ones, and a draw that puts
    the last two rows of each class on the dev side. *)
Definition pos_neg_20 : Table := (rows "pos" 10 ++ rows "neg" 10)%list.
Definition draw_16_4 : list nat * list nat :=
  ((seq 0 8 ++ seq 10 8)%list, [8; 9; 18; 19]%nat).

(** Three categories with two rows each. *)
Definition three_by_two : Table :=
  (rows "pos" 2 ++ rows "neg" 2 ++ rows "neutral" 2)%list.
Definition three_way : Classifier.t :=
  Classifier.mk "tone" false ["pos"; "neg"; "neutral"] "/data/8" "" None None.

(** Two rows of a rare category before thirty-eight of a common one, a
    classifier for them, and the draw that takes the first thirty-two rows,
    both rare ones among them, to the train side: of the two rare rows the
    train side is due 1.6. *)
Definition rare_common_40 : Table := (rows "rare" 2 ++ rows "common" 38)%list.
Definition draw_32_8 : list nat * list nat := (seq 0 32, seq 32 8).
Definition rarity : Classifier.t :=
  Classifier.mk "rarity" false ["rare"; "common"] "/data/9" "" None None.
Definition rarity_world : World :=
  with_Classifier_table (fun _ => <[9 := rarity]> ∅) empty_world.

(** Two categories with two rows each. *)
Definition two_by_two : Table := (rows "pos" 2 ++ rows "neg" 2)%list.

(** A table with a third column, and one whose header is spelled with a
    capital letter. *)
Definition three_columns : Table :=
  [["example"; "category"; "source"]; ["good"; "pos"; "web"]; ["bad"; "neg"; "web"]].
Definition capital_header : Table :=
  ["Example"; "category"] :: two_by_two.

(** One category named once, the other twice. *)
Definition lonely_neg : Table := (rows "pos" 2 ++ rows "neg" 1)%list.

(** A classifier without records and one that has its train and dev set. *)
Definition untrained : Classifier.t :=
  Classifier.mk "sentiment" false ["pos"; "neg"] "/data/7" "" None None.
Definition untrained_world : World :=
  with_Classifier_table (fun _ => <[7 := untrained]> (<[8 := three_way]> ∅)) empty_world.
Definition trained : Classifier.t :=
  Classifier.mk "sentiment" false ["pos"; "neg"] "/data/7" "" (Some 1) (Some 2).
Definition trained_world : World :=
  with_files (fun _ => <["/data/7/train.csv" := header :: rows "pos" 2]> ∅)
    (with_LabeledSet_table
       (fun _ => <[1 := LabeledSet.mk false false None]>
                   (<[2 := LabeledSet.mk false false None]> ∅))
       (with_Classifier_table (fun _ => <[7 := trained]> ∅) empty_world)).
Definition creation_request (category_names : list Json) : Request :=
  mkRequest (fun k => if String.eqb k "name" then [JStr "sentiment"]
                      else if String.eqb k "category_names" then category_names
                      else []) None.
Definition upload : Request := mkRequest (fun _ => []) (Some "example,category").

(** *** Notions for the arguments of a creation request *)

(** The JSON value that is parsed to a given argument value. *)
Definition json_of_text (t : option string) : Json :=
  match t with
  | None => JNull
  | Some s => JStr s
  end.

(** The [name] that [parse_args] returns when [value] comes first under
    that key. *)
Definition name_argument (env : AppEnv) (value : Json) : option string :=
  match value with
  | JNull => None
  | _ => Some (py_str env value)
  end.

(** An argument value that is null or has no comma. *)
Definition comma_free (c : option string) : Prop :=
  ∀ t, c = Some t → contains_char ","%char t = false.

(** *** Notions for the remaining tasks and resources *)

(** The opaque predictor invocation of a prediction job: constructing the
    [ClassifierModel] and calling [predict_and_save_predictions] on it. *)
Definition predictor_result (env : Collaborators)
    (task_args : ClassifierPredictionTaskArgs.t) : option Exception :=
  match ClassifierModel_init env (prediction_model task_args) with
  | Some e => Some e
  | None =>
      predict_and_save_predictions env (prediction_model task_args)
        (ClassifierPredictionTaskArgs.test_file task_args)
        (CONTENT_COL env) (PREDICTED_LABEL_COL env)
        (ClassifierPredictionTaskArgs.test_output_file task_args)
  end.

(** The call of [url_for] for the predictions of a test set, and the
    message of a finished prediction job. *)
Definition predictions_url (env : Collaborators) (test_set_id : Z)
    (test_set : TestSet.t) : Outcome string :=
  url_for env "ClassifiersTestSetsPredictions"
    (TestSet.classifier test_set) test_set_id
    (strip "."%char (DEFAULT_FILE_FORMAT env)) "GET".
Definition inference_finished_email (test_set : TestSet.t)
    (classifier : Classifier.t) (url : string) : Email :=
  mkEmail "classifier_inference_finished" (TestSet.notify_at_email test_set)
    [("classifier_name", Classifier.name classifier);
     ("predictions_url", url)].

(** The opaque construction of the corpus and the modeler of a topic-model
    job. *)
Definition modeler_result (env : Collaborators)
    (task_args : TopicModelTrainingTaskArgs.t) : option Exception :=
  match Corpus_init env (training_corpus env task_args) with
  | Some e => Some e
  | None => LDAModeler_init env (training_lda_modeler env task_args)
  end.

(** The call that writes the keyword and topics-by-document spreadsheets. *)
Definition spreadsheet_result (env : Collaborators)
    (task_args : TopicModelTrainingTaskArgs.t) : option Exception :=
  model_topics_to_spreadsheet env (training_lda_modeler env task_args)
    (TopicModelTrainingTaskArgs.num_topics task_args)
    (TopicModelTrainingTaskArgs.fname_keywords task_args)
    (TopicModelTrainingTaskArgs.fname_topics_by_doc task_args).

(** The message of a finished topic-model job. *)
Definition topic_model_finished_email (m : TopicModel.t) : Email :=
  mkEmail "topic_model_training_finished" (TopicModel.notify_at_email m)
    [("topic_model_name", TopicModel.name m);
     ("topic_model_preview_url", "http://NOTDONEYET")].

(** The outcome of a call that returns nothing. *)
Definition outcome_of (o : option Exception) : Outcome unit :=
  match o with
  | None => Ok tt
  | Some e => Raise e
  end.

(** A flag that was set stays set. *)
Definition stays_set (before after : bool) : Prop := before = true → after = true.

(** The training process that an upload schedules for a classifier. *)
Definition scheduled_process (env : AppEnv) (classifier_id : Z)
    (c : Classifier.t) : TrainingProcess :=
  mkTrainingProcess (Classifier.category_names c) (TRANSFORMERS_MODEL env)
    (classifier_dir env classifier_id) (TRANSFORMERS_CACHE_DIR env)
    (classifier_output_dir env classifier_id).

(** A record as [db.LabeledSet()] creates it. *)
Definition new_labeled_set : LabeledSet.t := LabeledSet.mk false false None.

(** *** Concrete prediction jobs *)

Definition failing_predictor : Collaborators :=
  mkCollaborators (fun _ => None) (fun _ => Ok accuracy_metrics)
    (fun _ _ _ _ _ => Some (ExternalError "out of memory"))
    (fun _ => None) (fun _ => None) (fun _ _ _ _ => None)
    (fun _ => None) (fun _ _ _ _ _ => Ok "/predictions")
    "Example" "Id" "Predicted" ".csv".

Definition reviews : TestSet.t :=
  TestSet.mk 7 true false false "reader@example.org".
Definition prediction_world : World :=
  with_TestSet_table (fun _ => <[4 := reviews]> ∅) fresh_job_world.
Definition prediction_job : ClassifierPredictionTaskArgs.t :=
  ClassifierPredictionTaskArgs.mk 4 ["pos"; "neg"] "distilbert" "/cache"
    "/data/7/test.csv" "/data/7/predictions.csv".

(** *** A topic-model job whose corpus cannot be read *)

Definition failing_corpus : Collaborators :=
  mkCollaborators (fun _ => None) (fun _ => Ok accuracy_metrics)
    (fun _ _ _ _ _ => None)
    (fun _ => Some (ExternalError "no such file")) (fun _ => None)
    (fun _ _ _ _ => None)
    (fun _ => None) (fun _ _ _ _ _ => Ok "/predictions")
    "Example" "Id" "Predicted" ".csv".

(** ** Properties of the task executor *)

Section TaskExecutor.
Context (env : Collaborators).

(** The training branch up to the [try] statement, once the classifier
    and its two records are found. *)
Lemma training_task_loaded task_args (w : World) c tk tr dk dv :
  Classifier_table w !! ClassifierTrainingTaskArgs.classifier_id task_args = Some c →
  Classifier.train_set c = Some tk → LabeledSet_table w !! tk = Some tr →
  Classifier.dev_set c = Some dk → LabeledSet_table w !! dk = Some dv →
  training_task env task_args w =
  with_locals
    (mkClsf (ClassifierTrainingTaskArgs.classifier_id task_args, c) (tk, tr) (dk, dv))
    (try_except_else_finally
       (call_ (ClassifierModel_init env (training_model task_args));;
        call (train_and_evaluate env (training_model task_args)))
       (fun e =>
          in_world (logger_critical
                      ("Error while doing classifier training task: "
                         ++ exc_str e));;
          set_locals (on_train_set (LabeledSet.set_error_encountered true));;
          set_locals (on_dev_set (LabeledSet.set_error_encountered true)))
       (fun metrics =>
          set_locals
            (on_train_set (LabeledSet.set_training_or_inference_completed true));;
          set_locals
            (on_dev_set (LabeledSet.set_training_or_inference_completed true));;
          set_locals (on_dev_set (LabeledSet.set_metrics (Some metrics)));;
          in_world (Metrics_save metrics);;
          c ← locals;
          in_world (send_email env (training_finished_email (clsf c).2)))
       (c ← locals;
        in_world (LabeledSet_save (clsf_dev_set c));;
        in_world (LabeledSet_save (clsf_train_set c));;
        in_world (Classifier_save (clsf c)))) w.
Proof.
  intros Hc Htk Htr Hdk Hdv.
  unfold training_task, mbind, Py_bind, bind, get, table_get.
  rewrite Hc. cbn [ret]. rewrite Htk, Hdk. unfold fk_get, table_get, mbind, Py_bind, bind.
  rewrite Htr, Hdv. reflexivity.
Qed.

Lemma trainer_body_result task_args (s : Frame ClsfInstance) :
  (call_ (ClassifierModel_init env (training_model task_args));;
   call (train_and_evaluate env (training_model task_args))) s
  = (trainer_result env task_args, s).
Proof.
  unfold trainer_result, mbind, Py_bind, bind, call_, call.
  destruct (ClassifierModel_init _ _); reflexivity.
Qed.

(** C1 on the code.  When the trainer invocation of a training job raises,
    the executor returns normally, both records are persisted with
    [error_encountered] set, and the mailer is not called.
    [training_or_inference_completed] is persisted as it was when the job
    started: false, as the claim has it, on records that were not completed
    then, but true on records that an earlier job completed.  The prediction
    branch asserts that its test set is not completed before it runs; the
    training branch asserts only that its two records exist. *)
Theorem training_failure_recorded task_args (w : World) c tk tr dk dv e :
  Classifier_table w !! ClassifierTrainingTaskArgs.classifier_id task_args = Some c →
  Classifier.train_set c = Some tk → LabeledSet_table w !! tk = Some tr →
  Classifier.dev_set c = Some dk → LabeledSet_table w !! dk = Some dv →
  trainer_result env task_args = Raise e →
  ∃ w' tr' dv',
    do_classifier_related_task env (training task_args) w = (Ok tt, w') ∧
    LabeledSet_table w' !! tk = Some tr' ∧
    LabeledSet_table w' !! dk = Some dv' ∧
    LabeledSet.error_encountered tr' = true ∧
    LabeledSet.error_encountered dv' = true ∧
    LabeledSet.training_or_inference_completed tr'
      = LabeledSet.training_or_inference_completed tr ∧
    LabeledSet.training_or_inference_completed dv'
      = LabeledSet.training_or_inference_completed dv ∧
    sent_emails w' = sent_emails w.
Proof.
  intros Hc Htk Htr Hdk Hdv He. cbn [do_classifier_related_task].
  rewrite (training_task_loaded _ _ _ _ _ _ _ Hc Htk Htr Hdk Hdv).
  unfold with_locals, try_except_else_finally.
  rewrite trainer_body_result, He.
  destruct w as [ct lt mt tt_ tmt ldt fs ds sch se cl].
  cbn in Htr, Hdv |- *.
  destruct (decide (tk = dk)) as [->|Hne].
  - assert (tr = dv) as -> by congruence.
    eexists _, _, _. split; [reflexivity|]. cbn.
    rewrite !lookup_insert_eq. repeat split; reflexivity.
  - eexists _, _, _. split; [reflexivity|]. cbn.
    rewrite lookup_insert_eq, lookup_insert_ne, lookup_insert_eq by done.
    repeat split; reflexivity.
Qed.

(** C2.  When the trainer invocation of a training job returns metrics,
    both records are persisted with [training_or_inference_completed] set,
    the metrics are attached to the dev record and not to the train record,
    and the mailer is called exactly once, with the "training finished"
    template and the classifier's notification address; the outcome of the
    job is the outcome of that call. *)
Theorem training_success_recorded task_args (w : World) c tk tr dk dv metrics :
  Classifier_table w !! ClassifierTrainingTaskArgs.classifier_id task_args = Some c →
  Classifier.train_set c = Some tk → LabeledSet_table w !! tk = Some tr →
  Classifier.dev_set c = Some dk → LabeledSet_table w !! dk = Some dv →
  tk ≠ dk →
  trainer_result env task_args = Ok metrics →
  ∃ w',
    do_classifier_related_task env (training task_args) w
      = (match Emailer_send_email env (training_finished_email c) with
         | None => Ok tt
         | Some e => Raise e
         end, w') ∧
    LabeledSet_table w' !! tk
      = Some (LabeledSet.set_training_or_inference_completed true tr) ∧
    LabeledSet_table w' !! dk
      = Some (LabeledSet.set_metrics (Some metrics)
                (LabeledSet.set_training_or_inference_completed true dv)) ∧
    sent_emails w' = (sent_emails w ++ [training_finished_email c])%list.
Proof.
  intros Hc Htk Htr Hdk Hdv Hne He. cbn [do_classifier_related_task].
  rewrite (training_task_loaded _ _ _ _ _ _ _ Hc Htk Htr Hdk Hdv).
  unfold with_locals, try_except_else_finally.
  rewrite trainer_body_result, He.
  destruct w as [ct lt mt tt_ tmt ldt fs ds sch se cl].
  cbv [mbind Py_bind bind set_locals in_world locals Metrics_save send_email
       modify call_ LabeledSet_save Classifier_save on_train_set on_dev_set
       fst snd clsf clsf_train_set clsf_dev_set prod_map id].
  destruct (Emailer_send_email env (training_finished_email c));
    (eexists; split; [reflexivity|]); cbn;
    rewrite lookup_insert_eq, lookup_insert_ne, lookup_insert_eq by done;
    repeat split; reflexivity.
Qed.

(** The topic-model task up to the [try] statement, once the topic model
    and its record are found. *)
Lemma topic_task_loaded task_args (w : World) m lk lda :
  TopicModel_table w !! TopicModelTrainingTaskArgs.topic_model_id task_args = Some m →
  TopicModel.lda_set m = Some lk → LDASet_table w !! lk = Some lda →
  do_topic_model_related_task env task_args w =
  with_locals (lk, lda)
    (try_except_else_finally
       (call_ (Corpus_init env (training_corpus env task_args));;
        call_ (LDAModeler_init env (training_lda_modeler env task_args));;
        ret (training_lda_modeler env task_args))
       (fun e =>
          in_world (logger_critical
                      ("Error while doing lda training task: " ++ exc_str e));;
          set_locals (prod_map id (LDASet.set_error_encountered true)))
       (fun lda_modeler =>
          call_ (model_topics_to_spreadsheet env lda_modeler
                   (TopicModelTrainingTaskArgs.num_topics task_args)
                   (TopicModelTrainingTaskArgs.fname_keywords task_args)
                   (TopicModelTrainingTaskArgs.fname_topics_by_doc task_args));;
          set_locals (prod_map id (LDASet.set_lda_completed true));;
          in_world (send_email env
            (mkEmail "topic_model_training_finished"
               (TopicModel.notify_at_email m)
               [("topic_model_name", TopicModel.name m);
                ("topic_model_preview_url", "http://NOTDONEYET")])))
       (lda_set ← locals; in_world (LDASet_save lda_set))) w.
Proof.
  intros Hm Hlk Hlda.
  unfold do_topic_model_related_task, mbind, Py_bind, bind, get, table_get.
  rewrite Hm. cbn [ret]. rewrite Hlk. unfold fk_get, table_get, mbind, Py_bind, bind.
  rewrite Hlda. reflexivity.
Qed.

(** The part of C3 that the code fulfils: a failure while the corpus or
    the modeler is constructed is caught, recorded in [error_encountered],
    persisted, and not notified. *)
Lemma topic_model_construction_failure_recorded task_args (w : World) m lk lda e :
  TopicModel_table w !! TopicModelTrainingTaskArgs.topic_model_id task_args = Some m →
  TopicModel.lda_set m = Some lk → LDASet_table w !! lk = Some lda →
  Corpus_init env (training_corpus env task_args) = Some e ∨
  (Corpus_init env (training_corpus env task_args) = None ∧
   LDAModeler_init env (training_lda_modeler env task_args) = Some e) →
  ∃ w',
    do_topic_model_related_task env task_args w = (Ok tt, w') ∧
    LDASet_table w' !! lk = Some (LDASet.set_error_encountered true lda) ∧
    sent_emails w' = sent_emails w.
Proof.
  intros Hm Hlk Hlda He.
  rewrite (topic_task_loaded _ _ _ _ _ Hm Hlk Hlda).
  unfold with_locals, try_except_else_finally.
  cbv [mbind Py_bind bind call_ ret].
  destruct w as [ct lt mt tt_ tmt ldt fs ds sch se cl].
  destruct He as [->|[-> ->]];
    (eexists; split; [reflexivity|]); cbn;
    rewrite lookup_insert_eq; split; reflexivity.
Qed.

(** C3 on the code.  When the corpus and the modeler are constructed but
    producing the keyword and topics-by-document spreadsheets raises, the
    exception leaves the task: the record is persisted as it was, its
    [error_encountered] is not set, and no message is sent. *)
Theorem topic_model_artifact_failure_escapes task_args (w : World) m lk lda e :
  TopicModel_table w !! TopicModelTrainingTaskArgs.topic_model_id task_args = Some m →
  TopicModel.lda_set m = Some lk → LDASet_table w !! lk = Some lda →
  Corpus_init env (training_corpus env task_args) = None →
  LDAModeler_init env (training_lda_modeler env task_args) = None →
  model_topics_to_spreadsheet env (training_lda_modeler env task_args)
    (TopicModelTrainingTaskArgs.num_topics task_args)
    (TopicModelTrainingTaskArgs.fname_keywords task_args)
    (TopicModelTrainingTaskArgs.fname_topics_by_doc task_args) = Some e →
  ∃ w',
    do_topic_model_related_task env task_args w = (Raise e, w') ∧
    LDASet_table w' !! lk = Some lda ∧
    sent_emails w' = sent_emails w.
Proof.
  intros Hm Hlk Hlda Hc Hl Hs.
  rewrite (topic_task_loaded _ _ _ _ _ Hm Hlk Hlda).
  unfold with_locals, try_except_else_finally.
  cbv [mbind Py_bind bind call_ ret].
  rewrite Hc, Hl, Hs.
  destruct w as [ct lt mt tt_ tmt ldt fs ds sch se cl].
  eexists; split; [reflexivity|]. cbn.
  rewrite lookup_insert_eq. destruct lda; split; reflexivity.
Qed.

End TaskExecutor.

(** A failing job on records that an earlier job completed: both end with
    [error_encountered] set and still completed.  On freshly created records
    both end with [error_encountered] set and not completed.  No message is
    sent in either case. *)
Lemma training_failure_recorded_witness :
  (∃ w' tr' dv',
     do_classifier_related_task failing_trainer (training sentiment_job)
       completed_job_world
       = (Ok tt, w') ∧
     LabeledSet_table w' !! 1 = Some tr' ∧
     LabeledSet_table w' !! 2 = Some dv' ∧
     LabeledSet.error_encountered tr' = true ∧
     LabeledSet.error_encountered dv' = true ∧
     LabeledSet.training_or_inference_completed tr' = true ∧
     LabeledSet.training_or_inference_completed dv' = true ∧
     sent_emails w' = []) ∧
  (∃ w' tr' dv',
     do_classifier_related_task failing_trainer (training sentiment_job)
       fresh_job_world
       = (Ok tt, w') ∧
     LabeledSet_table w' !! 1 = Some tr' ∧
     LabeledSet_table w' !! 2 = Some dv' ∧
     LabeledSet.error_encountered tr' = true ∧
     LabeledSet.error_encountered dv' = true ∧
     LabeledSet.training_or_inference_completed tr' = false ∧
     LabeledSet.training_or_inference_completed dv' = false ∧
     sent_emails w' = []).
Proof.
  split.
  - apply (training_failure_recorded failing_trainer sentiment_job
             completed_job_world sentiment
             1 (LabeledSet.mk true false None)
             2 (LabeledSet.mk true false (Some accuracy_metrics))
             (ExternalError "out of memory"));
      vm_compute; reflexivity.
  - apply (training_failure_recorded failing_trainer sentiment_job fresh_job_world
             sentiment 1 (LabeledSet.mk false false None)
             2 (LabeledSet.mk false false None) (ExternalError "out of memory"));
      vm_compute; reflexivity.
Defined.

(** A job whose trainer returns [{accuracy: 0.9}] on freshly created
    records. *)
Lemma training_success_recorded_witness :
  ∃ w',
    do_classifier_related_task succeeding_trainer (training sentiment_job)
      fresh_job_world = (Ok tt, w') ∧
    LabeledSet_table w' !! 1 = Some (LabeledSet.mk true false None) ∧
    LabeledSet_table w' !! 2 = Some (LabeledSet.mk true false (Some accuracy_metrics)) ∧
    sent_emails w' = [training_finished_email sentiment].
Proof.
  apply (training_success_recorded succeeding_trainer sentiment_job fresh_job_world
           sentiment 1 (LabeledSet.mk false false None)
           2 (LabeledSet.mk false false None) accuracy_metrics);
    try (vm_compute; reflexivity).
  discriminate.
Defined.

(** A topic-model job whose spreadsheet step fails. *)
Lemma topic_model_artifact_failure_escapes_witness :
  ∃ w',
    do_topic_model_related_task failing_spreadsheet topic_job topic_world
      = (Raise (ExternalError "mallet not found"), w') ∧
    LDASet_table w' !! 5 = Some (LDASet.mk false false) ∧
    sent_emails w' = [].
Proof.
  apply (topic_model_artifact_failure_escapes failing_spreadsheet topic_job
           topic_world topics 5 (LDASet.mk false false)
           (ExternalError "mallet not found"));
    vm_compute; reflexivity.
Defined.

(** ** Facts about counters and sets of categories *)

Section CounterFacts.

Lemma Counter_snoc l c : Counter (l ++ [c]) = Counter_add c (Counter l).
Proof. unfold Counter. rewrite fold_left_app. reflexivity. Qed.

Lemma mem_In c l : mem c l = true ↔ In c l.
Proof.
  unfold mem. rewrite existsb_exists. split.
  - intros (x & Hx & E). apply String.eqb_eq in E. congruence.
  - intros H. exists c. split; [assumption|apply String.eqb_refl].
Qed.

Lemma Counter_add_keys c cnt :
  keys (Counter_add c cnt)
  = if mem c (keys cnt) then keys cnt else (keys cnt ++ [c])%list.
Proof.
  unfold keys, mem. induction cnt as [|[k v] r IH]; cbn; [reflexivity|].
  destruct (String.eqb_spec k c) as [->|Hne]; cbn.
  - rewrite String.eqb_refl. reflexivity.
  - destruct (String.eqb_spec c k) as [->|_]; [congruence|]. cbn.
    rewrite IH. destruct (existsb _ _); reflexivity.
Qed.

Lemma Counter_add_get_count c cnt k :
  get_count k (Counter_add c cnt)
  = (get_count k cnt + if String.eqb k c then 1 else 0)%nat.
Proof.
  unfold get_count. induction cnt as [|[k0 v0] r IH]; cbn.
  - rewrite (String.eqb_sym c k). destruct (String.eqb k c); reflexivity.
  - destruct (String.eqb_spec k0 c) as [->|Hne]; cbn.
    + rewrite (String.eqb_sym c k). destruct (String.eqb k c); cbn; lia.
    + destruct (String.eqb_spec k0 k) as [->|Hne'].
      * destruct (String.eqb_spec k c); [congruence|]. cbn. lia.
      * apply IH.
Qed.

Lemma Counter_keys_In l c : In c (keys (Counter l)) ↔ In c l.
Proof.
  revert c. induction l as [|a l IH] using rev_ind; intros c; [reflexivity|].
  rewrite Counter_snoc, Counter_add_keys, in_app_iff. cbn.
  destruct (mem a (keys (Counter l))) eqn:E.
  - apply mem_In, IH in E. rewrite IH. split; [tauto|].
    intros [H|[<-|[]]]; assumption.
  - rewrite in_app_iff, IH. cbn. tauto.
Qed.

Lemma Counter_keys_NoDup l : List.NoDup (keys (Counter l)).
Proof.
  induction l as [|a l IH] using rev_ind; [constructor|].
  rewrite Counter_snoc, Counter_add_keys.
  destruct (mem a (keys (Counter l))) eqn:E; [assumption|].
  apply NoDup_ListNoDup, NoDup_app. rewrite NoDup_ListNoDup.
  split; [assumption|]. split.
  - intros x Hx Hx'. apply list_elem_of_In in Hx, Hx'. destruct Hx' as [->|[]].
    apply mem_In in Hx. congruence.
  - apply NoDup_singleton.
Qed.

Lemma Counter_get_count l k :
  get_count k (Counter l) = count_occ string_dec l k.
Proof.
  induction l as [|a l IH] using rev_ind; [reflexivity|].
  rewrite Counter_snoc, Counter_add_get_count, IH, count_occ_app. cbn.
  destruct (string_dec a k) as [->|Hne].
  - rewrite String.eqb_refl. reflexivity.
  - destruct (String.eqb_spec k a); [congruence|reflexivity].
Qed.

Lemma get_count_In k v cnt :
  List.NoDup (keys cnt) → In (k, v) cnt → get_count k cnt = v.
Proof.
  unfold get_count, keys. induction cnt as [|[k0 v0] r IH]; cbn; [tauto|].
  intros Hnd [[= -> ->]|Hin].
  - rewrite String.eqb_refl. reflexivity.
  - inversion Hnd as [|? ? Hk0 Hr]; subst.
    destruct (String.eqb_spec k0 k) as [->|Hne]; [|auto].
    exfalso. apply Hk0. change k with (fst (k, v)). apply in_map. assumption.
Qed.

(** Every entry of a counter holds the number of occurrences of its key,
    and the key occurs. *)
Lemma Counter_In l k v :
  In (k, v) (Counter l) → v = count_occ string_dec l k ∧ In k l.
Proof.
  intros Hin. split.
  - rewrite <- Counter_get_count. symmetry.
    apply get_count_In; [apply Counter_keys_NoDup|assumption].
  - apply Counter_keys_In. change k with (fst (k, v)). apply in_map. assumption.
Qed.

Lemma Counter_In_inv l k :
  In k l → In (k, count_occ string_dec l k) (Counter l).
Proof.
  intros Hin. apply Counter_keys_In in Hin. unfold keys in Hin.
  apply in_map_iff in Hin as ([k' v] & E & Hin). cbn in E. subst k'.
  destruct (Counter_In _ _ _ Hin) as [-> _]. assumption.
Qed.

Lemma set_eqb_spec l1 l2 :
  set_eqb l1 l2 = true ↔ (∀ c, In c l1 ↔ In c l2).
Proof.
  unfold set_eqb. rewrite andb_true_iff, !forallb_forall.
  split.
  - intros [H1 H2] c. split; intros H.
    + apply mem_In, H1, H.
    + apply mem_In, H2, H.
  - intros H. split; intros c Hc; apply mem_In, H, Hc.
Qed.

(** [set_eqb] decides the equality of the two sets of strings. *)
Lemma set_eqb_gset l1 l2 :
  set_eqb l1 l2 = true ↔ list_to_set l1 =@{gset string} list_to_set l2.
Proof.
  rewrite set_eqb_spec. split.
  - intros H. apply set_eq. intros x.
    rewrite !elem_of_list_to_set, !list_elem_of_In. apply H.
  - intros H c. rewrite <- !list_elem_of_In.
    rewrite <- !(elem_of_list_to_set (C := gset string)), H. reflexivity.
Qed.

Lemma categories_with_less_than_two_In y c :
  In c (categories_with_less_than_two y) ↔
  In c y ∧ (count_occ string_dec y c < 2)%nat.
Proof.
  unfold categories_with_less_than_two. rewrite in_map_iff. split.
  - intros ([k v] & E & Hin). cbn in E. subst k.
    apply filter_In in Hin as [Hin Hv]. cbn [snd] in Hv.
    apply Counter_In in Hin as [-> Hin]. apply Nat.ltb_lt in Hv. tauto.
  - intros [Hin Hc]. exists (c, count_occ string_dec y c). split; [reflexivity|].
    apply filter_In. split; [apply Counter_In_inv; assumption|].
    apply Nat.ltb_lt. assumption.
Qed.

End CounterFacts.

(** ** Properties of the validator *)

Section Validator.
Context (env : AppEnv).

(** The row-count guard compares the number of rows with a fraction of
    itself. *)
Lemma int_mul_le n f : is_fraction f → (int_mul n f <= Z.of_nat n)%Z.
Proof.
  destruct f as [p q]. unfold is_fraction, Qle, int_mul. cbn.
  intros [H0 H1]. rewrite Z.quot_div_nonneg by lia.
  apply Z.div_le_upper_bound; nia.
Qed.

Lemma categories_of_two_columns {S} (data : Table) (s : S) :
  Forall (fun row => length row = 2%nat) data →
  categories_of data s = (Ok (category_column data), s).
Proof.
  induction 1 as [|row data Hrow _ IH]; [reflexivity|].
  destruct row as [|a [|b [|? ?]]]; try discriminate.
  cbn. unfold mbind, Py_bind, bind, call. cbn. rewrite IH. reflexivity.
Qed.

Lemma has_two_columns (data : Table) :
  Forall (fun row => length row = 2%nat) data →
  forallb (fun row => Nat.eqb (length row) 2) data = true.
Proof.
  intros H. apply forallb_forall. intros row Hrow.
  apply Nat.eqb_eq. rewrite Forall_forall in H. apply H, list_elem_of_In, Hrow.
Qed.

(** What the validator computes for an upload that passes the schema
    checks, when the row-count guard is not taken. *)
Lemma validate_parsed {S} category_names file_ data (s : S) :
  is_fraction (TEST_SET_SPLIT env) →
  parsed_as env file_ data →
  _validate_training_file_and_get_data env category_names file_ s =
  (if negb (set_eqb category_names (keys (Counter (category_column data))))
   then Raise (CategoryMismatchError (py_repr env category_names))
   else match categories_with_less_than_two (category_column data) with
        | _ :: _ =>
            Raise (InsufficientPerCategoryError
                     (categories_with_less_than_two (category_column data)))
        | [] => Ok (["example"; "category"], data)
        end, s).
Proof.
  intros Hf [Hcsv Hrows].
  unfold _validate_training_file_and_get_data, mbind, Py_bind, bind, call.
  rewrite Hcsv. unfold table_has_num_columns. cbn [forallb length Nat.eqb andb].
  rewrite (has_two_columns _ Hrows). cbn.
  pose proof (int_mul_le (length data) _ Hf) as Hle.
  apply Z.ltb_ge in Hle. rewrite Hle.
  rewrite bool_decide_eq_true_2 by reflexivity. unfold ret at 1.
  rewrite (categories_of_two_columns _ _ Hrows).
  change (List.filter _ (Counter (category_column data)))
    with (List.filter (fun kv : string * nat => Nat.ltb (snd kv) 2)
            (Counter (category_column data))).
  fold (categories_with_less_than_two (category_column data)).
  destruct (set_eqb _ _); cbn; [|reflexivity].
  destruct (categories_with_less_than_two _); reflexivity.
Qed.

End Validator.

Section ValidatorClaims.
Context (env : AppEnv).

Lemma has_expected_schema_true table :
  has_expected_schema table = true ↔
  ∃ data, table = ["example"; "category"] :: data ∧
          Forall (fun row => length row = 2%nat) data.
Proof.
  unfold has_expected_schema. split.
  - intros H. apply andb_true_iff in H as [Hcols Hhdr].
    destruct table as [|row data]; [discriminate|].
    apply bool_decide_eq_true_1 in Hhdr. subst row.
    exists data. split; [reflexivity|].
    cbn in Hcols. rewrite forallb_forall in Hcols.
    apply Forall_forall. intros row Hrow.
    apply Nat.eqb_eq, Hcols, list_elem_of_In, Hrow.
  - intros (data & -> & Hrows). cbn.
    rewrite (has_two_columns _ Hrows). apply bool_decide_eq_true_2. reflexivity.
Qed.

(** The validator on a parsed table that fails one of the two schema
    checks. *)
Lemma validate_bad_schema {S} category_names file_ table (s : S) :
  csv_and_get_table env file_ = Ok table →
  has_expected_schema table = false →
  _validate_training_file_and_get_data env category_names file_ s
  = (Raise SchemaError, s).
Proof.
  intros Hcsv Hbad.
  unfold _validate_training_file_and_get_data, mbind, Py_bind, bind, call.
  rewrite Hcsv. unfold has_expected_schema in Hbad.
  apply andb_false_iff in Hbad as [Hcols|Hhdr].
  - unfold table_has_num_columns. rewrite Hcols. reflexivity.
  - unfold table_has_num_columns.
    destruct (forallb _ table); [|reflexivity]. cbn.
    destruct table as [|row rest]; [reflexivity|].
    cbn. rewrite Hhdr. reflexivity.
Qed.

(** C9.  Whatever the declared categories and the configuration are, a
    parsed table that does not have exactly two cells in every row with
    the first row equal to the header pair [example], [category] is
    rejected with SchemaError: the schema checks precede the row-count and
    the category checks. *)
Theorem schema_checked_first {S} category_names file_ table (s : S) :
  csv_and_get_table env file_ = Ok table →
  has_expected_schema table = false →
  _validate_training_file_and_get_data env category_names file_ s
  = (Raise SchemaError, s).
Proof.
  intros Hcsv Hbad.
  unfold _validate_training_file_and_get_data, mbind, Py_bind, bind, call.
  rewrite Hcsv. unfold table_has_num_columns, has_expected_schema in *.
  destruct (forallb _ table); [|reflexivity]. cbn in Hbad |- *.
  unfold table_has_headers. destruct table as [|row rest]; [reflexivity|].
  rewrite Hbad. reflexivity.
Qed.

(** An upload to a classifier without a train set that the validator
    rejects leaves the world as it was. *)
Lemma post_validation_raises req classifier_id (w : World) c file_ e :
  uploaded_file req = Some file_ →
  Classifier_table w !! classifier_id = Some c →
  Classifier.train_set c = None →
  _validate_training_file_and_get_data env (Classifier.category_names c) file_ w
    = (Raise e, w) →
  ClassifiersTrainingFile_post env req classifier_id w = (Raise e, w).
Proof.
  intros Hfile Hc Hts Hval.
  unfold ClassifiersTrainingFile_post, mbind, Py_bind, bind, get, parse_file.
  rewrite Hfile. cbn [ret]. rewrite Hc. cbn [ret]. rewrite Hts. cbn [fk_get ret].
  rewrite Hval. reflexivity.
Qed.

(** C5.  An upload that passes the schema checks and whose set of observed
    categories differs from the classifier's declared set is rejected by
    the validator with CategoryMismatchError, and the request leaves the
    world, its files included, as it was. *)
Theorem category_mismatch_rejected req classifier_id (w : World) c file_ data :
  is_fraction (TEST_SET_SPLIT env) →
  uploaded_file req = Some file_ →
  Classifier_table w !! classifier_id = Some c →
  Classifier.train_set c = None →
  parsed_as env file_ data →
  list_to_set (Classifier.category_names c)
    ≠@{gset string} list_to_set (category_column data) →
  _validate_training_file_and_get_data env (Classifier.category_names c) file_ w
    = (Raise (CategoryMismatchError (py_repr env (Classifier.category_names c))), w) ∧
  ClassifiersTrainingFile_post env req classifier_id w
    = (Raise (CategoryMismatchError (py_repr env (Classifier.category_names c))), w).
Proof.
  intros Hf Hfile Hc Hts Hparsed Hne.
  assert (_validate_training_file_and_get_data env (Classifier.category_names c) file_ w
          = (Raise (CategoryMismatchError (py_repr env (Classifier.category_names c))), w))
    as Hval.
  { rewrite (validate_parsed env _ _ _ _ Hf Hparsed).
    destruct (set_eqb _ _) eqn:E; [|reflexivity].
    exfalso. apply Hne. apply set_eqb_gset.
    apply set_eqb_spec. intros x. apply set_eqb_spec with (c := x) in E.
    rewrite E. apply Counter_keys_In. }
  split; [exact Hval|].
  eapply post_validation_raises; eassumption.
Qed.

Lemma append_assoc (s1 s2 s3 : string) : s1 ++ (s2 ++ s3) = (s1 ++ s2) ++ s3.
Proof.
  induction s1 as [|a s1 IH]; [reflexivity|].
  change (String a (s1 ++ (s2 ++ s3)) = String a ((s1 ++ s2) ++ s3)).
  rewrite IH. reflexivity.
Qed.

Lemma append_empty_r (s : string) : s ++ "" = s.
Proof.
  induction s as [|a s IH]; [reflexivity|].
  change (String a (s ++ "") = String a s). rewrite IH. reflexivity.
Qed.

Lemma occurs_in_append_l needle s t : occurs_in needle t → occurs_in needle (s ++ t).
Proof. intros (b & a & ->). exists (s ++ b), a. apply append_assoc. Qed.

Lemma occurs_in_append_r needle s t : occurs_in needle s → occurs_in needle (s ++ t).
Proof.
  intros (b & a & ->). exists b, (a ++ t). rewrite <- !append_assoc. reflexivity.
Qed.

(** Every joined text occurs in the result of [join]. *)
Lemma occurs_in_join sep l c : In c l → occurs_in c (join sep l).
Proof.
  induction l as [|s [|s' r] IH]; intros Hin; [destruct Hin| |].
  - destruct Hin as [->|[]]. exists "", "". cbn. symmetry. apply append_empty_r.
  - cbn [join]. destruct Hin as [->|Hin].
    + exists "", (sep ++ join sep (s' :: r)). reflexivity.
    + apply occurs_in_append_l, occurs_in_append_l, IH, Hin.
Qed.

(** C7.  An upload that passes the schema checks, whose set of observed
    categories equals the declared set, and in which some category has
    fewer than two examples is rejected: the validator raises
    [UnprocessableEntity], the class it also raises for a category
    mismatch, with the description of the insufficient-examples error.
    This description joins exactly the categories with fewer than two
    examples, so that the name of each of them occurs in it, and it is not
    the description of any category-mismatch error: by its description the
    caller can tell the one error from the other. *)
Theorem lonely_category_rejected {S} category_names file_ data (s : S) x :
  is_fraction (TEST_SET_SPLIT env) →
  parsed_as env file_ data →
  list_to_set category_names =@{gset string} list_to_set (category_column data) →
  In x (category_column data) →
  (count_occ string_dec (category_column data) x < 2)%nat →
  let offending := categories_with_less_than_two (category_column data) in
  let description :=
    "There are less than two examples with the categories: "
    ++ join "," offending ++ "."
    ++ " We need at least two examples per category." in
  _validate_training_file_and_get_data env category_names file_ s
    = (Raise (UnprocessableEntity description), s) ∧
  In x offending ∧
  (∀ c, In c offending ↔
        In c (category_column data) ∧
        (count_occ string_dec (category_column data) c < 2)%nat) ∧
  (∀ c, In c offending → occurs_in c description) ∧
  (∀ r d, CategoryMismatchError r = UnprocessableEntity d → d ≠ description).
Proof.
  intros Hf Hparsed Heq Hx Hcount offending description.
  assert (In x offending) as Hoff
    by (apply categories_with_less_than_two_In; tauto).
  split; [|split; [exact Hoff|split; [|split]]].
  - rewrite (validate_parsed env _ _ _ _ Hf Hparsed).
    replace (set_eqb _ _) with true.
    + cbn. fold offending. destruct offending; [destruct Hoff|reflexivity].
    + symmetry. apply set_eqb_spec. intros c.
      apply set_eqb_gset, set_eqb_spec with (c := c) in Heq.
      rewrite Heq. symmetry. apply Counter_keys_In.
  - intros c. apply categories_with_less_than_two_In.
  - intros c Hc. subst description.
    apply occurs_in_append_l, occurs_in_append_r, occurs_in_join, Hc.
  - intros r d [= <-]. subst description. cbn. discriminate.
Qed.

(** C6 on the code.  With [TEST_SET_SPLIT] a fraction, the number of rows
    is never below the minimum computed from it, so no parsed upload,
    however few rows it has, is rejected with InsufficientDataError. *)
Theorem row_count_guard_never_taken {S} category_names file_ table (s : S) :
  is_fraction (TEST_SET_SPLIT env) →
  csv_and_get_table env file_ = Ok table →
  (∀ n, Z.ltb (Z.of_nat n) (int_mul n (TEST_SET_SPLIT env)) = false) ∧
  (∀ n, (_validate_training_file_and_get_data env category_names file_ s).1
        ≠ Raise (InsufficientDataError n)).
Proof.
  intros Hf Hcsv. split.
  - intros n. apply Z.ltb_ge, int_mul_le, Hf.
  - intros n. destruct (has_expected_schema table) eqn:E.
    + apply has_expected_schema_true in E as (data & -> & Hrows).
      rewrite (validate_parsed env _ _ data _ Hf (conj Hcsv Hrows)).
      cbn [fst]. unfold InsufficientDataError, CategoryMismatchError,
        InsufficientPerCategoryError.
      destruct (negb _); [discriminate|].
      destruct (categories_with_less_than_two _); discriminate.
    + rewrite (validate_bad_schema _ _ _ _ Hcsv E). cbn.
      unfold SchemaError, InsufficientDataError. cbn. discriminate.
Qed.

(** C8.  An upload to a classifier that has a train set is rejected with
    AlreadyExists before anything else happens: the tables, the files and
    the scheduler's queue are as they were. *)
Theorem second_upload_rejected req classifier_id (w : World) c file_ tk tr :
  uploaded_file req = Some file_ →
  Classifier_table w !! classifier_id = Some c →
  Classifier.train_set c = Some tk →
  LabeledSet_table w !! tk = Some tr →
  ClassifiersTrainingFile_post env req classifier_id w
  = (Raise (AlreadyExists "This classifier already has a training set."), w).
Proof.
  intros Hfile Hc Hts Htr.
  unfold ClassifiersTrainingFile_post, mbind, Py_bind, bind, get, parse_file.
  rewrite Hfile. cbn [ret]. rewrite Hc. cbn [ret]. rewrite Hts.
  unfold fk_get, table_get, mbind, Py_bind, bind. rewrite Htr. reflexivity.
Qed.

End ValidatorClaims.

(** The value 0.2 is a fraction. *)
Lemma fifth_is_fraction : is_fraction (1 # 5).
Proof. split; unfold Qle; cbn; lia. Qed.

(** A table with a third column and a table with a capitalised header are
    both rejected. *)
Lemma schema_checked_first_witness :
  _validate_training_file_and_get_data (example_env three_columns draw_16_4)
    ["pos"; "neg"] "" tt = (Raise SchemaError, tt) ∧
  _validate_training_file_and_get_data (example_env capital_header draw_16_4)
    ["pos"; "neg"] "" tt = (Raise SchemaError, tt).
Proof.
  split.
  - apply (schema_checked_first (example_env three_columns draw_16_4)
             ["pos"; "neg"] "" three_columns tt); vm_compute; reflexivity.
  - apply (schema_checked_first (example_env capital_header draw_16_4)
             ["pos"; "neg"] "" capital_header tt); vm_compute; reflexivity.
Defined.

(** Three observed categories for a classifier that declares two. *)
Lemma category_mismatch_rejected_witness :
  let env := example_env (header :: three_by_two) draw_16_4 in
  _validate_training_file_and_get_data env ["pos"; "neg"] "example,category"
    untrained_world
    = (Raise (CategoryMismatchError "pos, neg"), untrained_world) ∧
  ClassifiersTrainingFile_post env upload 7 untrained_world
    = (Raise (CategoryMismatchError "pos, neg"), untrained_world).
Proof.
  apply (category_mismatch_rejected (example_env (header :: three_by_two) draw_16_4)
           upload 7 untrained_world untrained "example,category" three_by_two).
  - exact fifth_is_fraction.
  - reflexivity.
  - vm_compute; reflexivity.
  - reflexivity.
  - split; [reflexivity|]. repeat constructor.
  - compute_done.
Defined.

(** The category [neg] with a single row is named by the error. *)
Lemma lonely_category_rejected_witness :
  let description :=
    "There are less than two examples with the categories: neg. We need at least two examples per category." in
  _validate_training_file_and_get_data (example_env (header :: lonely_neg) draw_16_4)
    ["pos"; "neg"] "" tt
    = (Raise (UnprocessableEntity description), tt) ∧
  occurs_in "neg" description ∧
  (∀ r d, CategoryMismatchError r = UnprocessableEntity d → d ≠ description).
Proof.
  intros description.
  destruct (lonely_category_rejected (example_env (header :: lonely_neg) draw_16_4)
              ["pos"; "neg"] "" lonely_neg tt "neg")
    as (Hraise & _ & _ & Hnames & Hkind).
  - exact fifth_is_fraction.
  - split; [reflexivity|]. repeat constructor.
  - compute_done.
  - vm_compute. tauto.
  - vm_compute. lia.
  - split; [exact Hraise|]. split; [|exact Hkind].
    apply Hnames. left. reflexivity.
Defined.

(** With [TEST_SET_SPLIT = 0.2] the table of four rows is not rejected for
    its size. *)
Lemma row_count_guard_never_taken_witness :
  (∀ n, Z.ltb (Z.of_nat n) (int_mul n (1 # 5)) = false) ∧
  (∀ n, (_validate_training_file_and_get_data
           (example_env (header :: two_by_two) draw_16_4) ["pos"; "neg"] "" tt).1
        ≠ Raise (InsufficientDataError n)).
Proof.
  apply (row_count_guard_never_taken (example_env (header :: two_by_two) draw_16_4)
           ["pos"; "neg"] "" (header :: two_by_two) tt).
  - exact fifth_is_fraction.
  - reflexivity.
Defined.

(** The table of two categories with two rows each passes the validator,
    and the splitter then refuses it: no guard on the number of rows stood
    in the way. *)
Lemma four_rows_pass_validation :
  _validate_training_file_and_get_data
    (example_env (header :: two_by_two) draw_16_4) ["pos"; "neg"] "" tt
    = (Ok (header, two_by_two), tt) ∧
  ∃ msg,
    (ClassifiersTrainingFile_post (example_env (header :: two_by_two) draw_16_4)
       upload 7 untrained_world).1
    = Raise (ValueError msg).
Proof. split; [|eexists]; vm_compute; reflexivity. Qed.

(** A second upload to a classifier with records and a train file. *)
Lemma second_upload_rejected_witness :
  ClassifiersTrainingFile_post (example_env (header :: pos_neg_20) draw_16_4)
    upload 7 trained_world
  = (Raise (AlreadyExists "This classifier already has a training set."),
     trained_world).
Proof.
  apply (second_upload_rejected (example_env (header :: pos_neg_20) draw_16_4)
           upload 7 trained_world trained "example,category" 1
           (LabeledSet.mk false false None)); vm_compute; reflexivity.
Defined.

(** ** Properties of classifier creation *)

Section Creation.
Context (env : AppEnv).

(** What the parser makes of the values of [category_names]: it lets a
    null pass as it is, accepts a string without a comma, and aborts on
    everything else. *)
Lemma parse_category_names {S} (vs : list Json) (s : S) :
  match parse_values category_names_type vs s with
  | (Ok names, s') =>
      s' = s ∧ vs = map json_of_text names ∧ Forall comma_free names
  | (Raise e, s') =>
      s' = s ∧ (∃ d, e = BadRequest d) ∧
      ∃ v, In v vs ∧ v ≠ JNull ∧
           ((∀ c, v ≠ JStr c) ∨ (∃ c, v = JStr c ∧ contains_char ","%char c = true))
  end.
Proof.
  induction vs as [|v vs IH]; cbn.
  - split; [reflexivity|]. split; [reflexivity|constructor].
  - destruct v as [|b|q|c|l|d]; cbn;
      try (split; [reflexivity|]; split; [eexists; reflexivity|];
           eexists; split; [left; reflexivity|]; split; [discriminate|];
           left; intros ?; discriminate).
    + unfold mbind, Py_bind, bind.
      destruct (parse_values category_names_type vs s) as [[names|e] s'].
      * destruct IH as (-> & -> & Hall). cbn.
        split; [reflexivity|]. split; [reflexivity|].
        constructor; [intros t; discriminate|assumption].
      * destruct IH as (-> & Hd & v & Hin & Hv).
        split; [reflexivity|]. split; [assumption|].
        exists v. split; [right; assumption|assumption].
    + destruct (contains_char ","%char c) eqn:Hc; cbn.
      * split; [reflexivity|]. split; [eexists; reflexivity|].
        exists (JStr c). split; [left; reflexivity|]. split; [discriminate|].
        right. eauto.
      * unfold mbind, Py_bind, bind.
        destruct (parse_values category_names_type vs s) as [[names|e] s'].
        -- destruct IH as (-> & -> & Hall). cbn.
           split; [reflexivity|]. split; [reflexivity|].
           constructor; [intros t [= <-]; assumption|assumption].
        -- destruct IH as (-> & Hd & v & Hin & Hv).
           split; [reflexivity|]. split; [assumption|].
           exists v. split; [right; assumption|assumption].
Qed.

(** Nulls and strings without a comma are returned as they are. *)
Lemma parse_category_names_ok {S} (names : list (option string)) (s : S) :
  Forall comma_free names →
  parse_values category_names_type (map json_of_text names) s = (Ok names, s).
Proof.
  induction 1 as [|c names Hc _ IH]; [reflexivity|].
  destruct c as [t|]; cbn.
  - rewrite (Hc t eq_refl). cbn. unfold mbind, Py_bind, bind. rewrite IH.
    reflexivity.
  - unfold mbind, Py_bind, bind. rewrite IH. reflexivity.
Qed.

(** The [name] argument is never rejected for its value: [str] accepts
    every value, and a null is returned as it is. *)
Lemma parse_values_str {S} (vs : list Json) (s : S) :
  parse_values (fun v => Ok (py_str env v)) vs s
  = (Ok (map (name_argument env) vs), s).
Proof.
  induction vs as [|v vs IH]; [reflexivity|].
  cbn [parse_values map]. unfold mbind, Py_bind, bind.
  destruct v; cbn; rewrite IH; reflexivity.
Qed.

Lemma parse_name {S} (vs : list Json) (s : S) :
  parse_required (fun v => Ok (py_str env v)) vs s
  = match vs with
    | [] => (Raise (BadRequest bad_request_description), s)
    | v :: rest => (Ok (name_argument env v, map (name_argument env) rest), s)
    end.
Proof.
  unfold parse_required, mbind, Py_bind, bind. rewrite parse_values_str.
  destruct vs; reflexivity.
Qed.

Lemma all_text_null (names : list (option string)) :
  In None names → all_text names = None.
Proof.
  induction names as [|[t|] names IH]; cbn; [tauto| |reflexivity].
  intros [H|H]; [discriminate|]. rewrite (IH H). reflexivity.
Qed.

(** C10 on the code.  A request to create a classifier with fewer than two
    category names, or with a category name that is neither null nor a
    string, or is a string with a comma, fails with BadRequest and creates
    nothing.  A null category name is not rejected: [category_names_type]
    is not applied to it, it counts as a name in the guard on their number,
    and [db.Classifier.create] is called with it; the request then ends as
    the storage layer decides, with a classifier created unless that layer
    raises.  All that a successful creation guarantees is a request with
    at least two category names, each of them null or a string without a
    comma. *)
Theorem null_category_name_accepted (req : Request) (w : World) :
  ((length (values req "category_names") < 2)%nat →
   ∃ d, Classifiers_post env req w = (Raise (BadRequest d), w)) ∧
  (∀ v, In v (values req "category_names") → v ≠ JNull →
        (∀ c, v ≠ JStr c) ∨ (∃ c, v = JStr c ∧ contains_char ","%char c = true) →
        ∃ d, Classifiers_post env req w = (Raise (BadRequest d), w)) ∧
  (∀ v rest names,
     values req "name" = v :: rest →
     values req "category_names" = map json_of_text names →
     (2 <= length names)%nat →
     Forall comma_free names →
     In None names →
     Classifiers_post env req w
     = match create_with_null env (name_argument env v) names with
       | Raise e => (Raise e, w)
       | Ok (name, category_names) =>
           let k := fresh_id (Classifier_table w) in
           (Ok (mkStatus k name false category_names "not_begun"),
            with_directories (fun ds => {[classifier_dir env k]} ∪ ds)
              (with_Classifier_table
                 (fun tbl => <[k := Classifier.mk name false category_names
                                       "WILL_BE_REPLACED" "" None None]> tbl)
                 w))
       end) ∧
  (∀ st w', Classifiers_post env req w = (Ok st, w') →
     ∃ names,
       values req "category_names" = map json_of_text names ∧
       (2 <= length names)%nat ∧ Forall comma_free names).
Proof.
  split; [|split; [|split]].
  - intros Hlt.
    unfold Classifiers_post. unfold mbind at 1, Py_bind at 1, bind at 1.
    rewrite parse_name. destruct (values req "name") as [|v rest]; [eauto|].
    unfold mbind at 1, Py_bind at 1, bind at 1.
    unfold parse_required, mbind at 1, Py_bind at 1, bind at 1.
    pose proof (parse_category_names (values req "category_names") w) as Hcat.
    destruct (parse_values category_names_type _ w) as [[names|e] w1].
    2:{ destruct Hcat as (-> & (d & ->) & _). eauto. }
    destruct Hcat as (-> & Hvs & _). rewrite Hvs, length_map in Hlt.
    destruct names as [|c0 [|c1 cs]]; cbn in Hlt; [eauto|eauto|lia].
  - intros v0 Hin Hnull Hv.
    unfold Classifiers_post. unfold mbind at 1, Py_bind at 1, bind at 1.
    rewrite parse_name. destruct (values req "name") as [|v rest]; [eauto|].
    unfold mbind at 1, Py_bind at 1, bind at 1.
    unfold parse_required, mbind at 1, Py_bind at 1, bind at 1.
    pose proof (parse_category_names (values req "category_names") w) as Hcat.
    destruct (parse_values category_names_type _ w) as [[names|e] w1].
    2:{ destruct Hcat as (-> & (d & ->) & _). eauto. }
    destruct Hcat as (-> & Hvs & Hall). exfalso.
    rewrite Hvs in Hin. apply in_map_iff in Hin as (c & <- & Hin).
    destruct c as [t|]; [|apply Hnull; reflexivity].
    destruct Hv as [Hv|(c' & [= <-] & Hc)]; [apply (Hv t); reflexivity|].
    rewrite Forall_forall in Hall. apply list_elem_of_In, Hall in Hin.
    rewrite (Hin t eq_refl) in Hc. discriminate.
  - intros v rest names Hname Hvs Hlen Hall Hnull.
    unfold Classifiers_post. unfold mbind at 1, Py_bind at 1, bind at 1.
    rewrite parse_name, Hname.
    unfold mbind at 1, Py_bind at 1, bind at 1.
    unfold parse_required, mbind at 1, Py_bind at 1, bind at 1.
    rewrite Hvs, (parse_category_names_ok _ _ Hall).
    destruct names as [|c0 [|c1 cs]]; cbn in Hlen; try lia.
    cbn [ret length Nat.ltb Nat.leb].
    unfold mbind at 1, Py_bind at 1, bind at 1.
    unfold Classifier_create at 1, mbind at 1, Py_bind at 1, bind at 1, call.
    unfold created_attributes. rewrite (all_text_null _ Hnull).
    replace (match name_argument env v with
             | Some _ | _ => create_with_null env (name_argument env v)
                               (c0 :: c1 :: cs)
             end)
      with (create_with_null env (name_argument env v) (c0 :: c1 :: cs))
      by (destruct (name_argument env v); reflexivity).
    destruct (create_with_null env (name_argument env v) (c0 :: c1 :: cs))
      as [[name category_names]|e]; [|reflexivity].
    destruct w as [ct lt mt tt_ tmt ldt fs ds sch se cl].
    cbv [ensure_exists _classifier_status mbind Py_bind bind get
         modify ret fk_get prod_map id Classifier.set_dir_path Classifier.train_set
         fst snd with_Classifier_table with_directories Classifier_table
         LabeledSet_table Metrics_table TestSet_table TopicModel_table LDASet_table
         files directories scheduled sent_emails critical_log Classifier.name
         Classifier.trained_by_openFraming Classifier.category_names].
    rewrite insert_insert_eq. reflexivity.
  - intros st w'.
    unfold Classifiers_post. unfold mbind at 1, Py_bind at 1, bind at 1.
    rewrite parse_name. destruct (values req "name") as [|v rest]; [discriminate|].
    unfold mbind at 1, Py_bind at 1, bind at 1.
    unfold parse_required, mbind at 1, Py_bind at 1, bind at 1.
    pose proof (parse_category_names (values req "category_names") w) as Hcat.
    destruct (parse_values category_names_type _ w) as [[names|e] w1];
      [|discriminate].
    destruct Hcat as (-> & Hvs & Hall).
    destruct names as [|c0 [|c1 cs]]; [discriminate|discriminate|].
    intros _. exists (c0 :: c1 :: cs).
    split; [exact Hvs|]. split; [cbn; lia|exact Hall].
Qed.

End Creation.

(** The request body with the category names "pos" and null: with a
    storage layer that holds a null as the text "None", the classifier is
    created.  One category name, a name with a comma and a number among the
    names are rejected. *)
Lemma null_category_name_accepted_witness :
  let env := example_env [] draw_16_4 in
  Classifiers_post env (creation_request [JStr "pos"; JNull]) empty_world
  = (Ok (mkStatus 1 "sentiment" false ["pos"; "None"] "not_begun"),
     with_directories (fun ds => {["/data/1"]} ∪ ds)
       (with_Classifier_table
          (fun tbl => <[1 := Classifier.mk "sentiment" false ["pos"; "None"]
                               "WILL_BE_REPLACED" "" None None]> tbl)
          empty_world)) ∧
  (∃ d, Classifiers_post env (creation_request [JStr "pos"]) empty_world
        = (Raise (BadRequest d), empty_world)) ∧
  (∃ d, Classifiers_post env (creation_request [JStr "pos"; JStr "neg,neutral"])
          empty_world
        = (Raise (BadRequest d), empty_world)) ∧
  (∃ d, Classifiers_post env (creation_request [JStr "pos"; JNum 1]) empty_world
        = (Raise (BadRequest d), empty_world)).
Proof.
  intros env. split; [|split; [|split]].
  - etransitivity.
    + apply (proj1 (proj2 (proj2 (null_category_name_accepted env
                                    (creation_request [JStr "pos"; JNull])
                                    empty_world)))
               (JStr "sentiment") [] [Some "pos"; None]).
      * reflexivity.
      * reflexivity.
      * vm_compute. lia.
      * constructor; [intros t [= <-]; reflexivity|].
        constructor; [intros t; discriminate|constructor].
      * right. left. reflexivity.
    + vm_compute. reflexivity.
  - apply (proj1 (null_category_name_accepted env
                    (creation_request [JStr "pos"]) empty_world)).
    vm_compute. lia.
  - apply (proj1 (proj2 (null_category_name_accepted env
                           (creation_request [JStr "pos"; JStr "neg,neutral"])
                           empty_world)) (JStr "neg,neutral")).
    + vm_compute. tauto.
    + discriminate.
    + right. exists "neg,neutral". split; reflexivity.
  - apply (proj1 (proj2 (null_category_name_accepted env
                           (creation_request [JStr "pos"; JNum 1])
                           empty_world)) (JNum 1)).
    + vm_compute. tauto.
    + discriminate.
    + left. discriminate.
Defined.

(** ** Properties of the split *)

Section Split.

Lemma take_rows_ok {S} (data : Table) (indices : list nat) (s : S) :
  (∀ i, In i indices → (i < length data)%nat) →
  take_rows data indices s = (Ok (rows_at data indices), s).
Proof.
  induction indices as [|i rest IH]; intros Hlt; [reflexivity|].
  cbn [take_rows]. destruct (lookup_lt_is_Some_2 data i) as [row Hrow].
  { apply Hlt. left. reflexivity. }
  rewrite Hrow. unfold mbind, Py_bind, bind.
  rewrite IH by (intros j Hj; apply Hlt; right; exact Hj).
  cbn [rows_at map ret]. rewrite (nth_lookup_Some _ _ _ _ Hrow). reflexivity.
Qed.

Lemma rows_at_all (data : Table) : rows_at data (seq 0 (length data)) = data.
Proof.
  unfold rows_at. apply list_eq. intros i.
  change (map ?f ?l) with (f <$> l). rewrite list_lookup_fmap.
  destruct (decide (i < length data)%nat) as [Hlt|Hge].
  - rewrite lookup_seq_lt by assumption. cbn.
    destruct (lookup_lt_is_Some_2 data i Hlt) as [row Hrow].
    rewrite Hrow, (nth_lookup_Some _ _ _ _ Hrow). reflexivity.
  - rewrite lookup_seq_ge, lookup_ge_None_2 by lia. reflexivity.
Qed.

Lemma rows_at_app data l1 l2 :
  rows_at data (l1 ++ l2) = (rows_at data l1 ++ rows_at data l2)%list.
Proof. apply map_app. Qed.

Lemma count_in_app y c l1 l2 :
  count_in y c (l1 ++ l2) = (count_in y c l1 + count_in y c l2)%nat.
Proof. unfold count_in. rewrite List.filter_app, length_app. reflexivity. Qed.

Lemma count_in_Permutation y c l1 l2 :
  Permutation l1 l2 → count_in y c l1 = count_in y c l2.
Proof.
  unfold count_in. induction 1 as [|i l l' _ IH|i j l|l l' l'' _ IH1 _ IH2]; cbn.
  - reflexivity.
  - destruct (bool_decide _); cbn; congruence.
  - destruct (bool_decide (y !! i = _)), (bool_decide (y !! j = _)); reflexivity.
  - congruence.
Qed.

Lemma count_in_seq (pre y : list string) c :
  count_in (pre ++ y) c (seq (length pre) (length y)) = count_occ string_dec y c.
Proof.
  revert pre. induction y as [|a y IH]; intros pre; [reflexivity|].
  cbn [length seq count_occ]. unfold count_in. cbn [List.filter].
  rewrite list_lookup_middle by reflexivity.
  specialize (IH (pre ++ [a])%list).
  rewrite <- app_assoc, length_app, Nat.add_1_r in IH. cbn [app] in IH.
  unfold count_in in IH.
  destruct (string_dec a c) as [->|Hne].
  - rewrite bool_decide_eq_true_2 by reflexivity. cbn. rewrite IH. reflexivity.
  - rewrite bool_decide_eq_false_2 by congruence. exact IH.
Qed.

Lemma count_in_all y c :
  count_in y c (seq 0 (length y)) = count_occ string_dec y c.
Proof. exact (count_in_seq [] y c). Qed.

Lemma count_in_pos y c indices :
  (0 < count_in y c indices)%nat ↔ ∃ i, In i indices ∧ y !! i = Some c.
Proof.
  unfold count_in. split.
  - intros Hpos.
    destruct (List.filter _ indices) as [|i rest] eqn:E; [cbn in Hpos; lia|].
    assert (In i (List.filter (fun i => bool_decide (y !! i = Some c)) indices))
      as Hin by (rewrite E; left; reflexivity).
    apply filter_In in Hin as [Hin Hi]. apply bool_decide_eq_true_1 in Hi. eauto.
  - intros (i & Hin & Hi).
    assert (In i (List.filter (fun i => bool_decide (y !! i = Some c)) indices))
      as Hf by (apply filter_In; split; [assumption|apply bool_decide_eq_true_2, Hi]).
    destruct (List.filter _ indices); [destruct Hf|cbn; lia].
Qed.

Lemma category_column_lookup data i c :
  (i < length data)%nat →
  category_column data !! i = Some c ↔ nth 1 (nth i data []) "" = c.
Proof.
  intros Hlt. unfold category_column.
  change (map ?f ?l) with (f <$> l). rewrite list_lookup_fmap.
  destruct (lookup_lt_is_Some_2 data i Hlt) as [row Hrow].
  rewrite Hrow, (nth_lookup_Some _ _ _ _ Hrow). cbn.
  split; [intros [= <-]; reflexivity|intros <-; reflexivity].
Qed.

(** A category occurs among the selected rows exactly when one of the
    selected indices carries it. *)
Lemma In_category_rows_at data indices c :
  (∀ i, In i indices → (i < length data)%nat) →
  In c (category_column (rows_at data indices)) ↔
  (0 < count_in (category_column data) c indices)%nat.
Proof.
  intros Hlt. rewrite count_in_pos.
  unfold category_column at 1, rows_at. rewrite map_map, in_map_iff.
  split; intros (i & H1 & H2).
  - exists i. split; [assumption|].
    apply category_column_lookup; [apply Hlt|]; assumption.
  - exists i. split; [|assumption].
    apply category_column_lookup; [apply Hlt|]; assumption.
Qed.

(** The rows selected for a side carry a category as often as the selected
    indices do. *)
Lemma count_occ_rows_at data indices c :
  (∀ i, In i indices → (i < length data)%nat) →
  count_occ string_dec (category_column (rows_at data indices)) c
  = count_in (category_column data) c indices.
Proof.
  induction indices as [|i rest IH]; intros Hlt; [reflexivity|].
  unfold count_in. cbn [rows_at category_column map List.filter count_occ].
  fold (rows_at data rest). fold (category_column (rows_at data rest)).
  fold (category_column data).
  rewrite IH by (intros j Hj; apply Hlt; right; exact Hj).
  pose proof (category_column_lookup data i c
                (Hlt i ltac:(left; reflexivity))) as Hi.
  destruct (string_dec (nth 1 (nth i data []) "") c) as [E|Hne].
  - rewrite bool_decide_eq_true_2 by (apply Hi, E). reflexivity.
  - rewrite bool_decide_eq_false_2 by (intros H; apply Hne, Hi, H). reflexivity.
Qed.

Lemma lookup_In (y : list string) i c : y !! i = Some c → In c y.
Proof. intros H. apply list_elem_of_In, list_elem_of_lookup. eauto. Qed.

(** The facts that a draw accepted by [stratified_draw_ok] provides. *)
Lemma stratified_draw_facts y n_train n_test train test :
  (n_train + n_test = length y)%nat →
  stratified_draw_ok y n_train n_test (train, test) = true →
  length train = n_train ∧ length test = n_test ∧
  Permutation (train ++ test) (seq 0 (length y)) ∧
  (∀ c, In c y →
     (count_occ string_dec y c * n_train / length y
      <= count_in y c train)%nat ∧
     (count_in y c train
      <= S (count_occ string_dec y c * n_train / length y))%nat).
Proof.
  intros Hsum H. unfold stratified_draw_ok in H.
  apply andb_true_iff in H as [H Hclass].
  apply andb_true_iff in H as [H Hpart].
  apply andb_true_iff in H as [Htr Hte].
  apply Nat.eqb_eq in Htr, Hte.
  split; [assumption|]. split; [assumption|]. split.
  - symmetry. apply NoDup_Permutation_bis.
    + apply seq_NoDup.
    + rewrite length_app, length_seq. lia.
    + intros i Hi. rewrite forallb_forall in Hpart.
      specialize (Hpart i Hi). apply Nat.eqb_eq in Hpart.
      apply (count_occ_In Nat.eq_dec). lia.
  - intros c Hc. rewrite forallb_forall in Hclass.
    specialize (Hclass _ (Counter_In_inv _ _ Hc)). cbn [fst snd] in Hclass.
    apply andb_true_iff in Hclass as [Hlo Hhi].
    apply Nat.leb_le in Hlo, Hhi. split; assumption.
Qed.

Lemma n_test_le_n_train n : (2 <= n)%nat → (n_test_of n <= n_train_of n)%nat.
Proof.
  unfold n_train_of, n_test_of. intros Hn.
  pose proof (Nat.div_mod_eq (n + 4) 5) as E.
  pose proof (Nat.mod_upper_bound (n + 4) 5 ltac:(lia)) as Hm.
  destruct (decide (n = 2%nat)) as [->|Hne]; [cbn; lia|]. lia.
Qed.

Lemma n_train_plus_n_test n : (n_train_of n + n_test_of n = n)%nat.
Proof.
  unfold n_train_of, n_test_of.
  pose proof (Nat.div_mod_eq (n + 4) 5) as E.
  pose proof (Nat.mod_upper_bound (n + 4) 5 ltac:(lia)) as Hm.
  lia.
Qed.

End Split.

Section SplitOnUpload.
Context (env : AppEnv).

(** The splitter accepts the labels of a validated table whose dev share
    is not smaller than the number of classes. *)
Lemma split_accepts {S} rng (y : list string) (s : S) :
  (2 <= length y)%nat →
  (∀ c, In c y → (2 <= count_occ string_dec y c)%nat) →
  (length (Counter y) <= n_test_of (length y))%nat →
  StratifiedShuffleSplit_split rng y s
  = (Ok (rng y (n_train_of (length y)) (n_test_of (length y))), s).
Proof.
  intros Hn Hcount Hclasses. unfold StratifiedShuffleSplit_split.
  pose proof (n_test_le_n_train _ Hn) as Hle.
  assert (1 <= n_test_of (length y))%nat as Hpos.
  { unfold n_test_of. apply Nat.div_le_lower_bound; lia. }
  destruct (Nat.eqb_spec (n_train_of (length y)) 0) as [E|_]; [lia|].
  replace (existsb _ (Counter y)) with false.
  - destruct (Nat.ltb_spec (n_train_of (length y)) (length (Counter y))); [lia|].
    destruct (Nat.ltb_spec (n_test_of (length y)) (length (Counter y))); [lia|].
    reflexivity.
  - symmetry. apply not_true_is_false. intros H.
    apply existsb_exists in H as ([k v] & Hin & Hv). cbn [snd] in Hv.
    apply Nat.ltb_lt in Hv. apply Counter_In in Hin as [-> Hin].
    specialize (Hcount _ Hin). lia.
Qed.

Lemma Counter_length_le (y declared : list string) :
  (∀ c, In c y → In c declared) →
  (length (Counter y) <= length declared)%nat.
Proof.
  intros Hincl. rewrite <- (length_map fst (Counter y)).
  apply NoDup_incl_length; [apply Counter_keys_NoDup|].
  intros c Hc. apply Hincl, Counter_keys_In, Hc.
Qed.

(** What an upload does when the table is valid and the splitter returns
    the draw [(train, dev)]: it writes the header and the drawn rows to
    the train and the dev file, creates the two records, schedules one
    training process and answers with the classifier's status. *)
Lemma post_writes_split req classifier_id (w : World) c file_ data train dev :
  is_fraction (TEST_SET_SPLIT env) →
  uploaded_file req = Some file_ →
  Classifier_table w !! classifier_id = Some c →
  Classifier.train_set c = None →
  parsed_as env file_ data →
  (∀ x, In x (Classifier.category_names c) ↔ In x (category_column data)) →
  (∀ x, In x (category_column data) →
        (2 <= count_occ string_dec (category_column data) x)%nat) →
  data ≠ [] →
  (length (Classifier.category_names c) <= n_test_of (length data))%nat →
  rng_split env (category_column data)
    (n_train_of (length data)) (n_test_of (length data)) = (train, dev) →
  (∀ i, In i (train ++ dev) → (i < length data)%nat) →
  ∃ st w',
    ClassifiersTrainingFile_post env req classifier_id w = (Ok st, w') ∧
    files w'
    = <[classifier_dev_set_file env classifier_id :=
          ["example"; "category"] :: rows_at data dev]>
        (<[classifier_train_set_file env classifier_id :=
             ["example"; "category"] :: rows_at data train]> (files w)).
Proof.
  intros Hf Hfile Hc Hts Hparsed Hset Hcount Hne Hclasses Hdraw Hlt.
  assert (length (category_column data) = length data) as Hlen
    by apply length_map.
  assert (2 <= length data)%nat as Hn.
  { destruct data as [|row rest]; [congruence|].
    specialize (Hcount (nth 1 row "") ltac:(left; reflexivity)).
    pose proof (count_occ_bound string_dec (nth 1 row "")
                  (category_column (row :: rest))) as Hb.
    rewrite Hlen in Hb. lia. }
  unfold ClassifiersTrainingFile_post, mbind, Py_bind, bind, get, parse_file.
  rewrite Hfile. cbn [ret]. rewrite Hc. cbn [ret]. rewrite Hts. cbn [fk_get ret].
  rewrite (validate_parsed env _ _ _ _ Hf Hparsed).
  replace (set_eqb _ _) with true.
  2:{ symmetry. apply set_eqb_spec. intros x. rewrite Hset.
      symmetry. apply Counter_keys_In. }
  replace (categories_with_less_than_two (category_column data)) with (@nil string).
  2:{ destruct (categories_with_less_than_two _) as [|x l] eqn:E; [reflexivity|].
      assert (In x (categories_with_less_than_two (category_column data))) as Hx
        by (rewrite E; left; reflexivity).
      apply categories_with_less_than_two_In in Hx as [Hx Hx'].
      specialize (Hcount _ Hx). lia. }
  cbn [negb]. unfold unzip_rows.
  destruct Hparsed as [_ Hrows].
  assert (∀ A (k : Py World A),
            (match data with
             | [] => raise (ValueError "not enough values to unpack")
             | _ :: _ => categories_of data
             end) w = categories_of data w) as Hunzip
    by (intros; destruct data; [congruence|reflexivity]).
  rewrite (Hunzip unit (ret tt)).
  rewrite (categories_of_two_columns _ _ Hrows).
  rewrite split_accepts; rewrite ?Hlen; try assumption.
  2:{ etransitivity; [|exact Hclasses].
      apply Counter_length_le. intros x. apply Hset. }
  rewrite Hdraw.
  rewrite take_rows_ok by (intros i Hi; apply Hlt, in_or_app; left; exact Hi).
  rewrite take_rows_ok by (intros i Hi; apply Hlt, in_or_app; right; exact Hi).
  cbv [_write_headers_and_data_to_csv modify LabeledSet_create mbind Py_bind
       bind get ret ensure_exists table_get _classifier_status fk_get].
  destruct w as [ct lt mt tt_ tmt ldt fs ds sch se cl].
  cbn -[fresh_id]. rewrite lookup_insert_eq. cbn -[fresh_id].
  set (lt1 := <[fresh_id lt := _]> lt).
  assert (<[fresh_id lt1 := LabeledSet.mk false false None]> lt1 !! fresh_id lt
          = Some (LabeledSet.mk false false None)) as ->.
  { destruct (decide (fresh_id lt1 = fresh_id lt)) as [->|Hk].
    - apply lookup_insert_eq.
    - rewrite lookup_insert_ne by assumption. apply lookup_insert_eq. }
  eexists _, _. split; reflexivity.
Qed.

End SplitOnUpload.

Section SplitClaim.
Context (env : AppEnv).

(** C4 (as amended).  For a valid upload to a classifier without a train
    set (the schema checks pass, the observed categories are the declared
    ones, each with at least two rows) whose dev share [ceil(0.2 * rows)]
    is not smaller than the number of declared categories, and for every
    draw of the splitter that scikit-learn's contract allows: the upload
    succeeds; the train and dev files hold the header and, between them,
    every uploaded row exactly once; the dev file has [ceil(0.2 * rows)]
    rows and the train file the others; of the rows of every category the
    train file holds the proportional share of the train size, rounded
    down, or one more, and the dev file the others; the categories of the
    train file are the declared ones; those of the dev file are among the
    declared ones and include every category that has two rows more than
    its rounded-down train share.  With 20 rows in categories of 10 rows
    each that makes 16 train rows and 4 dev rows, each file with every
    category. *)
Theorem stratified_split_partition req classifier_id (w : World) c file_ data :
  is_fraction (TEST_SET_SPLIT env) →
  uploaded_file req = Some file_ →
  Classifier_table w !! classifier_id = Some c →
  Classifier.train_set c = None →
  parsed_as env file_ data →
  let y := category_column data in
  let n_train := n_train_of (length data) in
  let n_test := n_test_of (length data) in
  list_to_set (Classifier.category_names c) =@{gset string} list_to_set y →
  (∀ x, In x (Classifier.category_names c) → (2 <= count_occ string_dec y x)%nat) →
  data ≠ [] →
  (length (Classifier.category_names c) <= n_test)%nat →
  stratified_draw_ok y n_train n_test (rng_split env y n_train n_test) = true →
  classifier_train_set_file env classifier_id
    ≠ classifier_dev_set_file env classifier_id →
  ∃ st w' train_data dev_data,
    ClassifiersTrainingFile_post env req classifier_id w = (Ok st, w') ∧
    files w' !! classifier_train_set_file env classifier_id
      = Some (["example"; "category"] :: train_data) ∧
    files w' !! classifier_dev_set_file env classifier_id
      = Some (["example"; "category"] :: dev_data) ∧
    Permutation (train_data ++ dev_data) data ∧
    length train_data = n_train ∧
    length dev_data = n_test ∧
    (∀ x, In x (Classifier.category_names c) →
          let share := (count_occ string_dec y x * n_train / length data)%nat in
          (share <= count_occ string_dec (category_column train_data) x)%nat ∧
          (count_occ string_dec (category_column train_data) x <= share + 1)%nat ∧
          (count_occ string_dec (category_column train_data) x
           + count_occ string_dec (category_column dev_data) x
           = count_occ string_dec y x)%nat) ∧
    (∀ x, In x (category_column train_data) ↔ In x (Classifier.category_names c)) ∧
    (∀ x, In x (category_column dev_data) → In x (Classifier.category_names c)) ∧
    (∀ x, In x (Classifier.category_names c) →
          (count_occ string_dec y x * n_train / length data + 2
           <= count_occ string_dec y x)%nat →
          In x (category_column dev_data)) ∧
    (length data = 20%nat →
     (∀ x, In x (Classifier.category_names c) →
           count_occ string_dec y x = 10%nat) →
     length train_data = 16%nat ∧ length dev_data = 4%nat ∧
     ∀ x, In x (category_column dev_data) ↔ In x (Classifier.category_names c)).
Proof.
  intros Hf Hfile Hc Hts Hparsed y n_train n_test Hsets Hcount Hne Hclasses
    Hdraw Hpaths.
  assert (∀ x, In x (Classifier.category_names c) ↔ In x y) as Hset
    by (intros x; apply set_eqb_gset, set_eqb_spec with (c := x) in Hsets;
        exact Hsets).
  assert (length y = length data) as Hlen by apply length_map.
  destruct (rng_split env y n_train n_test) as [train dev] eqn:Hrng.
  destruct (stratified_draw_facts y n_train n_test train dev) as
    (Htrain & Hdev & Hperm & Hshare);
    [rewrite Hlen; apply n_train_plus_n_test|assumption|].
  rewrite Hlen in Hperm, Hshare.
  assert (∀ i, In i (train ++ dev) → (i < length data)%nat) as Hlt.
  { intros i Hi. apply (Permutation_in _ Hperm), in_seq in Hi. lia. }
  assert (∀ i, In i train → (i < length data)%nat) as Hlt_train
    by (intros i Hi; apply Hlt, in_or_app; left; exact Hi).
  assert (∀ i, In i dev → (i < length data)%nat) as Hlt_dev
    by (intros i Hi; apply Hlt, in_or_app; right; exact Hi).
  assert (∀ x, (count_in y x train + count_in y x dev
                = count_occ string_dec y x)%nat) as Hsplit.
  { intros x. rewrite <- count_in_app, <- count_in_all.
    apply count_in_Permutation. rewrite Hlen. exact Hperm. }
  assert (2 <= length data)%nat as Hn.
  { destruct data as [|row rest]; [congruence|].
    assert (In (nth 1 row "") y) as Hin by (left; reflexivity).
    pose proof (Hcount _ (proj2 (Hset _) Hin)) as H2.
    pose proof (count_occ_bound string_dec (nth 1 row "") y) as Hb.
    rewrite Hlen in Hb. lia. }
  pose proof (n_test_le_n_train _ Hn) as Hle.
  pose proof (n_train_plus_n_test (length data)) as Hsum.
  fold n_train n_test in Hle, Hsum.
  assert (∀ x, In x (Classifier.category_names c) →
               In x (category_column (rows_at data train))) as Htrain_all.
  { intros x Hx. apply In_category_rows_at; [assumption|]. fold y.
    destruct (Hshare x (proj1 (Hset x) Hx)) as [Hlo _].
    specialize (Hcount x Hx).
    assert (1 <= count_occ string_dec y x * n_train / length data)%nat
      by (apply Nat.div_le_lower_bound; nia).
    lia. }
  assert (∀ x, In x (Classifier.category_names c) →
               (count_occ string_dec y x * n_train / length data + 2
                <= count_occ string_dec y x)%nat →
               In x (category_column (rows_at data dev))) as Hdev_some.
  { intros x Hx Hroom. apply In_category_rows_at; [assumption|]. fold y.
    destruct (Hshare x (proj1 (Hset x) Hx)) as [_ Hhi].
    specialize (Hsplit x). lia. }
  assert (∀ indices x, (∀ i, In i indices → (i < length data)%nat) →
                       In x (category_column (rows_at data indices)) →
                       In x (Classifier.category_names c)) as Hdeclared.
  { intros indices x Hi Hx. apply In_category_rows_at in Hx; [|assumption].
    apply count_in_pos in Hx as (i & _ & Hx). apply Hset.
    exact (lookup_In _ _ _ Hx). }
  destruct (post_writes_split env req classifier_id w c file_ data train dev)
    as (st & w' & Hpost & Hfiles); try assumption.
  { intros x Hx. apply Hcount, Hset, Hx. }
  exists st, w', (rows_at data train), (rows_at data dev).
  split; [exact Hpost|]. rewrite Hfiles.
  split; [rewrite lookup_insert_ne by congruence; apply lookup_insert_eq|].
  split; [apply lookup_insert_eq|].
  split.
  { rewrite <- rows_at_app.
    etransitivity; [apply Permutation_map, Hperm|].
    fold (rows_at data (seq 0 (length data))). rewrite rows_at_all. reflexivity. }
  split; [unfold rows_at; rewrite length_map; exact Htrain|].
  split; [unfold rows_at; rewrite length_map; exact Hdev|].
  split.
  { intros x Hx share. subst share.
    rewrite !count_occ_rows_at by assumption. fold y.
    destruct (Hshare x (proj1 (Hset x) Hx)) as [Hlo Hhi].
    specialize (Hsplit x). lia. }
  split; [intros x; split; [apply Hdeclared; assumption|apply Htrain_all]|].
  split; [intros x; apply Hdeclared; assumption|].
  split; [exact Hdev_some|].
  intros H20 H10.
  split; [unfold rows_at; rewrite length_map, Htrain; unfold n_train;
          rewrite H20; reflexivity|].
  split; [unfold rows_at; rewrite length_map, Hdev; unfold n_test;
          rewrite H20; reflexivity|].
  intros x. split; [apply Hdeclared; assumption|].
  intros Hx. apply Hdev_some; [assumption|].
  rewrite (H10 x Hx). unfold n_train. rewrite H20. cbn. lia.
Qed.

End SplitClaim.

(** C4 as stated fails on a valid table with two rows of a rare category
    among forty: the validator accepts it, the dev share of eight rows has
    room for both categories, and the draw is one that the contract of the
    splitter allows (of the two rare rows the train side is due 1.6, and it
    gets both); the upload succeeds, and no row of the dev file is of the
    rare category. *)
Lemma rare_category_missing_from_dev :
  let env := example_env (header :: rare_common_40) draw_32_8 in
  _validate_training_file_and_get_data env ["rare"; "common"] "example,category"
    rarity_world
    = (Ok (header, rare_common_40), rarity_world) ∧
  stratified_draw_ok (category_column rare_common_40) 32 8 draw_32_8 = true ∧
  ∃ st w' dev_data,
    ClassifiersTrainingFile_post env upload 9 rarity_world = (Ok st, w') ∧
    files w' !! "/data/9/dev.csv" = Some (header :: dev_data) ∧
    length dev_data = 8%nat ∧
    ¬ In "rare" (category_column dev_data).
Proof.
  intros env. split; [vm_compute; reflexivity|]. split; [vm_compute; reflexivity|].
  eexists _, _, (rows_at rare_common_40 (seq 32 8)).
  split; [vm_compute; reflexivity|]. split; [vm_compute; reflexivity|].
  split; [reflexivity|].
  vm_compute. intuition discriminate.
Qed.

(** Twenty rows, ten of each of two categories, and a draw that puts two
    rows of each category on the dev side. *)
Lemma stratified_split_partition_witness :
  let env := example_env (header :: pos_neg_20) draw_16_4 in
  ∃ st w' train_data dev_data,
    ClassifiersTrainingFile_post env upload 7 untrained_world = (Ok st, w') ∧
    files w' !! "/data/7/train.csv" = Some (header :: train_data) ∧
    files w' !! "/data/7/dev.csv" = Some (header :: dev_data) ∧
    Permutation (train_data ++ dev_data) pos_neg_20 ∧
    length train_data = 16%nat ∧ length dev_data = 4%nat ∧
    (∀ x, In x (category_column train_data) ↔ In x ["pos"; "neg"]) ∧
    (∀ x, In x (category_column dev_data) ↔ In x ["pos"; "neg"]).
Proof.
  intros env.
  destruct (stratified_split_partition env upload 7 untrained_world untrained
              "example,category" pos_neg_20)
    as (st & w' & train_data & dev_data & Hpost & Htrain & Hdev & Hperm & _ & _
        & _ & Hcats & _ & _ & H20).
  - exact fifth_is_fraction.
  - reflexivity.
  - vm_compute; reflexivity.
  - reflexivity.
  - split; [reflexivity|]. repeat constructor.
  - compute_done.
  - intros x [<-|[<-|[]]]; vm_compute; lia.
  - discriminate.
  - vm_compute; lia.
  - vm_compute; reflexivity.
  - vm_compute; discriminate.
  - destruct H20 as (H16 & H4 & Hdevcats).
    + reflexivity.
    + intros x [<-|[<-|[]]]; vm_compute; reflexivity.
    + exists st, w', train_data, dev_data. repeat split; try assumption;
        try apply Hcats; apply Hdevcats.
Defined.

(** ** Further properties of the task executor *)

Section PredictionTask.
Context (env : Collaborators).

(** The prediction branch up to the [try] statement, once the test set is
    found and its two assertions hold. *)
Lemma prediction_task_loaded task_args (w : World) ts :
  TestSet_table w !! ClassifierPredictionTaskArgs.test_set_id task_args = Some ts →
  TestSet.inference_began ts = true →
  TestSet.inference_completed ts = false →
  prediction_task env task_args w =
  with_locals (ClassifierPredictionTaskArgs.test_set_id task_args, ts)
    (try_except_else_finally
       (call_ (ClassifierModel_init env (prediction_model task_args));;
        call_ (predict_and_save_predictions env (prediction_model task_args)
                 (ClassifierPredictionTaskArgs.test_file task_args)
                 (CONTENT_COL env) (PREDICTED_LABEL_COL env)
                 (ClassifierPredictionTaskArgs.test_output_file task_args)))
       (fun e =>
          in_world (logger_critical
                      ("Error while doing prediction task: " ++ exc_str e));;
          set_locals (prod_map id (TestSet.set_error_encountered true)))
       (fun _ =>
          set_locals (prod_map id (TestSet.set_inference_completed true));;
          test_set ← locals;
          w ← in_world get;
          classifier ← table_get (Classifier_table w)
                          (TestSet.classifier test_set.2);
          url ← call (predictions_url env test_set.1 test_set.2);
          in_world (send_email env
            (inference_finished_email test_set.2 classifier url)))
       (test_set ← locals; in_world (TestSet_save test_set))) w.
Proof.
  intros Hts Hbegan Hcompleted.
  unfold prediction_task, mbind, Py_bind, bind, get, table_get.
  rewrite Hts. cbn [ret]. rewrite Hbegan, Hcompleted. reflexivity.
Qed.

Lemma predictor_body_result task_args (s : Frame (Z * TestSet.t)) :
  (call_ (ClassifierModel_init env (prediction_model task_args));;
   call_ (predict_and_save_predictions env (prediction_model task_args)
            (ClassifierPredictionTaskArgs.test_file task_args)
            (CONTENT_COL env) (PREDICTED_LABEL_COL env)
            (ClassifierPredictionTaskArgs.test_output_file task_args))) s
  = (outcome_of (predictor_result env task_args), s).
Proof.
  unfold predictor_result, mbind, Py_bind, bind, call_, outcome_of.
  destruct (ClassifierModel_init _ _); reflexivity.
Qed.

(** X1.  When the predictor of a prediction job raises, the task returns
    normally; the test set is saved with [error_encountered] set and its
    other attributes as they were, and no other test set is touched; the
    log gets one critical entry, and no message is handed to the mailer. *)
Theorem prediction_failure_recorded task_args (w : World) ts e :
  TestSet_table w !! ClassifierPredictionTaskArgs.test_set_id task_args = Some ts →
  TestSet.inference_began ts = true →
  TestSet.inference_completed ts = false →
  predictor_result env task_args = Some e →
  ∃ w',
    do_classifier_related_task env (prediction task_args) w = (Ok tt, w') ∧
    TestSet_table w'
    = <[ClassifierPredictionTaskArgs.test_set_id task_args :=
          TestSet.set_error_encountered true ts]> (TestSet_table w) ∧
    critical_log w'
    = (critical_log w
         ++ [("Error while doing prediction task: " ++ exc_str e)%string])%list ∧
    sent_emails w' = sent_emails w.
Proof.
  intros Hts Hbegan Hcompleted He. cbn [do_classifier_related_task].
  rewrite (prediction_task_loaded _ _ _ Hts Hbegan Hcompleted).
  unfold with_locals, try_except_else_finally.
  rewrite predictor_body_result, He.
  destruct w. eexists. split; [reflexivity|]. repeat split.
Qed.

(** X2.  When the predictor of a prediction job returns, the test set is
    saved with [inference_completed] set, whatever [url_for] and the mailer
    do afterwards, and nothing is logged.  When [url_for] returns,
    [send_email] is called exactly once, with the inference-finished
    template, the test set's address, the classifier's name and that URL,
    and the outcome of the task is the outcome of that call; when [url_for]
    raises, its exception leaves the task and no message is handed to the
    mailer. *)
Theorem prediction_success_recorded task_args (w : World) ts c :
  TestSet_table w !! ClassifierPredictionTaskArgs.test_set_id task_args = Some ts →
  TestSet.inference_began ts = true →
  TestSet.inference_completed ts = false →
  Classifier_table w !! TestSet.classifier ts = Some c →
  predictor_result env task_args = None →
  let test_set_id := ClassifierPredictionTaskArgs.test_set_id task_args in
  ∃ w',
    TestSet_table w'
    = <[test_set_id := TestSet.set_inference_completed true ts]> (TestSet_table w) ∧
    critical_log w' = critical_log w ∧
    match predictions_url env test_set_id ts with
    | Ok url =>
        let email := inference_finished_email ts c url in
        do_classifier_related_task env (prediction task_args) w
        = (outcome_of (Emailer_send_email env email), w') ∧
        sent_emails w' = (sent_emails w ++ [email])%list
    | Raise e =>
        do_classifier_related_task env (prediction task_args) w = (Raise e, w') ∧
        sent_emails w' = sent_emails w
    end.
Proof.
  intros Hts Hbegan Hcompleted Hc He test_set_id.
  cbn [do_classifier_related_task].
  rewrite (prediction_task_loaded _ _ _ Hts Hbegan Hcompleted).
  unfold with_locals, try_except_else_finally.
  rewrite predictor_body_result, He.
  cbv [outcome_of mbind Py_bind bind set_locals in_world locals get table_get
       send_email modify call call_ TestSet_save fst snd prod_map id ret].
  destruct w as [ct lt mt tt_ tmt ldt fs ds sch se cl]. cbn in Hc |- *.
  rewrite Hc. fold test_set_id. cbn.
  change (predictions_url env test_set_id
            (TestSet.set_inference_completed true ts))
    with (predictions_url env test_set_id ts).
  destruct (predictions_url env test_set_id ts) as [url|e].
  - change (inference_finished_email
              (TestSet.set_inference_completed true ts) c url)
      with (inference_finished_email ts c url).
    destruct (Emailer_send_email env (inference_finished_email ts c url));
      eexists; (split; [|split; [|split; [reflexivity|]]]); reflexivity.
  - eexists. (split; [|split; [|split; [reflexivity|]]]); reflexivity.
Qed.

(** X3.  A prediction job whose test set is missing raises [DoesNotExist];
    one whose test set has not begun inference, or has already completed it,
    raises [AssertionError].  In all three cases the predictor is not asked
    and the world is left as it was. *)
Theorem prediction_preconditions task_args (w : World) :
  let test_set_id := ClassifierPredictionTaskArgs.test_set_id task_args in
  (TestSet_table w !! test_set_id = None →
   do_classifier_related_task env (prediction task_args) w = (Raise DoesNotExist, w)) ∧
  (∀ ts, TestSet_table w !! test_set_id = Some ts →
         TestSet.inference_began ts = false ∨ TestSet.inference_completed ts = true →
         do_classifier_related_task env (prediction task_args) w
         = (Raise AssertionError, w)).
Proof.
  intros test_set_id. cbn [do_classifier_related_task].
  unfold prediction_task, mbind, Py_bind, bind, get, table_get. fold test_set_id.
  split.
  - intros ->. reflexivity.
  - intros ts -> [Hb|Hc]; cbn [ret].
    + rewrite Hb. reflexivity.
    + rewrite Hc. destruct (TestSet.inference_began ts); reflexivity.
Qed.

End PredictionTask.

(** A prediction job whose predictor runs out of memory. *)
Lemma prediction_failure_recorded_witness :
  ∃ w',
    do_classifier_related_task failing_predictor (prediction prediction_job)
      prediction_world
    = (Ok tt, w') ∧
    TestSet_table w' !! 4
    = Some (TestSet.mk 7 true false true "reader@example.org") ∧
    critical_log w' = ["Error while doing prediction task: out of memory"] ∧
    sent_emails w' = [].
Proof.
  destruct (prediction_failure_recorded failing_predictor prediction_job
              prediction_world reviews (ExternalError "out of memory"))
    as (w' & Hrun & Hts & Hlog & Hmail); try (vm_compute; reflexivity).
  exists w'. split; [exact Hrun|]. rewrite Hts, Hlog, Hmail.
  split; [apply lookup_insert_eq|]. split; reflexivity.
Defined.

(** A prediction job whose predictor and mailer return. *)
Lemma prediction_success_recorded_witness :
  ∃ w',
    do_classifier_related_task succeeding_trainer (prediction prediction_job)
      prediction_world
    = (Ok tt, w') ∧
    TestSet_table w' !! 4
    = Some (TestSet.mk 7 true true false "reader@example.org") ∧
    sent_emails w'
    = [mkEmail "classifier_inference_finished" "reader@example.org"
         [("classifier_name", "sentiment"); ("predictions_url", "/predictions")]].
Proof.
  destruct (prediction_success_recorded succeeding_trainer prediction_job
              prediction_world reviews sentiment)
    as (w' & Hts & _ & Hrun & Hmail); try (vm_compute; reflexivity).
  exists w'. split; [exact Hrun|]. rewrite Hts.
  split; [apply lookup_insert_eq|exact Hmail].
Defined.

(** A prediction job without its test set, and one whose test set has already
    completed inference. *)
Lemma prediction_preconditions_witness :
  do_classifier_related_task succeeding_trainer (prediction prediction_job)
    empty_world
  = (Raise DoesNotExist, empty_world) ∧
  (let completed :=
     with_TestSet_table
       (fun _ => <[4 := TestSet.set_inference_completed true reviews]> ∅)
       empty_world in
   do_classifier_related_task succeeding_trainer (prediction prediction_job)
     completed
   = (Raise AssertionError, completed)).
Proof.
  split.
  - apply (proj1 (prediction_preconditions succeeding_trainer prediction_job
                    empty_world)).
    reflexivity.
  - intros completed.
    apply (proj2 (prediction_preconditions succeeding_trainer prediction_job
                    completed)
             (TestSet.set_inference_completed true reviews)).
    + vm_compute; reflexivity.
    + right. reflexivity.
Defined.

Section TrainingAndTopicTasks.
Context (env : Collaborators).

(** X4.  A training job whose classifier is missing, or whose classifier
    refers to a train or dev record that is missing, raises [DoesNotExist];
    one whose classifier has no train set or no dev set raises
    [AssertionError].  In all these cases the trainer is not asked and the
    world is left as it was. *)
Theorem training_preconditions task_args (w : World) :
  let classifier_id := ClassifierTrainingTaskArgs.classifier_id task_args in
  let run := do_classifier_related_task env (training task_args) w in
  (Classifier_table w !! classifier_id = None → run = (Raise DoesNotExist, w)) ∧
  (∀ c, Classifier_table w !! classifier_id = Some c →
     (Classifier.train_set c = None → run = (Raise AssertionError, w)) ∧
     (∀ tk, Classifier.train_set c = Some tk →
        (LabeledSet_table w !! tk = None → run = (Raise DoesNotExist, w)) ∧
        (is_Some (LabeledSet_table w !! tk) →
           (Classifier.dev_set c = None → run = (Raise AssertionError, w)) ∧
           (∀ dk, Classifier.dev_set c = Some dk →
                  LabeledSet_table w !! dk = None →
                  run = (Raise DoesNotExist, w))))).
Proof.
  intros classifier_id run. subst run. cbn [do_classifier_related_task].
  unfold training_task, mbind, Py_bind, bind, get, table_get. fold classifier_id.
  split; [intros ->; reflexivity|].
  intros c ->. cbn [ret]. split; [intros ->; reflexivity|].
  intros tk ->. unfold fk_get, table_get, mbind, Py_bind, bind.
  split; [intros ->; reflexivity|].
  intros [tr ->]. cbn [ret assert_not_none]. split; [intros ->; reflexivity|].
  intros dk -> ->. reflexivity.
Qed.

(** X5.  Whatever the trainer and the mailer answer, a training job saves
    no row but its own two records: the classifier row is written back as it
    was, the other records, the test sets, the topic models and their
    records are as before; and on neither of its two records is a flag that
    was set cleared. *)
Theorem training_job_frame task_args (w : World) c tk tr dk dv :
  Classifier_table w !! ClassifierTrainingTaskArgs.classifier_id task_args = Some c →
  Classifier.train_set c = Some tk → LabeledSet_table w !! tk = Some tr →
  Classifier.dev_set c = Some dk → LabeledSet_table w !! dk = Some dv →
  let w' := (do_classifier_related_task env (training task_args) w).2 in
  Classifier_table w' = Classifier_table w ∧
  TestSet_table w' = TestSet_table w ∧
  TopicModel_table w' = TopicModel_table w ∧
  LDASet_table w' = LDASet_table w ∧
  (∀ k, k ≠ tk → k ≠ dk → LabeledSet_table w' !! k = LabeledSet_table w !! k) ∧
  ∃ tr' dv',
    LabeledSet_table w' !! tk = Some tr' ∧
    LabeledSet_table w' !! dk = Some dv' ∧
    stays_set (LabeledSet.training_or_inference_completed tr)
      (LabeledSet.training_or_inference_completed tr') ∧
    stays_set (LabeledSet.error_encountered tr) (LabeledSet.error_encountered tr') ∧
    stays_set (LabeledSet.training_or_inference_completed dv)
      (LabeledSet.training_or_inference_completed dv') ∧
    stays_set (LabeledSet.error_encountered dv) (LabeledSet.error_encountered dv').
Proof.
  intros Hc Htk Htr Hdk Hdv w'. subst w'. cbn [do_classifier_related_task].
  rewrite (training_task_loaded _ _ _ _ _ _ _ _ Hc Htk Htr Hdk Hdv).
  unfold with_locals, try_except_else_finally.
  rewrite trainer_body_result.
  destruct w as [ct lt mt tt_ tmt ldt fs ds sch se cl]. cbn in Hc, Htr, Hdv.
  assert (∀ (f g : LabeledSet.t → LabeledSet.t) (lt' : gmap Z LabeledSet.t),
            lt' = <[tk := f tr]> (<[dk := g dv]> lt) →
            (∀ r, stays_set (LabeledSet.training_or_inference_completed r)
                    (LabeledSet.training_or_inference_completed (f r)) ∧
                  stays_set (LabeledSet.error_encountered r)
                    (LabeledSet.error_encountered (f r))) →
            (∀ r, stays_set (LabeledSet.training_or_inference_completed r)
                    (LabeledSet.training_or_inference_completed (g r)) ∧
                  stays_set (LabeledSet.error_encountered r)
                    (LabeledSet.error_encountered (g r))) →
            (∀ k, k ≠ tk → k ≠ dk → lt' !! k = lt !! k) ∧
            ∃ tr' dv',
              lt' !! tk = Some tr' ∧ lt' !! dk = Some dv' ∧
              stays_set (LabeledSet.training_or_inference_completed tr)
                (LabeledSet.training_or_inference_completed tr') ∧
              stays_set (LabeledSet.error_encountered tr)
                (LabeledSet.error_encountered tr') ∧
              stays_set (LabeledSet.training_or_inference_completed dv)
                (LabeledSet.training_or_inference_completed dv') ∧
              stays_set (LabeledSet.error_encountered dv)
                (LabeledSet.error_encountered dv')) as Hrecords.
  { intros f g lt' -> Hf Hg. split.
    - intros k Hk1 Hk2. rewrite !lookup_insert_ne by congruence. reflexivity.
    - destruct (decide (tk = dk)) as [->|Hne].
      + assert (tr = dv) as -> by congruence.
        exists (f dv), (f dv). rewrite !lookup_insert_eq.
        destruct (Hf dv). repeat split; assumption.
      + exists (f tr), (g dv).
        rewrite lookup_insert_eq, lookup_insert_ne, lookup_insert_eq by done.
        destruct (Hf tr), (Hg dv). repeat split; assumption. }
  destruct (trainer_result env task_args) as [metrics|e].
  - cbv [mbind Py_bind bind set_locals in_world locals Metrics_save send_email
         modify call_ LabeledSet_save Classifier_save on_train_set on_dev_set
         fst snd clsf clsf_train_set clsf_dev_set prod_map id].
    cbn;
      (repeat (split; [first [reflexivity|apply insert_id; assumption]|]));
      apply (Hrecords (LabeledSet.set_training_or_inference_completed true)
               (fun r => LabeledSet.set_metrics (Some metrics)
                           (LabeledSet.set_training_or_inference_completed true r)));
      try reflexivity; intros r; split; intros H; first [reflexivity|exact H].
  - cbn. repeat (split; [first [reflexivity|apply insert_id; assumption]|]).
    apply (Hrecords (LabeledSet.set_error_encountered true)
             (LabeledSet.set_error_encountered true));
      try reflexivity; intros r; split; intros H; first [reflexivity|exact H].
Qed.

(** X6.  How the status of a classifier reads after a training job: after
    a job whose trainer raised it reads as it did before the job, so a
    classifier that was training stays "training"; after a job whose trainer
    returned it reads "completed". *)
Theorem status_after_training_job task_args (w : World) c tk tr dk dv :
  Classifier_table w !! ClassifierTrainingTaskArgs.classifier_id task_args = Some c →
  Classifier.train_set c = Some tk → LabeledSet_table w !! tk = Some tr →
  Classifier.dev_set c = Some dk → LabeledSet_table w !! dk = Some dv →
  let classifier_id := ClassifierTrainingTaskArgs.classifier_id task_args in
  let w' := (do_classifier_related_task env (training task_args) w).2 in
  (∀ e, trainer_result env task_args = Raise e →
        (_classifier_status (classifier_id, c) w').1
        = (_classifier_status (classifier_id, c) w).1) ∧
  (∀ metrics, trainer_result env task_args = Ok metrics →
        (_classifier_status (classifier_id, c) w').1
        = Ok (mkStatus classifier_id (Classifier.name c)
                (Classifier.trained_by_openFraming c)
                (Classifier.category_names c) "completed")).
Proof.
  intros Hc Htk Htr Hdk Hdv classifier_id w'. subst w'.
  cbn [do_classifier_related_task].
  rewrite (training_task_loaded _ _ _ _ _ _ _ _ Hc Htk Htr Hdk Hdv).
  unfold with_locals, try_except_else_finally.
  rewrite trainer_body_result.
  unfold _classifier_status, mbind, Py_bind, bind, get, fk_get, table_get.
  cbn [snd fst ret]. rewrite Htk.
  destruct w as [ct lt mt tt_ tmt ldt fs ds sch se cl]. cbn in Hc, Htr, Hdv.
  split.
  - intros e ->. cbn. rewrite lookup_insert_eq, Htr. cbn.
    destruct (LabeledSet.training_or_inference_completed tr); reflexivity.
  - intros metrics ->.
    cbv [mbind Py_bind bind set_locals in_world locals Metrics_save send_email
         modify call_ LabeledSet_save Classifier_save on_train_set on_dev_set
         fst snd clsf clsf_train_set clsf_dev_set prod_map id].
    cbn. rewrite lookup_insert_eq. reflexivity.
Qed.

(** X7.  When the corpus and the modeler of a topic-model job are
    constructed and the spreadsheets are written, the record is saved with
    [lda_completed] set and no other record is touched; [send_email] is
    called exactly once, with the topic-model template, the model's address
    and name and the placeholder preview URL; nothing is logged; and the
    outcome of the task is the outcome of that call. *)
Theorem topic_model_success_recorded task_args (w : World) m lk lda :
  TopicModel_table w !! TopicModelTrainingTaskArgs.topic_model_id task_args = Some m →
  TopicModel.lda_set m = Some lk → LDASet_table w !! lk = Some lda →
  modeler_result env task_args = None →
  spreadsheet_result env task_args = None →
  ∃ w',
    do_topic_model_related_task env task_args w
    = (outcome_of (Emailer_send_email env (topic_model_finished_email m)), w') ∧
    LDASet_table w' = <[lk := LDASet.set_lda_completed true lda]> (LDASet_table w) ∧
    sent_emails w' = (sent_emails w ++ [topic_model_finished_email m])%list ∧
    critical_log w' = critical_log w.
Proof.
  intros Hm Hlk Hlda Hmod Hsheet.
  rewrite (topic_task_loaded _ _ _ _ _ _ Hm Hlk Hlda).
  unfold with_locals, try_except_else_finally.
  unfold modeler_result in Hmod. unfold spreadsheet_result in Hsheet.
  cbv [mbind Py_bind bind call_ ret].
  destruct (Corpus_init env _); [discriminate|]. rewrite Hmod, Hsheet.
  cbv [set_locals in_world locals send_email modify call_ LDASet_save mbind
       Py_bind bind fst snd prod_map id outcome_of].
  destruct w as [ct lt mt tt_ tmt ldt fs ds sch se cl].
  fold (topic_model_finished_email m).
  destruct (Emailer_send_email env (topic_model_finished_email m));
    eexists; (split; [reflexivity|]); repeat split.
Qed.

(** X8.  A topic-model job whose topic model is missing, or refers to a
    missing record, raises [DoesNotExist]; one whose topic model has no
    record raises [AssertionError].  In these cases nothing is constructed
    and the world is left as it was. *)
Theorem topic_model_preconditions task_args (w : World) :
  let topic_model_id := TopicModelTrainingTaskArgs.topic_model_id task_args in
  let run := do_topic_model_related_task env task_args w in
  (TopicModel_table w !! topic_model_id = None → run = (Raise DoesNotExist, w)) ∧
  (∀ m, TopicModel_table w !! topic_model_id = Some m →
     (TopicModel.lda_set m = None → run = (Raise AssertionError, w)) ∧
     (∀ lk, TopicModel.lda_set m = Some lk → LDASet_table w !! lk = None →
            run = (Raise DoesNotExist, w))).
Proof.
  intros topic_model_id run. subst run.
  unfold do_topic_model_related_task, mbind, Py_bind, bind, get, table_get.
  fold topic_model_id.
  split; [intros ->; reflexivity|].
  intros m ->. cbn [ret]. split; [intros ->; reflexivity|].
  intros lk -> Hlk. unfold fk_get, table_get, mbind, Py_bind, bind.
  rewrite Hlk. reflexivity.
Qed.

(** X9.  When constructing the corpus or the modeler of a topic-model job
    raises, the task returns normally; the record is saved with
    [error_encountered] set and [lda_completed] as it was, and no other
    record is touched; the log gets one critical entry, and no message is
    handed to the mailer. *)
Theorem topic_model_construction_failure_logged task_args (w : World) m lk lda e :
  TopicModel_table w !! TopicModelTrainingTaskArgs.topic_model_id task_args = Some m →
  TopicModel.lda_set m = Some lk → LDASet_table w !! lk = Some lda →
  modeler_result env task_args = Some e →
  ∃ w',
    do_topic_model_related_task env task_args w = (Ok tt, w') ∧
    LDASet_table w' = <[lk := LDASet.set_error_encountered true lda]> (LDASet_table w) ∧
    critical_log w'
    = (critical_log w
         ++ [("Error while doing lda training task: " ++ exc_str e)%string])%list ∧
    sent_emails w' = sent_emails w.
Proof.
  intros Hm Hlk Hlda He.
  rewrite (topic_task_loaded _ _ _ _ _ _ Hm Hlk Hlda).
  unfold with_locals, try_except_else_finally.
  unfold modeler_result in He.
  cbv [mbind Py_bind bind call_ ret].
  destruct w as [ct lt mt tt_ tmt ldt fs ds sch se cl].
  destruct (Corpus_init env _) as [e0|].
  - injection He as ->. eexists. split; [reflexivity|]. repeat split.
  - rewrite He. eexists. split; [reflexivity|]. repeat split.
Qed.

End TrainingAndTopicTasks.

(** A training job without its classifier, and one whose classifier has no
    train set. *)
Lemma training_preconditions_witness :
  do_classifier_related_task succeeding_trainer (training sentiment_job) empty_world
  = (Raise DoesNotExist, empty_world) ∧
  do_classifier_related_task succeeding_trainer (training sentiment_job)
    untrained_world
  = (Raise AssertionError, untrained_world).
Proof.
  split.
  - apply (proj1 (training_preconditions succeeding_trainer sentiment_job
                    empty_world)).
    reflexivity.
  - apply (proj1 (proj2 (training_preconditions succeeding_trainer sentiment_job
                           untrained_world) untrained ltac:(reflexivity))).
    reflexivity.
Defined.

(** A failed job on records that an earlier job completed: the classifier
    and the test sets are as before and both records stay completed. *)
Lemma training_job_frame_witness :
  let w' := (do_classifier_related_task failing_trainer (training sentiment_job)
               completed_job_world).2 in
  Classifier_table w' = Classifier_table completed_job_world ∧
  TestSet_table w' = TestSet_table completed_job_world ∧
  ∃ tr' dv',
    LabeledSet_table w' !! 1 = Some tr' ∧
    LabeledSet_table w' !! 2 = Some dv' ∧
    LabeledSet.training_or_inference_completed tr' = true ∧
    LabeledSet.training_or_inference_completed dv' = true.
Proof.
  intros w'.
  destruct (training_job_frame failing_trainer sentiment_job completed_job_world
              sentiment 1 (LabeledSet.mk true false None)
              2 (LabeledSet.mk true false (Some accuracy_metrics)))
    as (Hc & Hf & _ & _ & _ & tr' & dv' & Htr & Hdv & Htc & _ & Hdc & _);
    try (vm_compute; reflexivity).
  split; [exact Hc|]. split; [exact Hf|].
  exists tr', dv'. split; [exact Htr|]. split; [exact Hdv|].
  split; [apply Htc|apply Hdc]; reflexivity.
Defined.

(** The status of the sentiment classifier after a failed and after a
    successful job. *)
Lemma status_after_training_job_witness :
  (_classifier_status (7, sentiment)
     (do_classifier_related_task failing_trainer (training sentiment_job)
        fresh_job_world).2).1
  = Ok (mkStatus 7 "sentiment" false ["pos"; "neg"] "training") ∧
  (_classifier_status (7, sentiment)
     (do_classifier_related_task succeeding_trainer (training sentiment_job)
        fresh_job_world).2).1
  = Ok (mkStatus 7 "sentiment" false ["pos"; "neg"] "completed").
Proof.
  split.
  - apply (proj1 (status_after_training_job failing_trainer sentiment_job
                    fresh_job_world sentiment 1 (LabeledSet.mk false false None)
                    2 (LabeledSet.mk false false None)
                    ltac:(vm_compute; reflexivity) ltac:(reflexivity)
                    ltac:(vm_compute; reflexivity) ltac:(reflexivity)
                    ltac:(vm_compute; reflexivity))
             (ExternalError "out of memory")).
    reflexivity.
  - apply (proj2 (status_after_training_job succeeding_trainer sentiment_job
                    fresh_job_world sentiment 1 (LabeledSet.mk false false None)
                    2 (LabeledSet.mk false false None)
                    ltac:(vm_compute; reflexivity) ltac:(reflexivity)
                    ltac:(vm_compute; reflexivity) ltac:(reflexivity)
                    ltac:(vm_compute; reflexivity))
             accuracy_metrics).
    reflexivity.
Defined.

(** A topic-model job whose collaborators all return. *)
Lemma topic_model_success_recorded_witness :
  ∃ w',
    do_topic_model_related_task succeeding_trainer topic_job topic_world
    = (Ok tt, w') ∧
    LDASet_table w' !! 5 = Some (LDASet.mk true false) ∧
    sent_emails w'
    = [mkEmail "topic_model_training_finished" "owner@example.org"
         [("topic_model_name", "news");
          ("topic_model_preview_url", "http://NOTDONEYET")]].
Proof.
  destruct (topic_model_success_recorded succeeding_trainer topic_job topic_world
              topics 5 (LDASet.mk false false))
    as (w' & Hrun & Hrow & Hmail & _); try (vm_compute; reflexivity).
  exists w'. split; [exact Hrun|]. rewrite Hrow.
  split; [apply lookup_insert_eq|exact Hmail].
Defined.

(** A topic-model job without its topic model, and one whose topic model has
    no record. *)
Lemma topic_model_preconditions_witness :
  do_topic_model_related_task succeeding_trainer topic_job empty_world
  = (Raise DoesNotExist, empty_world) ∧
  (let unset :=
     mkWorld ∅ ∅ [] ∅ (<[3 := TopicModel.mk "news" "owner@example.org" None]> ∅)
       ∅ ∅ ∅ [] [] [] in
   do_topic_model_related_task succeeding_trainer topic_job unset
   = (Raise AssertionError, unset)).
Proof.
  split.
  - apply (proj1 (topic_model_preconditions succeeding_trainer topic_job
                    empty_world)).
    reflexivity.
  - intros unset.
    apply (proj1 (proj2 (topic_model_preconditions succeeding_trainer topic_job
                           unset)
                    (TopicModel.mk "news" "owner@example.org" None)
                    ltac:(vm_compute; reflexivity))).
    reflexivity.
Defined.

(** A topic-model job whose training file cannot be read. *)
Lemma topic_model_construction_failure_logged_witness :
  ∃ w',
    do_topic_model_related_task failing_corpus topic_job topic_world = (Ok tt, w') ∧
    LDASet_table w' !! 5 = Some (LDASet.mk false true) ∧
    critical_log w' = ["Error while doing lda training task: no such file"] ∧
    sent_emails w' = [].
Proof.
  destruct (topic_model_construction_failure_logged failing_corpus topic_job
              topic_world topics 5 (LDASet.mk false false)
              (ExternalError "no such file"))
    as (w' & Hrun & Hrow & Hlog & Hmail); try (vm_compute; reflexivity).
  exists w'. split; [exact Hrun|]. rewrite Hrow, Hlog, Hmail.
  split; [apply lookup_insert_eq|]. split; reflexivity.
Defined.

(** ** Further properties of the resources *)

Section Keys.

(** The key of a new row is not in use. *)
Lemma fresh_id_fresh {R} (tbl : gmap Z R) : tbl !! fresh_id tbl = None.
Proof.
  assert (∀ k x, tbl !! k = Some x →
                 (k <= map_fold (fun k _ acc => Z.max k acc) 0 tbl)%Z) as Hmax.
  { apply (map_fold_weak_ind
             (fun r (m : gmap Z R) => ∀ k x, m !! k = Some x → (k <= r)%Z)).
    - intros k x. rewrite lookup_empty. discriminate.
    - intros i x m r _ IH k y. rewrite lookup_insert.
      destruct (decide (i = k)) as [->|_]; [lia|].
      intros H. specialize (IH _ _ H). lia. }
  destruct (tbl !! fresh_id tbl) as [x|] eqn:E; [|reflexivity].
  apply Hmax in E. unfold fresh_id in E. lia.
Qed.

End Keys.

Section CreationAndListing.
Context (env : AppEnv).

Lemma all_text_Some (names : list string) : all_text (map Some names) = Some names.
Proof.
  induction names as [|c names IH]; [reflexivity|]. cbn. rewrite IH. reflexivity.
Qed.

(** X10.  A request whose first name is a string and whose category names
    are at least two strings without a comma creates exactly one
    classifier: under a key that was not in use, with that name and those
    category names, without train or dev set; its directory is ensured to
    exist; the answer reports the status "not_begun".  The row keeps the
    placeholder written at creation as its [dir_path]: the path of the
    directory is assigned to the instance after the last [save]. *)
Theorem classifier_created (req : Request) (w : World) name rest c0 c1 cs :
  values req "name" = JStr name :: rest →
  values req "category_names" = map JStr (c0 :: c1 :: cs) →
  Forall (fun c => contains_char ","%char c = false) (c0 :: c1 :: cs) →
  let k := fresh_id (Classifier_table w) in
  let row := Classifier.mk name false (c0 :: c1 :: cs)
               "WILL_BE_REPLACED" "" None None in
  Classifier_table w !! k = None ∧
  Classifiers_post env req w
  = (Ok (mkStatus k name false (c0 :: c1 :: cs) "not_begun"),
     with_directories (fun ds => {[classifier_dir env k]} ∪ ds)
       (with_Classifier_table (fun tbl => <[k := row]> tbl) w)).
Proof.
  intros Hname Hcats Hcomma k row.
  split; [apply fresh_id_fresh|].
  unfold Classifiers_post. unfold mbind at 1, Py_bind at 1, bind at 1.
  rewrite parse_name, Hname.
  unfold mbind at 1, Py_bind at 1, bind at 1.
  unfold parse_required, mbind at 1, Py_bind at 1, bind at 1.
  rewrite Hcats.
  replace (map JStr (c0 :: c1 :: cs))
    with (map json_of_text (map Some (c0 :: c1 :: cs)))
    by (rewrite map_map; reflexivity).
  rewrite parse_category_names_ok.
  2:{ apply Forall_fmap. eapply Forall_impl; [exact Hcomma|].
      intros c Hc t [= <-]. exact Hc. }
  cbn [ret length Nat.ltb Nat.leb map].
  unfold mbind at 1, Py_bind at 1, bind at 1.
  unfold Classifier_create at 1, mbind at 1, Py_bind at 1, bind at 1, call.
  unfold created_attributes, name_argument, py_str.
  change (Some c0 :: Some c1 :: map Some cs) with (map Some (c0 :: c1 :: cs)).
  rewrite all_text_Some.
  destruct w as [ct lt mt tt_ tmt ldt fs ds sch se cl].
  cbv [ensure_exists _classifier_status mbind Py_bind bind get
       modify ret fk_get prod_map id Classifier.set_dir_path Classifier.train_set
       fst snd with_Classifier_table with_directories Classifier_table
       LabeledSet_table Metrics_table TestSet_table TopicModel_table LDASet_table
       files directories scheduled sent_emails critical_log Classifier.name
       Classifier.trained_by_openFraming Classifier.category_names].
  fold k. rewrite insert_insert_eq. reflexivity.
Qed.

(** The status of a classifier whose train set, if it has one, is found. *)
Lemma _classifier_status_ok (clsf : Z * Classifier.t) (w : World) :
  (∀ t, Classifier.train_set clsf.2 = Some t → is_Some (LabeledSet_table w !! t)) →
  ∃ st, _classifier_status clsf w = (Ok st, w) ∧
        st_classifier_id st = clsf.1 ∧
        st_name st = Classifier.name clsf.2 ∧
        st_category_names st = Classifier.category_names clsf.2 ∧
        (st_training_status st = "not_begun" ↔ Classifier.train_set clsf.2 = None).
Proof.
  intros Hfk. unfold _classifier_status, mbind, Py_bind, bind, get, fk_get, table_get.
  destruct (Classifier.train_set clsf.2) as [t|].
  - destruct (Hfk t eq_refl) as [ts Hts]. rewrite Hts. cbn.
    eexists. split; [reflexivity|]. cbn. repeat split; try discriminate.
    destruct (LabeledSet.training_or_inference_completed ts); discriminate.
  - eexists. split; [reflexivity|]. cbn. repeat split; reflexivity.
Qed.

Lemma statuses_ok (cs : list (Z * Classifier.t)) (w : World) :
  (∀ clsf t, In clsf cs → Classifier.train_set clsf.2 = Some t →
             is_Some (LabeledSet_table w !! t)) →
  ∃ sts, statuses cs w = (Ok sts, w) ∧
         Forall2 (fun clsf st =>
                    st_classifier_id st = clsf.1 ∧
                    st_name st = Classifier.name clsf.2 ∧
                    st_category_names st = Classifier.category_names clsf.2 ∧
                    (st_training_status st = "not_begun"
                     ↔ Classifier.train_set clsf.2 = None)) cs sts.
Proof.
  induction cs as [|clsf cs IH]; intros Hfk.
  - exists []. split; [reflexivity|constructor].
  - destruct (_classifier_status_ok clsf w) as (st & Hst & Hfields).
    { intros t. apply Hfk. left. reflexivity. }
    destruct IH as (sts & Hsts & Hall).
    { intros c' t Hin. apply Hfk. right. exact Hin. }
    exists (st :: sts). cbn [statuses]. unfold mbind, Py_bind, bind.
    rewrite Hst, Hsts. split; [reflexivity|]. constructor; assumption.
Qed.

(** X11.  When every train set that a classifier refers to exists, the
    listing answers with exactly one status per classifier, carrying the
    key, name and category names of its row and reading "not_begun" exactly
    for the classifiers without a train set; it changes nothing. *)
Theorem classifiers_listed (w : World) :
  (∀ k c t, Classifier_table w !! k = Some c → Classifier.train_set c = Some t →
            is_Some (LabeledSet_table w !! t)) →
  ∃ sts,
    Classifiers_get w = (Ok sts, w) ∧
    length sts = size (Classifier_table w) ∧
    (∀ st, In st sts →
       ∃ c, Classifier_table w !! st_classifier_id st = Some c ∧
            st_name st = Classifier.name c ∧
            st_category_names st = Classifier.category_names c ∧
            (st_training_status st = "not_begun" ↔ Classifier.train_set c = None)) ∧
    (∀ k c, Classifier_table w !! k = Some c →
            ∃ st, In st sts ∧ st_classifier_id st = k).
Proof.
  intros Hfk. unfold Classifiers_get, mbind, Py_bind, bind, get.
  destruct (statuses_ok (map_to_list (Classifier_table w)) w)
    as (sts & Hsts & Hall).
  { intros [k c] t Hin. apply list_elem_of_In, elem_of_map_to_list in Hin.
    apply (Hfk k c t Hin). }
  exists sts. split; [exact Hsts|].
  split; [rewrite <- (Forall2_length _ _ _ Hall); apply length_map_to_list|].
  split.
  - intros st Hin. apply list_elem_of_In, list_elem_of_lookup in Hin as [i Hi].
    destruct (Forall2_lookup_r _ _ _ _ _ Hall Hi)
      as ([k c] & Hkc & Hid & Hn & Hcat & Hst).
    apply list_elem_of_lookup_2, elem_of_map_to_list in Hkc. cbn in *.
    exists c. rewrite Hid. repeat split; try assumption; apply Hst.
  - intros k c Hkc. apply elem_of_map_to_list, list_elem_of_lookup in Hkc as [i Hi].
    destruct (Forall2_lookup_l _ _ _ _ _ Hall Hi) as (st & Hin & Hid & _).
    exists st. split; [eapply list_elem_of_In, list_elem_of_lookup_2, Hin|exact Hid].
Qed.

(** X12.  An upload without a file fails with [BadRequest], one for an
    unknown classifier with [NotFound], and one for a classifier that refers
    to a missing train set with [DoesNotExist]; each before the file is read,
    leaving the world as it was. *)
Theorem upload_early_failures (req : Request) (classifier_id : Z) (w : World) :
  let run := ClassifiersTrainingFile_post env req classifier_id w in
  (uploaded_file req = None → ∃ d, run = (Raise (BadRequest d), w)) ∧
  (is_Some (uploaded_file req) →
   (Classifier_table w !! classifier_id = None →
    run = (Raise (NotFound "classifier not found."), w)) ∧
   (∀ c t, Classifier_table w !! classifier_id = Some c →
           Classifier.train_set c = Some t → LabeledSet_table w !! t = None →
           run = (Raise DoesNotExist, w))).
Proof.
  intros run. subst run.
  unfold ClassifiersTrainingFile_post, mbind, Py_bind, bind, get, parse_file.
  split.
  - intros ->. eexists. reflexivity.
  - intros [file_ ->]. cbn [ret]. split.
    + intros ->. reflexivity.
    + intros c t -> Hts Ht. cbn [ret]. rewrite Hts.
      unfold fk_get, table_get, mbind, Py_bind, bind. rewrite Ht. reflexivity.
Qed.

End CreationAndListing.

(** Creating a third classifier beside the classifiers 7 and 8. *)
Lemma classifier_created_witness :
  let env := example_env [] draw_16_4 in
  Classifier_table untrained_world !! 9 = None ∧
  Classifiers_post env (creation_request [JStr "pos"; JStr "neg"]) untrained_world
  = (Ok (mkStatus 9 "sentiment" false ["pos"; "neg"] "not_begun"),
     with_directories (fun ds => {["/data/9"]} ∪ ds)
       (with_Classifier_table
          (fun tbl => <[9 := Classifier.mk "sentiment" false ["pos"; "neg"]
                               "WILL_BE_REPLACED" "" None None]> tbl)
          untrained_world)).
Proof.
  intros env.
  apply (classifier_created env (creation_request [JStr "pos"; JStr "neg"])
           untrained_world "sentiment" [] "pos" "neg" []).
  - reflexivity.
  - reflexivity.
  - repeat constructor.
Defined.

(** The listing of a world with one classifier in training. *)
Lemma classifiers_listed_witness :
  ∃ sts, Classifiers_get trained_world = (Ok sts, trained_world) ∧
         length sts = 1%nat.
Proof.
  destruct (classifiers_listed trained_world) as (sts & Hget & Hlen & _).
  - intros k c t Hk Ht.
    change (<[7 := trained]> (∅ : gmap Z Classifier.t) !! k = Some c) in Hk.
    apply lookup_insert_Some in Hk as [[<- <-]|[_ Hk]];
      [|rewrite lookup_empty in Hk; discriminate Hk].
    injection Ht as <-. exists (LabeledSet.mk false false None). reflexivity.
  - exists sts. split; [exact Hget|]. rewrite Hlen. reflexivity.
Defined.

(** A request without a file, and an upload to a classifier that does not
    exist. *)
Lemma upload_early_failures_witness :
  let env := example_env (header :: pos_neg_20) draw_16_4 in
  (∃ d, ClassifiersTrainingFile_post env (mkRequest (fun _ => []) None) 7
          untrained_world
        = (Raise (BadRequest d), untrained_world)) ∧
  ClassifiersTrainingFile_post env upload 99 untrained_world
  = (Raise (NotFound "classifier not found."), untrained_world).
Proof.
  intros env. split.
  - apply (proj1 (upload_early_failures env (mkRequest (fun _ => []) None) 7
                    untrained_world)).
    reflexivity.
  - apply (proj1 (proj2 (upload_early_failures env upload 99 untrained_world)
                    ltac:(eexists; reflexivity))).
    reflexivity.
Defined.

Section Uploads.
Context (env : AppEnv).

(** The validator, the unpacking of the rows, the splitter and the
    selection of rows read the state and do not change it. *)
Lemma categories_of_state {S} (data : Table) (s : S) :
  (categories_of data s).2 = s.
Proof.
  induction data as [|row data IH]; [reflexivity|].
  cbn [categories_of]. unfold mbind, Py_bind, bind, call.
  destruct (unpack_category row); [|reflexivity].
  destruct (categories_of data s) as [[cs|e] s']; cbn in *; exact IH.
Qed.

Lemma validate_state {S} category_names file_ (s : S) :
  (_validate_training_file_and_get_data env category_names file_ s).2 = s.
Proof.
  unfold _validate_training_file_and_get_data, mbind, Py_bind, bind, call.
  destruct (csv_and_get_table env file_) as [table|e]; [|reflexivity].
  unfold table_has_num_columns.
  destruct (forallb _ table); [|reflexivity]. cbn [ret].
  unfold table_has_headers.
  destruct table as [|row rest]; [reflexivity|].
  destruct (bool_decide _); [|reflexivity]. cbn [ret head_and_tail].
  destruct (Z.ltb _ _); [reflexivity|].
  pose proof (categories_of_state rest s) as Hc.
  destruct (categories_of rest s) as [[cs|e] s']; cbn in Hc; subst s';
    [|reflexivity].
  destruct (negb _); [reflexivity|].
  destruct (map fst _); reflexivity.
Qed.

Lemma split_state {S} rng (y : list string) (s : S) :
  (StratifiedShuffleSplit_split rng y s).2 = s.
Proof.
  unfold StratifiedShuffleSplit_split.
  destruct (Nat.eqb _ 0); [reflexivity|].
  destruct (existsb _ _); [reflexivity|].
  destruct (Nat.ltb _ _); [reflexivity|].
  destruct (Nat.ltb _ _); reflexivity.
Qed.

Lemma take_rows_state {S} (data : Table) (indices : list nat) (s : S) :
  (take_rows data indices s).2 = s.
Proof.
  induction indices as [|i rest IH]; [reflexivity|].
  cbn [take_rows]. destruct (data !! i); [|reflexivity].
  unfold mbind, Py_bind, bind.
  destruct (take_rows data rest s) as [[rows|e] s']; cbn in *; exact IH.
Qed.

(** The part of an upload that follows the selection of the rows: it
    cannot fail. *)
Lemma post_after_split classifier_id (w : World) c table_headers
    (train_data dev_data : Table) :
  let tk := fresh_id (LabeledSet_table w) in
  let dk := fresh_id (<[tk := new_labeled_set]> (LabeledSet_table w)) in
  let c' := Classifier.set_sets (Some tk) (Some dk) c in
  (_write_headers_and_data_to_csv table_headers train_data
     (classifier_train_set_file env classifier_id);;
   _write_headers_and_data_to_csv table_headers dev_data
     (classifier_dev_set_file env classifier_id);;
   train_key ← LabeledSet_create;
   dev_key ← LabeledSet_create;
   let classifier := Classifier.set_sets (Some train_key) (Some dev_key) c in
   modify (with_Classifier_table (fun tbl => <[classifier_id := classifier]> tbl));;
   w ← get;
   classifier ← table_get (Classifier_table w) classifier_id;
   output_dir ← ensure_exists (classifier_output_dir env classifier_id);
   modify (with_scheduled (fun q =>
     (q ++ [mkTrainingProcess (Classifier.category_names classifier)
              (TRANSFORMERS_MODEL env) (classifier_dir env classifier_id)
              (TRANSFORMERS_CACHE_DIR env) output_dir])%list));;
   _classifier_status (classifier_id, classifier)) w
  = (Ok (mkStatus classifier_id (Classifier.name c)
           (Classifier.trained_by_openFraming c) (Classifier.category_names c)
           "training"),
     with_scheduled (fun q => (q ++ [scheduled_process env classifier_id c])%list)
       (with_directories (fun ds => {[classifier_output_dir env classifier_id]} ∪ ds)
          (with_Classifier_table (fun tbl => <[classifier_id := c']> tbl)
             (with_LabeledSet_table
                (fun tbl => <[dk := new_labeled_set]> (<[tk := new_labeled_set]> tbl))
                (with_files
                   (fun fs => <[classifier_dev_set_file env classifier_id :=
                                  table_headers :: dev_data]>
                                (<[classifier_train_set_file env classifier_id :=
                                     table_headers :: train_data]> fs))
                   w))))).
Proof.
  intros tk dk c'.
  cbv [_write_headers_and_data_to_csv modify LabeledSet_create mbind Py_bind
       bind get ret ensure_exists table_get _classifier_status fk_get].
  destruct w as [ct lt mt tt_ tmt ldt fs ds sch se cl].
  cbn -[fresh_id]. rewrite lookup_insert_eq. cbn -[fresh_id].
  cbn -[fresh_id] in tk, dk. fold new_labeled_set. fold tk. fold dk.
  assert (<[dk := new_labeled_set]> (<[tk := new_labeled_set]> lt) !! tk
          = Some new_labeled_set) as ->.
  { destruct (decide (dk = tk)) as [->|Hk].
    - apply lookup_insert_eq.
    - rewrite lookup_insert_ne by assumption. apply lookup_insert_eq. }
  reflexivity.
Qed.

(** An upload whose validation, unpacking, split and row selection have
    these results. *)
Lemma post_steps req classifier_id (w : World) c file_ hdr data y train dev
    train_data dev_data :
  uploaded_file req = Some file_ →
  Classifier_table w !! classifier_id = Some c →
  Classifier.train_set c = None →
  _validate_training_file_and_get_data env (Classifier.category_names c) file_ w
    = (Ok (hdr, data), w) →
  unzip_rows data w = (Ok y, w) →
  StratifiedShuffleSplit_split (rng_split env) y w = (Ok (train, dev), w) →
  take_rows data train w = (Ok train_data, w) →
  take_rows data dev w = (Ok dev_data, w) →
  let tk := fresh_id (LabeledSet_table w) in
  let dk := fresh_id (<[tk := new_labeled_set]> (LabeledSet_table w)) in
  ClassifiersTrainingFile_post env req classifier_id w
  = (Ok (mkStatus classifier_id (Classifier.name c)
           (Classifier.trained_by_openFraming c) (Classifier.category_names c)
           "training"),
     with_scheduled (fun q => (q ++ [scheduled_process env classifier_id c])%list)
       (with_directories (fun ds => {[classifier_output_dir env classifier_id]} ∪ ds)
          (with_Classifier_table
             (fun tbl => <[classifier_id :=
                             Classifier.set_sets (Some tk) (Some dk) c]> tbl)
             (with_LabeledSet_table
                (fun tbl => <[dk := new_labeled_set]> (<[tk := new_labeled_set]> tbl))
                (with_files
                   (fun fs => <[classifier_dev_set_file env classifier_id :=
                                  hdr :: dev_data]>
                                (<[classifier_train_set_file env classifier_id :=
                                     hdr :: train_data]> fs))
                   w))))).
Proof.
  intros Hfile Hc Hts Hval Hy Hsplit Htrain Hdev tk dk. subst tk dk.
  etransitivity;
    [|exact (post_after_split classifier_id w c hdr train_data dev_data)].
  unfold ClassifiersTrainingFile_post.
  unfold mbind at 1, Py_bind at 1, bind at 1, parse_file. rewrite Hfile. cbn [ret].
  unfold mbind at 1, Py_bind at 1, bind at 1, get.
  unfold mbind at 1, Py_bind at 1, bind at 1. rewrite Hc. cbn [ret].
  unfold mbind at 1, Py_bind at 1, bind at 1. rewrite Hts. cbn [fk_get ret].
  unfold mbind at 1, Py_bind at 1, bind at 1. rewrite Hval.
  unfold mbind at 1, Py_bind at 1, bind at 1. rewrite Hy.
  unfold mbind at 1, Py_bind at 1, bind at 1. rewrite Hsplit.
  unfold mbind at 1, Py_bind at 1, bind at 1. rewrite Htrain.
  unfold mbind at 1, Py_bind at 1, bind at 1. rewrite Hdev.
  reflexivity.
Qed.

End Uploads.

Section UploadProperties.
Context (env : AppEnv).

Lemma unzip_rows_state {S} (data : Table) (s : S) : (unzip_rows data s).2 = s.
Proof. destruct data; [reflexivity|apply categories_of_state]. Qed.

(** X13.  An upload reads before it writes.  Its statements up to the
    selection of the rows of the two sides (parsing, finding the
    classifier, refusing a second training set, validating, splitting)
    change nothing, whether they return or raise; when one of them raises,
    that exception is the outcome of the upload and the world is as it was;
    when they return, the upload goes on with its first write. *)
Theorem upload_preparation_reads_only req classifier_id (w : World) :
  (upload_preparation env req classifier_id w).2 = w ∧
  (∀ e, (upload_preparation env req classifier_id w).1 = Raise e →
        ClassifiersTrainingFile_post env req classifier_id w = (Raise e, w)) ∧
  (∀ prepared,
     (upload_preparation env req classifier_id w).1 = Ok prepared →
     ClassifiersTrainingFile_post env req classifier_id w
     = upload_completion env classifier_id prepared w).
Proof.
  unfold upload_preparation, ClassifiersTrainingFile_post, upload_completion,
    mbind, Py_bind, bind, get, parse_file.
  destruct (uploaded_file req) as [file_|].
  2:{ split; [reflexivity|]. split; [intros e [= <-]; reflexivity|discriminate]. }
  cbn [ret].
  destruct (Classifier_table w !! classifier_id) as [c|].
  2:{ split; [reflexivity|]. split; [intros e [= <-]; reflexivity|discriminate]. }
  cbn [ret].
  destruct (Classifier.train_set c) as [t|].
  { unfold fk_get, table_get, mbind, Py_bind, bind.
    destruct (LabeledSet_table w !! t);
      (split; [reflexivity|]; split; [intros e [= <-]; reflexivity|discriminate]). }
  cbn [fk_get ret].
  pose proof (validate_state env (Classifier.category_names c) file_ w) as Hs.
  destruct (_validate_training_file_and_get_data env _ file_ w)
    as [[[hdr data]|e0] s]; cbn in Hs; subst s.
  2:{ split; [reflexivity|]. split; [intros e [= <-]; reflexivity|discriminate]. }
  pose proof (unzip_rows_state data w) as Hs.
  destruct (unzip_rows data w) as [[y|e0] s]; cbn in Hs; subst s.
  2:{ split; [reflexivity|]. split; [intros e [= <-]; reflexivity|discriminate]. }
  pose proof (split_state (rng_split env) y w) as Hs.
  destruct (StratifiedShuffleSplit_split (rng_split env) y w)
    as [[[train dev]|e0] s]; cbn in Hs; subst s.
  2:{ split; [reflexivity|]. split; [intros e [= <-]; reflexivity|discriminate]. }
  pose proof (take_rows_state data train w) as Hs.
  destruct (take_rows data train w) as [[train_data|e0] s]; cbn in Hs; subst s.
  2:{ split; [reflexivity|]. split; [intros e [= <-]; reflexivity|discriminate]. }
  pose proof (take_rows_state data dev w) as Hs.
  destruct (take_rows data dev w) as [[dev_data|e0] s]; cbn in Hs; subst s.
  2:{ split; [reflexivity|]. split; [intros e [= <-]; reflexivity|discriminate]. }
  split; [reflexivity|]. split; [discriminate|].
  intros prepared [= <-]. reflexivity.
Qed.

(** The first steps of an upload of a valid table. *)
Lemma valid_upload_steps category_names file_ data (w : World) :
  is_fraction (TEST_SET_SPLIT env) →
  parsed_as env file_ data →
  (∀ x, In x category_names ↔ In x (category_column data)) →
  (∀ x, In x (category_column data) →
        (2 <= count_occ string_dec (category_column data) x)%nat) →
  data ≠ [] →
  _validate_training_file_and_get_data env category_names file_ w
    = (Ok (["example"; "category"], data), w) ∧
  unzip_rows data w = (Ok (category_column data), w) ∧
  (2 <= length (category_column data))%nat.
Proof.
  intros Hf Hparsed Hset Hcount Hne. split; [|split].
  - rewrite (validate_parsed env _ _ _ _ Hf Hparsed).
    replace (set_eqb _ _) with true.
    2:{ symmetry. apply set_eqb_spec. intros x. rewrite Hset.
        symmetry. apply Counter_keys_In. }
    replace (categories_with_less_than_two (category_column data)) with (@nil string);
      [reflexivity|].
    destruct (categories_with_less_than_two _) as [|x l] eqn:E; [reflexivity|].
    assert (In x (categories_with_less_than_two (category_column data))) as Hx
      by (rewrite E; left; reflexivity).
    apply categories_with_less_than_two_In in Hx as [Hx Hx'].
    specialize (Hcount _ Hx). lia.
  - destruct Hparsed as [_ Hrows].
    unfold unzip_rows. destruct data as [|row rest]; [congruence|].
    apply (categories_of_two_columns (row :: rest) w Hrows).
  - destruct data as [|row rest]; [congruence|].
    specialize (Hcount (nth 1 row "") ltac:(left; reflexivity)).
    pose proof (count_occ_bound string_dec (nth 1 row "")
                  (category_column (row :: rest))) as Hb.
    lia.
Qed.

(** X14.  What a successful upload does besides writing the two files: it
    creates the train and the dev record under two different keys that were
    not in use, both not completed and without error or metrics; it makes
    the classifier refer to them and changes no other classifier or record;
    it appends exactly one training process for the classifier to the
    scheduler's queue; it touches no file but the train and the dev file;
    and it answers with the status "training". *)
Theorem upload_effects req classifier_id (w : World) c file_ data train dev :
  is_fraction (TEST_SET_SPLIT env) →
  uploaded_file req = Some file_ →
  Classifier_table w !! classifier_id = Some c →
  Classifier.train_set c = None →
  parsed_as env file_ data →
  (∀ x, In x (Classifier.category_names c) ↔ In x (category_column data)) →
  (∀ x, In x (category_column data) →
        (2 <= count_occ string_dec (category_column data) x)%nat) →
  data ≠ [] →
  (length (Classifier.category_names c) <= n_test_of (length data))%nat →
  rng_split env (category_column data)
    (n_train_of (length data)) (n_test_of (length data)) = (train, dev) →
  (∀ i, In i (train ++ dev) → (i < length data)%nat) →
  ∃ tk dk w',
    ClassifiersTrainingFile_post env req classifier_id w
    = (Ok (mkStatus classifier_id (Classifier.name c)
             (Classifier.trained_by_openFraming c) (Classifier.category_names c)
             "training"), w') ∧
    tk ≠ dk ∧
    LabeledSet_table w !! tk = None ∧ LabeledSet_table w !! dk = None ∧
    LabeledSet_table w' !! tk = Some new_labeled_set ∧
    LabeledSet_table w' !! dk = Some new_labeled_set ∧
    (∀ k, k ≠ tk → k ≠ dk → LabeledSet_table w' !! k = LabeledSet_table w !! k) ∧
    Classifier_table w' !! classifier_id
      = Some (Classifier.set_sets (Some tk) (Some dk) c) ∧
    (∀ k, k ≠ classifier_id → Classifier_table w' !! k = Classifier_table w !! k) ∧
    scheduled w' = (scheduled w ++ [scheduled_process env classifier_id c])%list ∧
    (∀ p, p ≠ classifier_train_set_file env classifier_id →
          p ≠ classifier_dev_set_file env classifier_id →
          files w' !! p = files w !! p) ∧
    sent_emails w' = sent_emails w.
Proof.
  intros Hf Hfile Hc Hts Hparsed Hset Hcount Hne Hclasses Hdraw Hlt.
  destruct (valid_upload_steps _ _ _ w Hf Hparsed Hset Hcount Hne)
    as (Hval & Hy & Hn).
  assert (length (category_column data) = length data) as Hlen
    by apply length_map.
  set (tk := fresh_id (LabeledSet_table w)).
  set (dk := fresh_id (<[tk := new_labeled_set]> (LabeledSet_table w))).
  assert (LabeledSet_table w !! tk = None) as Htk by apply fresh_id_fresh.
  assert (<[tk := new_labeled_set]> (LabeledSet_table w) !! dk = None) as Hdk
    by apply fresh_id_fresh.
  assert (tk ≠ dk) as Hne_keys.
  { intros E. rewrite <- E, lookup_insert_eq in Hdk. discriminate. }
  rewrite lookup_insert_ne in Hdk by assumption.
  exists tk, dk. eexists. split.
  { apply (post_steps env req classifier_id w c file_ ["example"; "category"]
             data (category_column data) train dev
             (rows_at data train) (rows_at data dev)); try assumption.
    - rewrite split_accepts.
      + rewrite Hlen, Hdraw. reflexivity.
      + exact Hn.
      + exact Hcount.
      + rewrite Hlen. etransitivity; [|exact Hclasses].
        apply Counter_length_le. intros x. apply Hset.
    - apply take_rows_ok. intros i Hi. apply Hlt, in_or_app. left. exact Hi.
    - apply take_rows_ok. intros i Hi. apply Hlt, in_or_app. right. exact Hi. }
  fold tk. fold dk. destruct w as [ct lt mt tt_ tmt ldt fs ds sch se cl].
  cbn in Htk, Hdk, Hc |- *.
  split; [assumption|]. split; [assumption|]. split; [assumption|].
  split; [rewrite lookup_insert_ne by congruence; apply lookup_insert_eq|].
  split; [apply lookup_insert_eq|].
  split; [intros k H1 H2; rewrite !lookup_insert_ne by congruence; reflexivity|].
  split; [apply lookup_insert_eq|].
  split; [intros k H1; rewrite lookup_insert_ne by congruence; reflexivity|].
  split; [reflexivity|].
  split; [intros p H1 H2; rewrite !lookup_insert_ne by congruence; reflexivity|].
  reflexivity.
Qed.

(** An upload to a classifier whose train set exists. *)
Lemma post_already_exists req classifier_id (w : World) c file_ tk tr :
  uploaded_file req = Some file_ →
  Classifier_table w !! classifier_id = Some c →
  Classifier.train_set c = Some tk →
  LabeledSet_table w !! tk = Some tr →
  ClassifiersTrainingFile_post env req classifier_id w
  = (Raise (AlreadyExists "This classifier already has a training set."), w).
Proof.
  intros Hfile Hc Hts Htr.
  unfold ClassifiersTrainingFile_post, mbind, Py_bind, bind, get, parse_file.
  rewrite Hfile. cbn [ret]. rewrite Hc. cbn [ret]. rewrite Hts.
  unfold fk_get, table_get, mbind, Py_bind, bind. rewrite Htr. reflexivity.
Qed.

(** What a successful upload must have found and done. *)
Lemma post_ok_inv req classifier_id (w w' : World) st :
  ClassifiersTrainingFile_post env req classifier_id w = (Ok st, w') →
  ∃ c hdr train_data dev_data,
    Classifier_table w !! classifier_id = Some c ∧
    Classifier.train_set c = None ∧
    st = mkStatus classifier_id (Classifier.name c)
           (Classifier.trained_by_openFraming c) (Classifier.category_names c)
           "training" ∧
    let tk := fresh_id (LabeledSet_table w) in
    let dk := fresh_id (<[tk := new_labeled_set]> (LabeledSet_table w)) in
    w' = with_scheduled (fun q => (q ++ [scheduled_process env classifier_id c])%list)
       (with_directories (fun ds => {[classifier_output_dir env classifier_id]} ∪ ds)
          (with_Classifier_table
             (fun tbl => <[classifier_id :=
                             Classifier.set_sets (Some tk) (Some dk) c]> tbl)
             (with_LabeledSet_table
                (fun tbl => <[dk := new_labeled_set]> (<[tk := new_labeled_set]> tbl))
                (with_files
                   (fun fs => <[classifier_dev_set_file env classifier_id :=
                                  hdr :: dev_data]>
                                (<[classifier_train_set_file env classifier_id :=
                                     hdr :: train_data]> fs))
                   w)))).
Proof.
  unfold ClassifiersTrainingFile_post at 1.
  unfold mbind at 1, Py_bind at 1, bind at 1, parse_file.
  destruct (uploaded_file req) as [f|]; [|discriminate].
  cbn [ret]. unfold mbind at 1, Py_bind at 1, bind at 1, get.
  unfold mbind at 1, Py_bind at 1, bind at 1.
  destruct (Classifier_table w !! classifier_id) as [c|] eqn:Hc; [|discriminate].
  cbn [ret]. unfold mbind at 1, Py_bind at 1, bind at 1.
  destruct (Classifier.train_set c) as [t|] eqn:Hts.
  { unfold fk_get, table_get, mbind, Py_bind, bind.
    destruct (LabeledSet_table w !! t); discriminate. }
  cbn [fk_get ret]. unfold mbind at 1, Py_bind at 1, bind at 1.
  pose proof (validate_state env (Classifier.category_names c) f w) as Hs.
  destruct (_validate_training_file_and_get_data env _ f w)
    as [[[hdr data]|e0] s]; cbn in Hs; subst s; [|discriminate].
  unfold mbind at 1, Py_bind at 1, bind at 1.
  pose proof (unzip_rows_state data w) as Hs.
  destruct (unzip_rows data w) as [[y|e0] s]; cbn in Hs; subst s; [|discriminate].
  unfold mbind at 1, Py_bind at 1, bind at 1.
  pose proof (split_state (rng_split env) y w) as Hs.
  destruct (StratifiedShuffleSplit_split (rng_split env) y w)
    as [[[train dev]|e0] s]; cbn in Hs; subst s; [|discriminate].
  unfold mbind at 1, Py_bind at 1, bind at 1.
  pose proof (take_rows_state data train w) as Hs.
  destruct (take_rows data train w) as [[train_data|e0] s]; cbn in Hs; subst s;
    [|discriminate].
  unfold mbind at 1, Py_bind at 1, bind at 1.
  pose proof (take_rows_state data dev w) as Hs.
  destruct (take_rows data dev w) as [[dev_data|e0] s]; cbn in Hs; subst s;
    [|discriminate].
  intros H.
  pose proof (eq_trans
    (eq_sym (post_after_split env classifier_id w c hdr train_data dev_data)) H)
    as E.
  cbv zeta in E. injection E as Hst Hw.
  exists c, hdr, train_data, dev_data.
  split; [reflexivity|]. split; [exact Hts|]. split; [symmetry; exact Hst|].
  symmetry. exact Hw.
Qed.

(** The two records of a world in which an upload has succeeded. *)
Lemma uploaded_records (w : World) classifier_id c' (fs : gmap string Table → gmap string Table)
    (dsf : gset string → gset string) (qf : list TrainingProcess → list TrainingProcess) :
  let tk := fresh_id (LabeledSet_table w) in
  let dk := fresh_id (<[tk := new_labeled_set]> (LabeledSet_table w)) in
  let w' := with_scheduled qf
       (with_directories dsf
          (with_Classifier_table (fun tbl => <[classifier_id := c']> tbl)
             (with_LabeledSet_table
                (fun tbl => <[dk := new_labeled_set]> (<[tk := new_labeled_set]> tbl))
                (with_files fs w)))) in
  tk ≠ dk ∧
  Classifier_table w' !! classifier_id = Some c' ∧
  LabeledSet_table w' !! tk = Some new_labeled_set ∧
  LabeledSet_table w' !! dk = Some new_labeled_set.
Proof.
  intros tk dk w'. subst w'.
  assert (<[tk := new_labeled_set]> (LabeledSet_table w) !! dk = None) as Hdk
    by apply fresh_id_fresh.
  assert (tk ≠ dk) as Hne.
  { intros E. rewrite <- E, lookup_insert_eq in Hdk. discriminate. }
  split; [exact Hne|]. destruct w as [ct lt mt tt_ tmt ldt fs0 ds sch se cl].
  cbn in tk, dk |- *. fold tk. fold dk.
  split; [apply lookup_insert_eq|].
  split; [rewrite lookup_insert_ne by congruence|]; apply lookup_insert_eq.
Qed.

(** X15.  Uploads do not repeat: whenever an upload has succeeded, every
    further upload of a file to the same classifier is rejected with
    [AlreadyExists] and changes nothing. *)
Theorem upload_succeeds_once req req' classifier_id (w w' : World) st file_ :
  ClassifiersTrainingFile_post env req classifier_id w = (Ok st, w') →
  uploaded_file req' = Some file_ →
  ClassifiersTrainingFile_post env req' classifier_id w'
  = (Raise (AlreadyExists "This classifier already has a training set."), w').
Proof.
  intros H Hfile.
  apply post_ok_inv in H as (c & hdr & train_data & dev_data & _ & _ & _ & Hw).
  cbv zeta in Hw. subst w'.
  edestruct (uploaded_records w classifier_id) as (_ & Hc & Htk & _).
  eapply post_already_exists; [exact Hfile|exact Hc|reflexivity|exact Htk].
Qed.

(** X16.  A valid upload that the splitter refuses: when the classifier's
    category names are pairwise different and there are more of them than
    the dev share [ceil(n / 5)] of the [n] uploaded rows has places, the
    upload of a table that passes every check of the validator fails with
    the splitter's [ValueError], which is none of the request-time errors,
    and changes nothing. *)
Theorem crowded_upload_not_split req classifier_id (w : World) c file_ data :
  is_fraction (TEST_SET_SPLIT env) →
  uploaded_file req = Some file_ →
  Classifier_table w !! classifier_id = Some c →
  Classifier.train_set c = None →
  parsed_as env file_ data →
  (∀ x, In x (Classifier.category_names c) ↔ In x (category_column data)) →
  (∀ x, In x (category_column data) →
        (2 <= count_occ string_dec (category_column data) x)%nat) →
  data ≠ [] →
  List.NoDup (Classifier.category_names c) →
  (n_test_of (length data) < length (Classifier.category_names c))%nat →
  ∃ msg, ClassifiersTrainingFile_post env req classifier_id w
         = (Raise (ValueError msg), w).
Proof.
  intros Hf Hfile Hc Hts Hparsed Hset Hcount Hne Hnodup Hcrowded.
  destruct (valid_upload_steps _ _ _ w Hf Hparsed Hset Hcount Hne)
    as (Hval & Hy & Hn).
  assert (length (category_column data) = length data) as Hlen
    by apply length_map.
  assert (length (Classifier.category_names c)
          <= length (Counter (category_column data)))%nat as Hclasses.
  { rewrite <- (length_map fst (Counter (category_column data))).
    apply NoDup_incl_length; [exact Hnodup|].
    intros x Hx. apply Counter_keys_In, Hset, Hx. }
  assert (∃ msg, StratifiedShuffleSplit_split (rng_split env)
                   (category_column data) w = (Raise (ValueError msg), w))
    as [msg Hsplit].
  { unfold StratifiedShuffleSplit_split. rewrite Hlen.
    destruct (Nat.eqb (n_train_of (length data)) 0); [eexists; reflexivity|].
    destruct (existsb _ _); [eexists; reflexivity|].
    destruct (Nat.ltb (n_train_of (length data)) _); [eexists; reflexivity|].
    destruct (Nat.ltb_spec (n_test_of (length data))
                (length (Counter (category_column data)))) as [_|Hge];
      [eexists; reflexivity|lia]. }
  exists msg.
  unfold ClassifiersTrainingFile_post.
  unfold mbind at 1, Py_bind at 1, bind at 1, parse_file. rewrite Hfile. cbn [ret].
  unfold mbind at 1, Py_bind at 1, bind at 1, get.
  unfold mbind at 1, Py_bind at 1, bind at 1. rewrite Hc. cbn [ret].
  unfold mbind at 1, Py_bind at 1, bind at 1. rewrite Hts. cbn [fk_get ret].
  unfold mbind at 1, Py_bind at 1, bind at 1. rewrite Hval.
  unfold mbind at 1, Py_bind at 1, bind at 1. rewrite Hy.
  unfold mbind at 1, Py_bind at 1, bind at 1. rewrite Hsplit.
  reflexivity.
Qed.

(** X17.  The validator accepts an upload that passes the schema checks
    exactly when the categories of its rows are, as a set, the classifier's
    category names and every one of them labels at least two rows; and what
    it returns then is the header pair and the rows as they were read, in
    their order. *)
Theorem validator_accepts_iff {S} category_names file_ data (s : S) :
  is_fraction (TEST_SET_SPLIT env) →
  parsed_as env file_ data →
  ((∃ r, _validate_training_file_and_get_data env category_names file_ s
         = (Ok r, s)) ↔
   (∀ x, In x category_names ↔ In x (category_column data)) ∧
   (∀ x, In x (category_column data) →
         (2 <= count_occ string_dec (category_column data) x)%nat)) ∧
  (∀ r s', _validate_training_file_and_get_data env category_names file_ s
           = (Ok r, s') →
           r = (["example"; "category"], data) ∧ s' = s).
Proof.
  intros Hf Hparsed. rewrite (validate_parsed env _ _ _ _ Hf Hparsed).
  destruct (set_eqb category_names (keys (Counter (category_column data))))
    eqn:Hsets; cbn [negb].
  - pose proof (proj1 (set_eqb_spec _ _) Hsets) as Hsame. clear Hsets.
    rename Hsame into Hsets.
    destruct (categories_with_less_than_two (category_column data))
      as [|x l] eqn:Hfew.
    + split; [|intros r s' [= <- <-]; split; reflexivity].
      split; [intros _|intros _; eexists; reflexivity].
      split.
      * intros x. rewrite Hsets. apply Counter_keys_In.
      * intros x Hx.
        destruct (le_lt_dec 2 (count_occ string_dec (category_column data) x))
          as [Hle|Hlt]; [exact Hle|].
        assert (In x (categories_with_less_than_two (category_column data))) as Hin
          by (apply categories_with_less_than_two_In; split; assumption).
        rewrite Hfew in Hin. destruct Hin.
    + split; [|intros r s'; discriminate].
      split; [intros [r Hr]; discriminate|].
      intros [_ Hcount].
      assert (In x (categories_with_less_than_two (category_column data))) as Hin
        by (rewrite Hfew; left; reflexivity).
      apply categories_with_less_than_two_In in Hin as [Hin Hlt].
      specialize (Hcount _ Hin). lia.
  - split; [|intros r s'; discriminate].
    split; [intros [r Hr]; discriminate|].
    intros [Hset _]. apply not_true_iff_false in Hsets. destruct Hsets.
    apply set_eqb_spec. intros x. rewrite Hset. symmetry. apply Counter_keys_In.
Qed.

End UploadProperties.

Section Lifecycle.
Context (env : AppEnv) (workers : Collaborators).

(** X18.  From upload to the end of training.  After a successful upload,
    the training job of the classifier finds the two records that the
    upload created.  When its trainer returns metrics, both records end up
    completed and without error, the metrics are on the dev record only, and
    the classifier's status reads "completed"; when its trainer raises, both
    records end up with [error_encountered] set and not completed, and the
    status still reads "training". *)
Theorem upload_then_training_job req classifier_id task_args (w w1 : World) st :
  ClassifiersTrainingFile_post env req classifier_id w = (Ok st, w1) →
  ClassifierTrainingTaskArgs.classifier_id task_args = classifier_id →
  let w2 := (do_classifier_related_task workers (training task_args) w1).2 in
  ∃ c1 tk dk,
    Classifier_table w2 !! classifier_id = Some c1 ∧
    Classifier.train_set c1 = Some tk ∧ Classifier.dev_set c1 = Some dk ∧
    match trainer_result workers task_args with
    | Ok metrics =>
        LabeledSet_table w2 !! tk = Some (LabeledSet.mk true false None) ∧
        LabeledSet_table w2 !! dk = Some (LabeledSet.mk true false (Some metrics)) ∧
        (_classifier_status (classifier_id, c1) w2).1
        = Ok (mkStatus classifier_id (st_name st) (st_trained_by_openFraming st)
                (st_category_names st) "completed")
    | Raise _ =>
        LabeledSet_table w2 !! tk = Some (LabeledSet.mk false true None) ∧
        LabeledSet_table w2 !! dk = Some (LabeledSet.mk false true None) ∧
        (_classifier_status (classifier_id, c1) w2).1 = Ok st
    end.
Proof.
  intros H Hid w2. subst w2.
  apply post_ok_inv in H as (c & hdr & train_data & dev_data & _ & _ & -> & Hw).
  cbv zeta in Hw.
  edestruct (uploaded_records w classifier_id) as (Hne & Hc & Htk & Hdk).
  rewrite <- Hw in Hc, Htk, Hdk.
  set (tk := fresh_id (LabeledSet_table w)) in *.
  set (dk := fresh_id (<[tk := new_labeled_set]> (LabeledSet_table w))) in *.
  set (c1 := Classifier.set_sets (Some tk) (Some dk) c) in *.
  assert (Classifier.train_set c1 = Some tk) as Hts1 by reflexivity.
  assert (Classifier.dev_set c1 = Some dk) as Hds1 by reflexivity.
  assert (Classifier.name c1 = Classifier.name c) as Hn by reflexivity.
  assert (Classifier.trained_by_openFraming c1 = Classifier.trained_by_openFraming c)
    as Ht by reflexivity.
  assert (Classifier.category_names c1 = Classifier.category_names c)
    as Hcn by reflexivity.
  clearbody c1 tk dk. clear Hw. subst classifier_id.
  exists c1, tk, dk. cbn [do_classifier_related_task].
  rewrite (training_task_loaded _ _ _ _ _ _ _ _ Hc Hts1 Htk Hds1 Hdk).
  unfold with_locals, try_except_else_finally.
  rewrite trainer_body_result.
  unfold _classifier_status, mbind, Py_bind, bind, get, fk_get, table_get.
  cbn [snd fst ret st_name st_trained_by_openFraming st_category_names].
  rewrite Hts1, Hn, Ht, Hcn.
  destruct w1 as [ct lt mt tt_ tmt ldt fs ds sch se cl]. cbn in Hc, Htk, Hdk.
  destruct (trainer_result workers task_args) as [metrics|e].
  - cbv [mbind Py_bind bind set_locals in_world locals Metrics_save send_email
         modify call_ LabeledSet_save Classifier_save on_train_set on_dev_set
         fst snd clsf clsf_train_set clsf_dev_set prod_map id].
    cbn. rewrite (lookup_insert_ne _ tk dk) by exact Hne.
    rewrite !lookup_insert_eq. repeat split; try reflexivity; assumption.
  - cbn. rewrite (lookup_insert_ne _ tk dk) by exact Hne.
    rewrite !lookup_insert_eq. rewrite <- Hn, <- Ht, <- Hcn.
    repeat split; try reflexivity; assumption.
Qed.

End Lifecycle.

(** An upload that is rejected for a category with a single example: its
    preparation raises, and so does the upload, with the world as it was. *)
Lemma upload_preparation_reads_only_witness :
  let env := example_env (header :: lonely_neg) draw_16_4 in
  (upload_preparation env upload 7 untrained_world).2 = untrained_world ∧
  ClassifiersTrainingFile_post env upload 7 untrained_world
  = (Raise (InsufficientPerCategoryError ["neg"]), untrained_world).
Proof.
  intros env. split.
  - apply (proj1 (upload_preparation_reads_only env upload 7 untrained_world)).
  - apply (proj1 (proj2 (upload_preparation_reads_only env upload 7
                           untrained_world))).
    vm_compute; reflexivity.
Defined.

(** The upload of ten positive and ten negative rows to classifier 7. *)
Lemma upload_effects_witness :
  let env := example_env (header :: pos_neg_20) draw_16_4 in
  ∃ tk dk w',
    ClassifiersTrainingFile_post env upload 7 untrained_world
    = (Ok (mkStatus 7 "sentiment" false ["pos"; "neg"] "training"), w') ∧
    tk ≠ dk ∧
    LabeledSet_table w' !! tk = Some new_labeled_set ∧
    LabeledSet_table w' !! dk = Some new_labeled_set ∧
    Classifier_table w' !! 7 = Some (Classifier.set_sets (Some tk) (Some dk) untrained) ∧
    Classifier_table w' !! 8 = Some three_way ∧
    scheduled w'
    = [mkTrainingProcess ["pos"; "neg"] "distilbert" "/data/7" "/cache" "/data/7/out"].
Proof.
  intros env.
  destruct (upload_effects env upload 7 untrained_world untrained
              "example,category" pos_neg_20 (draw_16_4.1) (draw_16_4.2))
    as (tk & dk & w' & Hpost & Hne & _ & _ & Htk & Hdk & _ & Hc & Hother & Hq & _).
  - exact fifth_is_fraction.
  - reflexivity.
  - vm_compute; reflexivity.
  - reflexivity.
  - split; [reflexivity|]. repeat constructor.
  - apply (proj1 (set_eqb_spec _ _)). vm_compute; reflexivity.
  - intros x Hx. apply Nat.leb_le. revert x Hx.
    apply (proj1 (forallb_forall
                    (fun x => Nat.leb 2 (count_occ string_dec
                                           (category_column pos_neg_20) x)) _)).
    vm_compute; reflexivity.
  - discriminate.
  - vm_compute; lia.
  - vm_compute; reflexivity.
  - intros i Hi. apply Nat.ltb_lt. revert i Hi.
    apply (proj1 (forallb_forall (fun i => Nat.ltb i (length pos_neg_20)) _)).
    vm_compute; reflexivity.
  - exists tk, dk, w'. split; [exact Hpost|]. split; [exact Hne|].
    split; [exact Htk|]. split; [exact Hdk|]. split; [exact Hc|].
    split; [rewrite (Hother 8) by discriminate; reflexivity|exact Hq].
Defined.

(** The same upload, sent twice. *)
Lemma upload_succeeds_once_witness :
  let env := example_env (header :: pos_neg_20) draw_16_4 in
  let uploaded := (ClassifiersTrainingFile_post env upload 7 untrained_world).2 in
  ClassifiersTrainingFile_post env upload 7 uploaded
  = (Raise (AlreadyExists "This classifier already has a training set."), uploaded).
Proof.
  intros env uploaded.
  apply (upload_succeeds_once env upload upload 7 untrained_world uploaded
           (mkStatus 7 "sentiment" false ["pos"; "neg"] "training")
           "example,category").
  - vm_compute; reflexivity.
  - reflexivity.
Defined.

(** Three categories with two rows each: the dev share has two places. *)
Lemma crowded_upload_not_split_witness :
  ∃ msg,
    ClassifiersTrainingFile_post (example_env (header :: three_by_two) draw_16_4)
      upload 8 untrained_world
    = (Raise (ValueError msg), untrained_world).
Proof.
  apply (crowded_upload_not_split (example_env (header :: three_by_two) draw_16_4)
           upload 8 untrained_world three_way "example,category" three_by_two).
  - exact fifth_is_fraction.
  - reflexivity.
  - vm_compute; reflexivity.
  - reflexivity.
  - split; [reflexivity|]. repeat constructor.
  - apply (proj1 (set_eqb_spec _ _)). vm_compute; reflexivity.
  - intros x Hx. apply Nat.leb_le. revert x Hx.
    apply (proj1 (forallb_forall
                    (fun x => Nat.leb 2 (count_occ string_dec
                                           (category_column three_by_two) x)) _)).
    vm_compute; reflexivity.
  - discriminate.
  - apply NoDup_ListNoDup. compute_done.
  - vm_compute; lia.
Defined.

(** Two categories with two rows each are accepted. *)
Lemma validator_accepts_iff_witness :
  ∃ r, _validate_training_file_and_get_data
         (example_env (header :: two_by_two) draw_16_4) ["pos"; "neg"]
         "example,category" tt
       = (Ok r, tt).
Proof.
  apply (proj1 (validator_accepts_iff
                  (example_env (header :: two_by_two) draw_16_4) ["pos"; "neg"]
                  "example,category" two_by_two tt fifth_is_fraction
                  ltac:(split; [reflexivity|repeat constructor]))).
  split.
  - apply (proj1 (set_eqb_spec _ _)). vm_compute; reflexivity.
  - intros x [<-|[<-|[<-|[<-|[]]]]]; vm_compute; lia.
Defined.

(** The upload of ten positive and ten negative rows, followed by a training
    job whose trainer returns. *)
Lemma upload_then_training_job_witness :
  let env := example_env (header :: pos_neg_20) draw_16_4 in
  let uploaded := (ClassifiersTrainingFile_post env upload 7 untrained_world).2 in
  let trained := (do_classifier_related_task succeeding_trainer
                    (training sentiment_job) uploaded).2 in
  ∃ c1 tk dk,
    Classifier_table trained !! 7 = Some c1 ∧
    Classifier.train_set c1 = Some tk ∧ Classifier.dev_set c1 = Some dk ∧
    LabeledSet_table trained !! tk = Some (LabeledSet.mk true false None) ∧
    LabeledSet_table trained !! dk
    = Some (LabeledSet.mk true false (Some accuracy_metrics)) ∧
    (_classifier_status (7, c1) trained).1
    = Ok (mkStatus 7 "sentiment" false ["pos"; "neg"] "completed").
Proof.
  intros env uploaded trained.
  destruct (upload_then_training_job env succeeding_trainer upload 7 sentiment_job
              untrained_world uploaded
              (mkStatus 7 "sentiment" false ["pos"; "neg"] "training"))
    as (c1 & tk & dk & Hc & Ht & Hd & Htr & Hdv & Hst).
  - vm_compute; reflexivity.
  - reflexivity.
  - exists c1, tk, dk. repeat split; assumption.
Defined.
